(** * OnlineStoreApi: the query and recommendation engine

    A shallow embedding of the in-memory store
    ([app/database/memory_db.py]), of the filter, sort and pagination
    helpers of the product router ([app/routers/products.py]), of the
    recommendation service ([app/services/recommendation.py]) and of the
    price-range handler ([app/routers/recommendations.py]); then of the
    API-key authentication ([app/auth/api_key.py]) and of the handlers of
    the product, review and category routers
    ([app/routers/products.py], [app/routers/reviews.py],
    [app/routers/categories.py]).

    Conventions of the embedding.
    - Python [int] is [Z].  A Python [float] is the rational number [Q]
      that the binary64 number denotes, and its arithmetic rounds to the
      nearest binary64 number as IEEE 754 does ([Py.float]).  NaN and the
      infinities are not values: a result beyond the largest float, where
      Python gives [inf] or raises [OverflowError], is outside the
      embedding.  [==] on floats is [Qeq].
    - Python [str] is [string], the characters in UTF-8; comparison of
      strings is the lexicographic order on character codes, which is the
      order of the bytes, and a substring is a substring of the bytes.
      [str.lower] is a parameter ([Py.Lower]).
    - A Python [dict] used as a table (id -> record) is an association list
      in insertion order, which is the order [dict.values()] iterates in.
    - A record dict ([Dict[str, Any]]) is a Rocq record carrying the keys
      that the pydantic schemas [Product] and [Review] make mandatory, so
      the defaults of [p.get(key, default)] are never taken.  One call
      writes [None] into such a dict: [update_product] with an update
      dict in which a key holds [None], which schema [ProductUpdate]
      admits.  [update_product] is embedded for every update dict; the
      dict it then leaves is a [ProductDict.t], and a store that holds
      one is not a [database].  The sequences of operations ([store_op])
      and of requests ([request]) carry the update dicts without [None]
      ([ProductChanges.t]).
    - [datetime.now().isoformat()] is an explicit argument of the
      operation that calls it.
    - The store lock is not modelled: operations run one after another.
    - A handler is a function of the path, query, header and body values
      and of the store; it gives a response, and the store after it when
      it writes.  Its FastAPI dependencies run first, in the order of
      their nesting.  The validation of the values by FastAPI and
      pydantic (the 422 answers) is not part of the handlers. *)

From Stdlib Require Import List ZArith QArith Qabs Qminmax Qround Qpower Lqa.
From Stdlib Require Import Lia Bool String Ascii Permutation Sorted.
From Stdlib Require Import DecimalString DecimalZ DecimalPos.
Import ListNotations.

Set Implicit Arguments.

(** ** Python built-ins used by the code *)

Module Py.

(** [a < b], [a <= b], [a == b] on floats. *)
Definition Qltb (a b : Q) : bool := negb (Qle_bool b a).
Definition Qleb (a b : Q) : bool := Qle_bool a b.
Definition Qeqb (a b : Q) : bool := Qeq_bool a b.

(** [abs(x)] and [max(a, b)]: [max] returns its first argument unless the
    second is strictly greater. *)
Definition abs (x : Q) : Q := if Qltb x 0 then (- x)%Q else x.
Definition max (a b : Q) : Q := if Qltb a b then b else a.

(** Truthiness of an [int] and of a [str]. *)
Definition truthy_int (z : Z) : bool := negb (z =? 0)%Z.
Definition truthy_str (s : string) : bool :=
  match s with EmptyString => false | String _ _ => true end.

(** [len(l)]. *)
Definition len {A : Type} (l : list A) : Z := Z.of_nat (List.length l).

(** An index of a slice, brought into [0 .. len]: a negative index counts
    from the end, and what falls outside is clamped. *)
Definition clamp (n k : Z) : Z :=
  if (k <? 0)%Z then Z.max 0 (k + n) else Z.min k n.

(** [l[start:stop]]. *)
Definition slice {A : Type} (l : list A) (start stop : Z) : list A :=
  let i := clamp (len l) start in
  let j := clamp (len l) stop in
  firstn (Z.to_nat (j - i)) (skipn (Z.to_nat i) l).

(** [l[:stop]]. *)
Definition slice_to {A : Type} (l : list A) (stop : Z) : list A :=
  slice l 0 stop.

(** Nearest integer, ties to the even neighbour. *)
Definition round_half_even (x : Q) : Z :=
  let f := Qfloor x in
  match Qcompare (x - inject_Z f) (1 # 2) with
  | Lt => f
  | Gt => (f + 1)%Z
  | Eq => if Z.even f then f else (f + 1)%Z
  end.

(** *** Floats

    A Python [float] is an IEEE 754 binary64 number.  It is held as the
    rational number it denotes; the operations below give, as Python
    does, the float nearest to the exact result, ties to the even
    mantissa. *)

(** [2 ** e]. *)
Definition pow2 (e : Z) : Q := (2 ^ e)%Q.

(** The exponent of the binade of a positive [x]:
    [2 ** ilog2 x <= x < 2 ** (ilog2 x + 1)]. *)
Definition ilog2 (x : Q) : Z :=
  if Qle_bool 1 x then Z.log2 (Qfloor x)
  else (- Z.log2_up (Qceiling (/ x)))%Z.

(** The float nearest to a positive [x]: 53 bits of mantissa, and no
    exponent below that of the subnormal numbers. *)
Definition nearest (x : Q) : Q :=
  let e := Z.max (ilog2 x - 52) (-1074) in
  inject_Z (round_half_even (x / pow2 e)) * pow2 e.

(** The float nearest to [x]: what a literal, [float(x)] and every
    operation round to. *)
Definition float (x : Q) : Q :=
  match Qcompare x 0 with
  | Eq => 0
  | Gt => Qred (nearest x)
  | Lt => Qred (- nearest (- x))
  end.


(** [a + b], [a - b], [a * b] and [a / b] with a float among the
    operands, an [int] operand being converted first (exactly, below
    [2 ** 53]). *)
Definition fadd (a b : Q) : Q := float (a + b).
Definition fsub (a b : Q) : Q := float (a - b).
Definition fmul (a b : Q) : Q := float (a * b).
Definition fdiv (a b : Q) : Q := float (a / b).

(** [a / b] on two [int]: the float nearest to the quotient. *)
Definition truediv (a b : Z) : Q := float (inject_Z a / inject_Z b).

(** The multiple of [10^-ndigits] nearest to [x], ties to the even
    one. *)
Definition round_decimal (x : Q) (ndigits : nat) : Q :=
  let s := Z.to_pos (10 ^ Z.of_nat ndigits) in
  Qred (round_half_even (x * inject_Z (Zpos s)) # s).

(** [round(x, ndigits)] on a float, for [ndigits >= 0]: the value of the
    float is rounded to [ndigits] decimals, ties to even, and the float
    nearest to that decimal is returned. *)
Definition round (x : Q) (ndigits : nat) : Q :=
  float (round_decimal x ndigits).

(** [sum(l)] of integers. *)
Definition sum (l : list Z) : Z := fold_left Z.add l 0%Z.

(** [s.lower()] maps every cased character of Unicode to its lowercase
    form.  The mapping is a built-in table of Python, not code of the
    repository: it is a parameter of the embedding, and what is proved
    holds whatever the mapping is. *)
Class Lower : Type := lower : string -> string.

(** On the strings that hold ASCII characters only, [s.lower()] maps the
    letters [A] to [Z] to [a] to [z] and keeps every other character. *)
Definition lower_ascii (c : ascii) : ascii :=
  let n := nat_of_ascii c in
  if (Nat.leb 65 n && Nat.leb n 90)%bool then ascii_of_nat (n + 32) else c.

Fixpoint lower_ascii_str (s : string) : string :=
  match s with
  | EmptyString => EmptyString
  | String c s' => String (lower_ascii c) (lower_ascii_str s')
  end.

(** [sorted(l, key=key, reverse=reverse)] and [l.sort(...)]: a stable sort
    that compares keys with [<] only.  With [reverse] the list is reversed,
    sorted, and reversed again, which keeps equal keys in their original
    order.  The sort is written as an insertion sort: an element goes
    before the first element of the sorted rest that is not smaller.  On
    keys in a total preorder all stable sorts give the same list
    ([ranking_unique] below). *)
Section Sorting.
Variables A K : Type.
Variable ltb : K -> K -> bool.
Variable key : A -> K.

Fixpoint insert (x : A) (l : list A) : list A :=
  match l with
  | [] => [x]
  | y :: l' => if ltb (key y) (key x) then y :: insert x l' else x :: l
  end.

Fixpoint sort_asc (l : list A) : list A :=
  match l with
  | [] => []
  | x :: l' => insert x (sort_asc l')
  end.

Definition sorted (reverse : bool) (l : list A) : list A :=
  if reverse then rev (sort_asc (rev l)) else sort_asc l.

End Sorting.

End Py.

(** ** Records *)

(** A stored product, with the keys of schema [Product]. *)
Module Product.
Record t : Type := mk {
  id : Z;
  name : string;
  description : string;
  category_id : Z;
  seller_id : Z;
  price : Q;
  discount_percentage : Q;
  stock_status : string;
  features : list (string * string);
  images : list string;
  created_at : string;
  updated_at : string;
  average_rating : Q;
  review_count : Z;
  final_price : Q
}.
End Product.

(** The argument of [create_product]: [ProductCreate.model_dump()] with the
    seller added by the router. *)
Module ProductData.
Record t : Type := mk {
  name : string;
  description : string;
  category_id : Z;
  seller_id : Z;
  price : Q;
  discount_percentage : Q;
  stock_status : string;
  features : list (string * string);
  images : list string
}.
End ProductData.

(** A key of [model_dump(exclude_unset=True)], the dict that the handler
    of [PUT] makes of its body.  Every field of schema [ProductUpdate] is
    [Optional] with default [None]: a field that the body leaves out is
    not a key of the dict ([Unset]), a field that the body has as [null]
    is a key that holds [None] ([Null]), and any other field is a key
    that holds the value sent ([Given]). *)
Inductive field (A : Type) : Type :=
| Unset
| Null
| Given (a : A).

Arguments Unset {A}.
Arguments Null {A}.
Arguments Given {A} a.

(** The argument of [update_product]:
    [ProductUpdate.model_dump(exclude_unset=True)]. *)
Module ProductUpdate.
Record t : Type := mk {
  name : field string;
  description : field string;
  category_id : field Z;
  price : field Q;
  discount_percentage : field Q;
  stock_status : field string;
  features : field (list (string * string));
  images : field (list string)
}.
End ProductUpdate.

(** An update dict none of whose keys holds [None]; [None] is here a key
    that is not in the dict.  These are the updates after which every
    product of the store is again a [Product.t]; the operations of
    [store_op] and the requests of [request] carry them.  What
    [update_product] does with any dict, a [None] among its values or
    not, is [update_product] below. *)
Module ProductChanges.
Record t : Type := mk {
  name : option string;
  description : option string;
  category_id : option Z;
  price : option Q;
  discount_percentage : option Q;
  stock_status : option string;
  features : option (list (string * string));
  images : option (list string)
}.
End ProductChanges.

(** A product dict of the store right after [product.update(product_data)]:
    the keys that the update can write may hold [None]. *)
Module ProductDict.
Record t : Type := mk {
  id : Z;
  name : option string;
  description : option string;
  category_id : option Z;
  seller_id : Z;
  price : option Q;
  discount_percentage : option Q;
  stock_status : option string;
  features : option (list (string * string));
  images : option (list string);
  created_at : string;
  updated_at : string;
  average_rating : Q;
  review_count : Z;
  final_price : Q
}.
End ProductDict.

(** A stored review, with the keys of schema [Review]. *)
Module Review.
Record t : Type := mk {
  id : Z;
  product_id : Z;
  user_id : Z;
  rating : Z;
  title : string;
  comment : string;
  pros : list string;
  cons : list string;
  created_at : string;
  helpful_count : Z
}.
End Review.

(** The argument of [create_review]: [ReviewCreate.model_dump()] with the
    product added by the router. *)
Module ReviewData.
Record t : Type := mk {
  product_id : Z;
  user_id : Z;
  rating : Z;
  title : string;
  comment : string;
  pros : list string;
  cons : list string
}.
End ReviewData.

(** ** A dict with integer keys, in insertion order *)

Module Dict.
Section Ops.
Variable V : Type.

Definition t : Type := list (Z * V).

(** [d.get(k)]. *)
Fixpoint get (d : t) (k : Z) : option V :=
  match d with
  | [] => None
  | (k', v) :: d' => if (k' =? k)%Z then Some v else get d' k
  end.

(** [k in d]. *)
Definition contains (d : t) (k : Z) : bool :=
  match get d k with Some _ => true | None => false end.

(** [d[k] = v]: an existing key keeps its place, a new one goes last. *)
Fixpoint set (d : t) (k : Z) (v : V) : t :=
  match d with
  | [] => [(k, v)]
  | (k', v') :: d' =>
      if (k' =? k)%Z then (k', v) :: d' else (k', v') :: set d' k v
  end.

(** [del d[k]]. *)
Definition del (d : t) (k : Z) : t :=
  filter (fun kv => negb (fst kv =? k)%Z) d.

(** [{k: v for k, v in d.items() if keep(v)}]. *)
Definition filter_values (keep : V -> bool) (d : t) : t :=
  filter (fun kv => keep (snd kv)) d.

(** [d.values()]. *)
Definition values (d : t) : list V := map snd d.

(** Mutation in place of the record stored under [k]. *)
Definition modify (d : t) (k : Z) (f : V -> V) : t :=
  match get d k with
  | Some v => set d k (f v)
  | None => d
  end.

End Ops.
End Dict.

(** ** The store ([InMemoryDatabase]) *)

Record database : Type := mk_database {
  _products : Dict.t Product.t;
  _reviews : Dict.t Review.t;
  _product_counter : Z;
  _review_counter : Z
}.

(** [InMemoryDatabase()]. *)
Definition empty_database : database :=
  {| _products := []; _reviews := [];
     _product_counter := 0; _review_counter := 0 |}.

Definition get_all_products (db : database) : list Product.t :=
  Dict.values (_products db).

Definition get_product (db : database) (product_id : Z) : option Product.t :=
  Dict.get (_products db) product_id.

Definition get_products_by_category (db : database) (category_id : Z)
  : list Product.t :=
  filter (fun p => (Product.category_id p =? category_id)%Z)
         (Dict.values (_products db)).

(** The price after discount, as both [create_product] and
    [change_product] compute it:
    [round(price * (1 - discount / 100), 2)]. *)
Definition compute_final_price (price discount : Q) : Q :=
  Py.round (Py.fmul price (Py.fsub 1 (Py.fdiv discount 100))) 2.

(** [create_product(product_data)]; [now1] and [now2] are the two readings
    of the clock. *)
Definition create_product (product_data : ProductData.t) (now1 now2 : string)
  (db : database) : database * Product.t :=
  let product_id := (_product_counter db + 1)%Z in
  let price := ProductData.price product_data in
  let discount := ProductData.discount_percentage product_data in
  let product :=
    {| Product.id := product_id;
       Product.name := ProductData.name product_data;
       Product.description := ProductData.description product_data;
       Product.category_id := ProductData.category_id product_data;
       Product.seller_id := ProductData.seller_id product_data;
       Product.price := price;
       Product.discount_percentage := discount;
       Product.stock_status := ProductData.stock_status product_data;
       Product.features := ProductData.features product_data;
       Product.images := ProductData.images product_data;
       Product.created_at := now1;
       Product.updated_at := now2;
       Product.average_rating := 0;
       Product.review_count := 0;
       Product.final_price := compute_final_price price discount |} in
  ({| _products := Dict.set (_products db) product_id product;
      _reviews := _reviews db;
      _product_counter := product_id;
      _review_counter := _review_counter db |}, product).

(** [x] when the key is in the update, the stored value otherwise. *)
Definition merged {A : Type} (new : option A) (old : A) : A :=
  match new with Some x => x | None => old end.

(** [product.update(product_data)], then the new [updated_at] and the
    recomputed [final_price]. *)
Definition updated_product (product : Product.t)
  (product_data : ProductChanges.t) (now : string) : Product.t :=
  let price := merged (ProductChanges.price product_data)
                      (Product.price product) in
  let discount := merged (ProductChanges.discount_percentage product_data)
                         (Product.discount_percentage product) in
  {| Product.id := Product.id product;
     Product.name :=
       merged (ProductChanges.name product_data) (Product.name product);
     Product.description :=
       merged (ProductChanges.description product_data)
              (Product.description product);
     Product.category_id :=
       merged (ProductChanges.category_id product_data)
              (Product.category_id product);
     Product.seller_id := Product.seller_id product;
     Product.price := price;
     Product.discount_percentage := discount;
     Product.stock_status :=
       merged (ProductChanges.stock_status product_data)
              (Product.stock_status product);
     Product.features :=
       merged (ProductChanges.features product_data)
              (Product.features product);
     Product.images :=
       merged (ProductChanges.images product_data) (Product.images product);
     Product.created_at := Product.created_at product;
     Product.updated_at := now;
     Product.average_rating := Product.average_rating product;
     Product.review_count := Product.review_count product;
     Product.final_price := compute_final_price price discount |}.

(** [update_product(product_id, product_data)] for an update none of
    whose keys holds [None] (lemma [update_product_without_none]). *)
Definition change_product (product_id : Z) (product_data : ProductChanges.t)
  (now : string) (db : database) : database * option Product.t :=
  match Dict.get (_products db) product_id with
  | None => (db, None)
  | Some product =>
      let product' := updated_product product product_data now in
      ({| _products := Dict.set (_products db) product_id product';
          _reviews := _reviews db;
          _product_counter := _product_counter db;
          _review_counter := _review_counter db |}, Some product')
  end.

(** The update dict with the same keys and values. *)
Definition of_option {A : Type} (o : option A) : field A :=
  match o with Some a => Given a | None => Unset end.

Definition to_update (c : ProductChanges.t) : ProductUpdate.t :=
  {| ProductUpdate.name := of_option (ProductChanges.name c);
     ProductUpdate.description := of_option (ProductChanges.description c);
     ProductUpdate.category_id := of_option (ProductChanges.category_id c);
     ProductUpdate.price := of_option (ProductChanges.price c);
     ProductUpdate.discount_percentage :=
       of_option (ProductChanges.discount_percentage c);
     ProductUpdate.stock_status :=
       of_option (ProductChanges.stock_status c);
     ProductUpdate.features := of_option (ProductChanges.features c);
     ProductUpdate.images := of_option (ProductChanges.images c) |}.

(** A key of the update dict holds [None]. *)
Definition is_null {A : Type} (f : field A) : bool :=
  match f with Null => true | _ => false end.

Definition holds_none (u : ProductUpdate.t) : bool :=
  (is_null (ProductUpdate.name u)
   || is_null (ProductUpdate.description u)
   || is_null (ProductUpdate.category_id u)
   || is_null (ProductUpdate.price u)
   || is_null (ProductUpdate.discount_percentage u)
   || is_null (ProductUpdate.stock_status u)
   || is_null (ProductUpdate.features u)
   || is_null (ProductUpdate.images u))%bool.

(** The keys of an update dict that hold a value, with their values. *)
Definition to_option {A : Type} (f : field A) : option A :=
  match f with Given a => Some a | _ => None end.

Definition values (u : ProductUpdate.t) : ProductChanges.t :=
  {| ProductChanges.name := to_option (ProductUpdate.name u);
     ProductChanges.description := to_option (ProductUpdate.description u);
     ProductChanges.category_id := to_option (ProductUpdate.category_id u);
     ProductChanges.price := to_option (ProductUpdate.price u);
     ProductChanges.discount_percentage :=
       to_option (ProductUpdate.discount_percentage u);
     ProductChanges.stock_status :=
       to_option (ProductUpdate.stock_status u);
     ProductChanges.features := to_option (ProductUpdate.features u);
     ProductChanges.images := to_option (ProductUpdate.images u) |}.

(** What a key of the product holds after [product.update(product_data)]:
    the stored value when the update does not have the key, and what the
    update has otherwise, [None] included. *)
Definition assigned {A : Type} (new : field A) (old : A) : option A :=
  match new with
  | Unset => Some old
  | Null => None
  | Given a => Some a
  end.

(** [product.update(product_data)] and [product["updated_at"] = now]: the
    stored dict is changed in place, and its final price is still the
    one it had. *)
Definition dict_update (product : Product.t)
  (product_data : ProductUpdate.t) (now : string) : ProductDict.t :=
  {| ProductDict.id := Product.id product;
     ProductDict.name :=
       assigned (ProductUpdate.name product_data) (Product.name product);
     ProductDict.description :=
       assigned (ProductUpdate.description product_data)
                (Product.description product);
     ProductDict.category_id :=
       assigned (ProductUpdate.category_id product_data)
                (Product.category_id product);
     ProductDict.seller_id := Product.seller_id product;
     ProductDict.price :=
       assigned (ProductUpdate.price product_data) (Product.price product);
     ProductDict.discount_percentage :=
       assigned (ProductUpdate.discount_percentage product_data)
                (Product.discount_percentage product);
     ProductDict.stock_status :=
       assigned (ProductUpdate.stock_status product_data)
                (Product.stock_status product);
     ProductDict.features :=
       assigned (ProductUpdate.features product_data)
                (Product.features product);
     ProductDict.images :=
       assigned (ProductUpdate.images product_data)
                (Product.images product);
     ProductDict.created_at := Product.created_at product;
     ProductDict.updated_at := now;
     ProductDict.average_rating := Product.average_rating product;
     ProductDict.review_count := Product.review_count product;
     ProductDict.final_price := Product.final_price product |}.

(** [product["final_price"] = final_price]. *)
Definition set_final_price (product : ProductDict.t) (final_price : Q)
  : ProductDict.t :=
  {| ProductDict.id := ProductDict.id product;
     ProductDict.name := ProductDict.name product;
     ProductDict.description := ProductDict.description product;
     ProductDict.category_id := ProductDict.category_id product;
     ProductDict.seller_id := ProductDict.seller_id product;
     ProductDict.price := ProductDict.price product;
     ProductDict.discount_percentage :=
       ProductDict.discount_percentage product;
     ProductDict.stock_status := ProductDict.stock_status product;
     ProductDict.features := ProductDict.features product;
     ProductDict.images := ProductDict.images product;
     ProductDict.created_at := ProductDict.created_at product;
     ProductDict.updated_at := ProductDict.updated_at product;
     ProductDict.average_rating := ProductDict.average_rating product;
     ProductDict.review_count := ProductDict.review_count product;
     ProductDict.final_price := final_price |}.

(** The product that a dict is when none of its keys holds [None]. *)
Definition to_product (d : ProductDict.t) : option Product.t :=
  match ProductDict.name d, ProductDict.description d,
        ProductDict.category_id d, ProductDict.price d,
        ProductDict.discount_percentage d, ProductDict.stock_status d,
        ProductDict.features d, ProductDict.images d with
  | Some name, Some description, Some category_id, Some price,
    Some discount_percentage, Some stock_status, Some features,
    Some images =>
      Some {| Product.id := ProductDict.id d;
              Product.name := name;
              Product.description := description;
              Product.category_id := category_id;
              Product.seller_id := ProductDict.seller_id d;
              Product.price := price;
              Product.discount_percentage := discount_percentage;
              Product.stock_status := stock_status;
              Product.features := features;
              Product.images := images;
              Product.created_at := ProductDict.created_at d;
              Product.updated_at := ProductDict.updated_at d;
              Product.average_rating := ProductDict.average_rating d;
              Product.review_count := ProductDict.review_count d;
              Product.final_price := ProductDict.final_price d |}
  | _, _, _, _, _, _, _, _ => None
  end.

(** How a call of [update_product] ends.  [Returns db result]: it
    returns [result], [None] or a product, and leaves the store [db].
    [ReturnsDict stored]: it returns the dict of the product, which is
    now [stored] and has a key that holds [None].  [RaisesTypeError
    stored]: the arithmetic on a price or a discount that is [None]
    raises [TypeError], and the dict of the product is left as [stored].
    In the last two cases all other products, the reviews and the
    counters are as before the call. *)
Inductive update_outcome : Type :=
| Returns (db : database) (result : option Product.t)
| ReturnsDict (stored : ProductDict.t)
| RaisesTypeError (stored : ProductDict.t).

(** [update_product(product_id, product_data)]: the dict of the product
    is updated in place and gets the new [updated_at]; then the price
    and the discount are read from it and the final price is computed
    and stored, which raises [TypeError] when one of the two is
    [None]. *)
Definition update_product (product_id : Z) (product_data : ProductUpdate.t)
  (now : string) (db : database) : update_outcome :=
  match Dict.get (_products db) product_id with
  | None => Returns db None
  | Some product =>
      let product := dict_update product product_data now in
      match ProductDict.price product,
            ProductDict.discount_percentage product with
      | Some price, Some discount =>
          let product :=
            set_final_price product (compute_final_price price discount) in
          match to_product product with
          | Some p =>
              Returns {| _products := Dict.set (_products db) product_id p;
                         _reviews := _reviews db;
                         _product_counter := _product_counter db;
                         _review_counter := _review_counter db |} (Some p)
          | None => ReturnsDict product
          end
      | _, _ => RaisesTypeError product
      end
  end.

(** [delete_product(product_id)]: the product goes, and its reviews with
    it. *)
Definition delete_product (product_id : Z) (db : database)
  : database * bool :=
  if Dict.contains (_products db) product_id then
    ({| _products := Dict.del (_products db) product_id;
        _reviews :=
          Dict.filter_values
            (fun v => negb (Review.product_id v =? product_id)%Z)
            (_reviews db);
        _product_counter := _product_counter db;
        _review_counter := _review_counter db |}, true)
  else (db, false).

(** The reviews of a product, as [update_product_rating] collects them. *)
Definition product_reviews (db : database) (product_id : Z)
  : list Review.t :=
  filter (fun r => (Review.product_id r =? product_id)%Z)
         (Dict.values (_reviews db)).

(** [update_product_rating(product_id)]. *)
Definition update_product_rating (product_id : Z) (db : database)
  : database :=
  if negb (Dict.contains (_products db) product_id) then db
  else
    let rs := product_reviews db product_id in
    let set_rating (avg : Q) (n : Z) (p : Product.t) : Product.t :=
      {| Product.id := Product.id p;
         Product.name := Product.name p;
         Product.description := Product.description p;
         Product.category_id := Product.category_id p;
         Product.seller_id := Product.seller_id p;
         Product.price := Product.price p;
         Product.discount_percentage := Product.discount_percentage p;
         Product.stock_status := Product.stock_status p;
         Product.features := Product.features p;
         Product.images := Product.images p;
         Product.created_at := Product.created_at p;
         Product.updated_at := Product.updated_at p;
         Product.average_rating := avg;
         Product.review_count := n;
         Product.final_price := Product.final_price p |} in
    let products' :=
      match rs with
      | _ :: _ =>
          let avg_rating :=
            Py.truediv (Py.sum (map Review.rating rs)) (Py.len rs) in
          Dict.modify (_products db) product_id
            (set_rating (Py.round avg_rating 2) (Py.len rs))
      | [] => Dict.modify (_products db) product_id (set_rating 0 0%Z)
      end in
    {| _products := products';
       _reviews := _reviews db;
       _product_counter := _product_counter db;
       _review_counter := _review_counter db |}.

(** [create_review(review_data)]: the review is stored, then the rating of
    its product is recomputed. *)
Definition create_review (review_data : ReviewData.t) (now : string)
  (db : database) : database * Review.t :=
  let review_id := (_review_counter db + 1)%Z in
  let review :=
    {| Review.id := review_id;
       Review.product_id := ReviewData.product_id review_data;
       Review.user_id := ReviewData.user_id review_data;
       Review.rating := ReviewData.rating review_data;
       Review.title := ReviewData.title review_data;
       Review.comment := ReviewData.comment review_data;
       Review.pros := ReviewData.pros review_data;
       Review.cons := ReviewData.cons review_data;
       Review.created_at := now;
       Review.helpful_count := 0 |} in
  let db1 :=
    {| _products := _products db;
       _reviews := Dict.set (_reviews db) review_id review;
       _product_counter := _product_counter db;
       _review_counter := review_id |} in
  (update_product_rating (ReviewData.product_id review_data) db1, review).

(** ** Filter, sort and pagination stages ([app/routers/products.py]) *)

(** The keyword arguments of [apply_filters]; [None] is an argument that is
    not passed, or passed as [None]. *)
Module Filters.
Record t : Type := mk {
  category_id : option Z;
  min_price : option Q;
  max_price : option Q;
  min_rating : option Q;
  stock_status : option string;
  seller_id : option Z;
  has_discount : option bool
}.

Definition none : t :=
  {| category_id := None; min_price := None; max_price := None;
     min_rating := None; stock_status := None; seller_id := None;
     has_discount := None |}.
End Filters.

(** [apply_filters(products, **filters)]: one list comprehension after the
    other, each behind its own test. *)
Definition apply_filters (products : list Product.t) (filters : Filters.t)
  : list Product.t :=
  let result := products in
  let result :=
    match Filters.category_id filters with
    | Some c =>
        if Py.truthy_int c
        then filter (fun p => (Product.category_id p =? c)%Z) result
        else result
    | None => result
    end in
  let result :=
    match Filters.min_price filters with
    | Some m => filter (fun p => Py.Qleb m (Product.final_price p)) result
    | None => result
    end in
  let result :=
    match Filters.max_price filters with
    | Some m => filter (fun p => Py.Qleb (Product.final_price p) m) result
    | None => result
    end in
  let result :=
    match Filters.min_rating filters with
    | Some m => filter (fun p => Py.Qleb m (Product.average_rating p)) result
    | None => result
    end in
  let result :=
    match Filters.stock_status filters with
    | Some s =>
        if Py.truthy_str s
        then filter (fun p => String.eqb (Product.stock_status p) s) result
        else result
    | None => result
    end in
  let result :=
    match Filters.seller_id filters with
    | Some s =>
        if Py.truthy_int s
        then filter (fun p => (Product.seller_id p =? s)%Z) result
        else result
    | None => result
    end in
  let result :=
    match Filters.has_discount filters with
    | Some true =>
        filter (fun p => Py.Qltb 0 (Product.discount_percentage p)) result
    | _ => result
    end in
  result.

Inductive SortOrder : Type := ASC | DESC.

Inductive ProductSortBy : Type :=
  PRICE | RATING | NAME | CREATED_AT | DISCOUNT | REVIEW_COUNT.

(** [apply_sorting(products, sort_by, order)]: the key function is looked
    up in [key_map], and [sorted] does the rest. *)
Definition apply_sorting {L : Py.Lower} (products : list Product.t)
  (sort_by : ProductSortBy) (order : SortOrder) : list Product.t :=
  let reverse := match order with DESC => true | ASC => false end in
  match sort_by with
  | PRICE => Py.sorted Py.Qltb Product.final_price reverse products
  | RATING => Py.sorted Py.Qltb Product.average_rating reverse products
  | NAME =>
      Py.sorted String.ltb (fun p => Py.lower (Product.name p))
                reverse products
  | CREATED_AT => Py.sorted String.ltb Product.created_at reverse products
  | DISCOUNT =>
      Py.sorted Py.Qltb Product.discount_percentage reverse products
  | REVIEW_COUNT => Py.sorted Z.ltb Product.review_count reverse products
  end.

(** The dict that [paginate] returns. *)
Module Page.
Record t (A : Type) : Type := mk {
  items : list A;
  total : Z;
  page : Z;
  page_size : Z;
  total_pages : Z;
  has_next : bool;
  has_previous : bool
}.
End Page.

(** [paginate(items, page, page_size)]. *)
Definition paginate {A : Type} (items : list A) (page page_size : Z)
  : Page.t A :=
  let total := Py.len items in
  let total_pages :=
    if (page_size >? 0)%Z then ((total + page_size - 1) / page_size)%Z
    else 1%Z in
  let start := ((page - 1) * page_size)%Z in
  let end_ := (start + page_size)%Z in
  {| Page.items := Py.slice items start end_;
     Page.total := total;
     Page.page := page;
     Page.page_size := page_size;
     Page.total_pages := total_pages;
     Page.has_next := (page <? total_pages)%Z;
     Page.has_previous := (page >? 1)%Z |}.

(** ** Reading the store from the service layer

    The service and the handlers reach the store through the module-level
    [db] object.  A computation of type [DB A] reads a store and gives its
    result together with the list of the store methods it called, in
    order. *)

Inductive db_call : Type :=
| CallGetProduct (product_id : Z)
| CallGetProductsByCategory (category_id : Z)
| CallGetAllProducts.

Definition DB (A : Type) : Type := database -> A * list db_call.

Definition ret {A : Type} (a : A) : DB A := fun _ => (a, []).

Definition bind {A B : Type} (m : DB A) (f : A -> DB B) : DB B :=
  fun db =>
    let (a, t1) := m db in
    let (b, t2) := f a db in
    (b, t1 ++ t2).

Notation "x <- m ;; k" := (bind m (fun x => k))
  (at level 61, m at next level, right associativity).

Definition db_get_product (product_id : Z) : DB (option Product.t) :=
  fun db => (get_product db product_id, [CallGetProduct product_id]).

Definition db_get_products_by_category (category_id : Z)
  : DB (list Product.t) :=
  fun db => (get_products_by_category db category_id,
             [CallGetProductsByCategory category_id]).

Definition db_get_all_products : DB (list Product.t) :=
  fun db => (get_all_products db, [CallGetAllProducts]).

(** The result of a computation, and the store methods it called. *)
Definition result_of {A : Type} (m : DB A) (db : database) : A := fst (m db).
Definition calls_of {A : Type} (m : DB A) (db : database) : list db_call :=
  snd (m db).

(** ** The recommendation service ([app/services/recommendation.py]) *)

(** [calculate_score(p)], the closure of [get_similar_products] over the
    final price of the reference product. *)
Definition calculate_score (product_price : Q) (p : Product.t) : Q :=
  let p_price := Product.final_price p in
  let rating := Product.average_rating p in
  let price_score :=
    if Py.Qltb 0 product_price then
      let price_diff_ratio :=
        Py.fdiv (Py.abs (Py.fsub p_price product_price)) product_price in
      Py.fmul (Py.max 0 (Py.fsub 1 price_diff_ratio)) 2
    else 0%Q in
  Py.fadd rating price_score.

(** [get_similar_products(product_id, limit, include_same_seller)]. *)
Definition get_similar_products (product_id : Z) (limit : Z)
  (include_same_seller : bool) : DB (list Product.t) :=
  product <- db_get_product product_id ;;
  match product with
  | None => ret []
  | Some product =>
      let category_id := Product.category_id product in
      let product_price := Product.final_price product in
      let seller_id := Product.seller_id product in
      candidates <- db_get_products_by_category category_id ;;
      let candidates :=
        filter (fun p => negb (Product.id p =? product_id)%Z) candidates in
      let candidates :=
        if negb include_same_seller
        then filter (fun p => negb (Product.seller_id p =? seller_id)%Z)
                    candidates
        else candidates in
      let scored :=
        map (fun p => (p, calculate_score product_price p)) candidates in
      let scored := Py.sorted Py.Qltb (@snd Product.t Q) true scored in
      ret (map fst (Py.slice_to scored limit))
  end.

(** [get_price_range_products(min_price, max_price, category_id, limit)]. *)
Definition get_price_range_products (min_price max_price : Q)
  (category_id : option Z) (limit : Z) : DB (list Product.t) :=
  products <-
    match category_id with
    | Some c =>
        if Py.truthy_int c then db_get_products_by_category c
        else db_get_all_products
    | None => db_get_all_products
    end ;;
  let products :=
    filter (fun p => (Py.Qleb min_price (Product.final_price p)
                      && Py.Qleb (Product.final_price p) max_price)%bool)
           products in
  let products := Py.sorted Py.Qltb Product.average_rating true products in
  ret (Py.slice_to products limit).

(** ** The price-range handler ([app/routers/recommendations.py]) *)

(** What a handler gives back: a body, or a raised [HTTPException]. *)
Inductive response (A : Type) : Type :=
| Ok (body : A)
| HTTPException (status_code : Z) (detail : string).

Arguments Ok {A} body.
Arguments HTTPException {A} status_code detail.

Definition HTTP_400_BAD_REQUEST : Z := 400.

(** [get_by_price_range(min_price, max_price, category_id, limit)]. *)
Definition get_by_price_range (min_price max_price : Q)
  (category_id : option Z) (limit : Z) : DB (response (list Product.t)) :=
  if Py.Qltb max_price min_price then
    ret (HTTPException HTTP_400_BAD_REQUEST
           "min_price cannot be greater than max_price.")
  else
    products <-
      get_price_range_products min_price max_price category_id limit ;;
    ret (Ok products).

(** ** Vocabulary of the specification *)

(** [out] is a subsequence of [l]: some elements dropped, order kept. *)
Inductive Subseq {A : Type} : list A -> list A -> Prop :=
| Subseq_nil : Subseq [] []
| Subseq_skip : forall x out l, Subseq out l -> Subseq out (x :: l)
| Subseq_keep : forall x out l, Subseq out l -> Subseq (x :: out) (x :: l).

(** [out] keeps the elements of [l] that have the same key in the order
    they have in [l], for every key: what stability of a sort means.
    [same a b] tells whether [a] and [b] have equal keys. *)
Definition Stable {A : Type} (same : A -> A -> bool) (l out : list A)
  : Prop :=
  forall a, filter (same a) out = filter (same a) l.


(** Descending order of a rational key. *)
Definition Descending {A : Type} (key : A -> Q) (l : list A) : Prop :=
  StronglySorted (fun a b => (key b <= key a)%Q) l.

(** Equality of a rational key. *)
Definition same_on {A : Type} (key : A -> Q) (a b : A) : bool :=
  Py.Qeqb (key a) (key b).

(** *** Similar products *)

(** The score of the specification:
    [average_rating + max(0, 1 - |candidate - reference| / reference) * 2],
    the second term only when the reference price is positive; the
    numbers are floats, and so is their arithmetic. *)
Definition similarity_score (reference_price : Q) (p : Product.t) : Q :=
  Py.fadd (Product.average_rating p)
    (if Qlt_le_dec 0 reference_price
     then Py.fmul
            (Qmax 0 (Py.fsub 1
                       (Py.fdiv
                          (Qabs (Py.fsub (Product.final_price p)
                                         reference_price))
                          reference_price))) 2
     else 0).

(** How many products of a ranking of [n] products are returned for the
    limit [L]: the first [L] when [L >= 0], and all but the last [-L]
    when [L < 0]. *)
Definition returned_count (n : nat) (limit : Z) : nat :=
  if (0 <=? limit)%Z then Z.to_nat limit
  else (n - Z.to_nat (- limit))%nat.

(** Membership in the candidate set of reference product [ref], looked up
    as [x]: same category, not [x] itself, and another seller unless
    products of the same seller are asked for. *)
Definition is_candidate (ref : Product.t) (x : Z) (include_same_seller : bool)
  (p : Product.t) : bool :=
  ((Product.category_id p =? Product.category_id ref)%Z
   && negb (Product.id p =? x)%Z
   && (include_same_seller
       || negb (Product.seller_id p =? Product.seller_id ref)%Z))%bool.

(** The candidate set, in the order the store lists its products. *)
Definition candidate_set (db : database) (ref : Product.t) (x : Z)
  (include_same_seller : bool) : list Product.t :=
  filter (is_candidate ref x include_same_seller) (get_all_products db).

(** *** Price range *)

(** The final price is within the bounds, both included. *)
Definition in_price_range (min_price max_price : Q) (p : Product.t) : Prop :=
  (min_price <= Product.final_price p <= max_price)%Q.

Definition in_price_range_b (min_price max_price : Q) (p : Product.t)
  : bool :=
  (Py.Qleb min_price (Product.final_price p)
   && Py.Qleb (Product.final_price p) max_price)%bool.

(** The products a price-range query is about: those of the category when
    one is given (and is not 0), all products otherwise. *)
Definition price_range_scope (db : database) (category_id : option Z)
  : list Product.t :=
  match category_id with
  | Some c =>
      if (c =? 0)%Z then get_all_products db
      else get_products_by_category db c
  | None => get_all_products db
  end.

(** *** Filters *)

(** One criterion of a filter request. *)
Inductive criterion : Type :=
| CategoryId (c : Z)
| MinPrice (m : Q)
| MaxPrice (m : Q)
| MinRating (m : Q)
| StockStatus (s : string)
| SellerId (s : Z)
| HasDiscount (b : bool).

(** The criteria that are present in a request. *)
Definition opt_list {A : Type} (f : A -> criterion) (o : option A)
  : list criterion :=
  match o with Some x => [f x] | None => [] end.

Definition present_criteria (c : Filters.t) : list criterion :=
  opt_list CategoryId (Filters.category_id c)
  ++ opt_list MinPrice (Filters.min_price c)
  ++ opt_list MaxPrice (Filters.max_price c)
  ++ opt_list MinRating (Filters.min_rating c)
  ++ opt_list StockStatus (Filters.stock_status c)
  ++ opt_list SellerId (Filters.seller_id c)
  ++ opt_list HasDiscount (Filters.has_discount c).

(** The request that carries one criterion only. *)
Definition single (c : criterion) : Filters.t :=
  match c with
  | CategoryId x =>
      Filters.mk (Some x) None None None None None None
  | MinPrice x =>
      Filters.mk None (Some x) None None None None None
  | MaxPrice x =>
      Filters.mk None None (Some x) None None None None
  | MinRating x =>
      Filters.mk None None None (Some x) None None None
  | StockStatus x =>
      Filters.mk None None None None (Some x) None None
  | SellerId x =>
      Filters.mk None None None None None (Some x) None
  | HasDiscount x =>
      Filters.mk None None None None None None (Some x)
  end.

(** What a criterion asks of a product, in the words of the
    specification: category equality, final price within the bounds,
    rating at least the floor, stock status equality, seller equality, a
    positive discount when [has_discount] is true. *)
Definition meets (c : criterion) (p : Product.t) : bool :=
  match c with
  | CategoryId x => (Product.category_id p =? x)%Z
  | MinPrice m => Py.Qleb m (Product.final_price p)
  | MaxPrice m => Py.Qleb (Product.final_price p) m
  | MinRating m => Py.Qleb m (Product.average_rating p)
  | StockStatus s => String.eqb (Product.stock_status p) s
  | SellerId s => (Product.seller_id p =? s)%Z
  | HasDiscount b =>
      if b then Py.Qltb 0 (Product.discount_percentage p) else true
  end.

(** A product satisfies every present criterion. *)
Definition satisfies_present (c : Filters.t) (p : Product.t) : bool :=
  forallb (fun k => meets k p) (present_criteria c).

(** The criteria that the code acts on: a category or seller identifier
    of 0 and an empty stock status count as absent. *)
Definition effective (c : criterion) : bool :=
  match c with
  | CategoryId x => negb (x =? 0)%Z
  | SellerId x => negb (x =? 0)%Z
  | StockStatus s => negb (String.eqb s "")
  | _ => true
  end.

Definition satisfies_effective (c : Filters.t) (p : Product.t) : bool :=
  forallb (fun k => meets k p) (filter effective (present_criteria c)).

(** The criteria of a list applied as single-criterion passes, from left
    to right. *)
Definition apply_in_order (cs : list criterion) (products : list Product.t)
  : list Product.t :=
  fold_left (fun acc c => apply_filters acc (single c)) cs products.

(** *** Sorting *)


(** *** Pagination *)

(** The page numbers [1 .. n]. *)
Definition page_numbers (n : Z) : list Z :=
  map Z.of_nat (seq 1 (Z.to_nat n)).

(** *** Operations on the store *)

(** The calls that change the tables of products and reviews;
    [OpUpdateProduct] is [update_product] with an update dict without
    [None]. *)
Inductive store_op : Type :=
| OpCreateProduct (product_data : ProductData.t) (now1 now2 : string)
| OpUpdateProduct (product_id : Z) (product_data : ProductChanges.t)
                  (now : string)
| OpDeleteProduct (product_id : Z)
| OpUpdateProductRating (product_id : Z)
| OpCreateReview (review_data : ReviewData.t) (now : string).

Definition apply_op (op : store_op) (db : database) : database :=
  match op with
  | OpCreateProduct d n1 n2 => fst (create_product d n1 n2 db)
  | OpUpdateProduct i d n => fst (change_product i d n db)
  | OpDeleteProduct i => fst (delete_product i db)
  | OpUpdateProductRating i => update_product_rating i db
  | OpCreateReview d n => fst (create_review d n db)
  end.

(** A sequence of calls, the first of the list first. *)
Definition run (ops : list store_op) (db : database) : database :=
  fold_left (fun d op => apply_op op d) ops db.

(** The operation is [create_review] or [delete_product]. *)
Definition review_or_delete (op : store_op) : bool :=
  match op with
  | OpCreateReview _ _ | OpDeleteProduct _ => true
  | _ => false
  end.

(** The price, the discount and the final price of a product of a
    store. *)
Definition prices (db : database) (product_id : Z) : option (Q * Q * Q) :=
  option_map (fun p => (Product.price p, Product.discount_percentage p,
                        Product.final_price p))
             (get_product db product_id).

(** The operation is [create_product] or [change_product]. *)
Definition create_or_update (op : store_op) : bool :=
  match op with
  | OpCreateProduct _ _ _ | OpUpdateProduct _ _ _ => true
  | _ => false
  end.

(** The final price of every stored product is the rounded discounted
    price. *)
Definition final_price_in_sync (db : database) : Prop :=
  forall product_id p,
    get_product db product_id = Some p ->
    (Product.final_price p ==
     Py.round (Py.fmul (Product.price p)
                 (Py.fsub 1 (Py.fdiv (Product.discount_percentage p) 100)))
              2)%Q.

(** The mean of a non-empty list of ratings, to two decimals; 0 for the
    empty list. *)
Definition mean_rating (ratings : list Z) : Q :=
  match ratings with
  | [] => 0%Q
  | _ :: _ =>
      Py.round (Py.truediv (fold_right Z.add 0%Z ratings)
                           (Z.of_nat (List.length ratings))) 2
  end.

(** The ratings of the reviews that reference a product. *)
Definition ratings_of (db : database) (product_id : Z) : list Z :=
  map Review.rating
      (filter (fun r => (Review.product_id r =? product_id)%Z)
              (Dict.values (_reviews db))).

(** The aggregates of every stored product agree with its reviews. *)
Definition ratings_in_sync (db : database) : Prop :=
  forall product_id p,
    get_product db product_id = Some p ->
    (Product.average_rating p == mean_rating (ratings_of db product_id))%Q
    /\ Product.review_count p
       = Z.of_nat (List.length (ratings_of db product_id)).

(** The same, as a test over the entries of the product table. *)
Definition ratings_in_sync_b (db : database) : bool :=
  forallb
    (fun kv =>
       (Py.Qeqb (Product.average_rating (snd kv))
                (mean_rating (ratings_of db (fst kv)))
        && (Product.review_count (snd kv)
            =? Z.of_nat (List.length (ratings_of db (fst kv))))%Z)%bool)
    (_products db).

(** No review is stored under an identifier beyond the counter, so the
    next identifier is new. *)
Definition review_ids_fresh (db : database) : Prop :=
  forall k v, In (k, v) (_reviews db) -> (k <= _review_counter db)%Z.

Definition review_ids_fresh_b (db : database) : bool :=
  forallb (fun kv => (fst kv <=? _review_counter db)%Z) (_reviews db).

(** The caller's obligation: a review is created for a product that is in
    the store. *)
Definition admissible (op : store_op) (db : database) : bool :=
  match op with
  | OpCreateReview d _ =>
      Dict.contains (_products db) (ReviewData.product_id d)
  | _ => true
  end.

Fixpoint admissible_run (ops : list store_op) (db : database) : bool :=
  match ops with
  | [] => true
  | op :: ops' => admissible op db && admissible_run ops' (apply_op op db)
  end.

(** No product is stored, and no review refers to a product, beyond the
    product counter. *)
Definition references_created (db : database) : Prop :=
  (forall k p, get_product db k = Some p -> (k <= _product_counter db)%Z)
  /\ (forall k r, In (k, r) (_reviews db) ->
                  (Review.product_id r <= _product_counter db)%Z).

(** ** Sample data *)

Open Scope string_scope.
Open Scope list_scope.

(** The data of a product and of a review, the fields that no example
    looks at left empty. *)
Definition sample_product (name : string) (category seller : Z) (price : Q)
  (discount : Q) : ProductData.t :=
  {| ProductData.name := name;
     ProductData.description := "";
     ProductData.category_id := category;
     ProductData.seller_id := seller;
     ProductData.price := price;
     ProductData.discount_percentage := discount;
     ProductData.stock_status := "in_stock";
     ProductData.features := [];
     ProductData.images := [] |}.

Definition sample_review (product user rating : Z) : ReviewData.t :=
  {| ReviewData.product_id := product;
     ReviewData.user_id := user;
     ReviewData.rating := rating;
     ReviewData.title := "";
     ReviewData.comment := "";
     ReviewData.pros := [];
     ReviewData.cons := [] |}.

Definition t0 : string := "2024-01-01T00:00:00".
Definition t1 : string := "2024-01-02T00:00:00".

(** The strings of the examples hold ASCII characters only. *)
Definition ascii_lower : Py.Lower := Py.lower_ascii_str.

(** Three products of category 1 from three sellers, priced 100, 130 and
    500, and a fourth of category 2 with a discount, before any review. *)
Definition sample_catalog : database :=
  run [OpCreateProduct (sample_product "Alpha" 1 1 100 0) t0 t0;
       OpCreateProduct (sample_product "beta" 1 2 130 0) t0 t0;
       OpCreateProduct (sample_product "Gamma" 1 3 500 0) t0 t0;
       OpCreateProduct (sample_product "delta" 2 1 80 25) t0 t0]
      empty_database.

(** Reviews that bring the ratings of the first three products to 4.0,
    4.5 and 5.0. *)
Definition sample_reviews : list store_op :=
  [OpCreateReview (sample_review 1 1 4) t0;
   OpCreateReview (sample_review 2 1 4) t0;
   OpCreateReview (sample_review 2 2 5) t0;
   OpCreateReview (sample_review 3 1 5) t0].

Definition sample_db : database := run sample_reviews sample_catalog.

Definition ids (l : list Product.t) : list Z := map Product.id l.

(** Three products of category 1 priced 100, 300 and 190; five reviews
    each bring the rating of the second to 4.6 and of the third to
    4.4. *)
Definition close_scores : database :=
  run [OpCreateProduct (sample_product "Reference" 1 1 100 0) t0 t0;
       OpCreateProduct (sample_product "Far" 1 2 300 0) t0 t0;
       OpCreateProduct (sample_product "Near" 1 3 190 0) t0 t0;
       OpCreateReview (sample_review 2 1 5) t0;
       OpCreateReview (sample_review 2 2 5) t0;
       OpCreateReview (sample_review 2 3 5) t0;
       OpCreateReview (sample_review 2 4 4) t0;
       OpCreateReview (sample_review 2 5 4) t0;
       OpCreateReview (sample_review 3 1 5) t0;
       OpCreateReview (sample_review 3 2 5) t0;
       OpCreateReview (sample_review 3 3 4) t0;
       OpCreateReview (sample_review 3 4 4) t0;
       OpCreateReview (sample_review 3 5 4) t0]
      empty_database.

(** A record that no operation of the store produces: its final price and
    its rating are below zero. *)
Definition below_zero : Product.t :=
  {| Product.id := 7; Product.name := "x"; Product.description := "";
     Product.category_id := 1; Product.seller_id := 1;
     Product.price := 1; Product.discount_percentage := 0;
     Product.stock_status := "in_stock"; Product.features := [];
     Product.images := []; Product.created_at := t0;
     Product.updated_at := t0; Product.average_rating := (-1);
     Product.review_count := 0; Product.final_price := (-1) |}.

(** The update that changes the discount only. *)
Definition only_discount (discount : Q) : ProductChanges.t :=
  {| ProductChanges.name := None;
     ProductChanges.description := None;
     ProductChanges.category_id := None;
     ProductChanges.price := None;
     ProductChanges.discount_percentage := Some discount;
     ProductChanges.stock_status := None;
     ProductChanges.features := None;
     ProductChanges.images := None |}.

(** The update dict [{"price": None}], of the body [{"price": null}]. *)
Definition null_price : ProductUpdate.t :=
  {| ProductUpdate.name := Unset;
     ProductUpdate.description := Unset;
     ProductUpdate.category_id := Unset;
     ProductUpdate.price := Null;
     ProductUpdate.discount_percentage := Unset;
     ProductUpdate.stock_status := Unset;
     ProductUpdate.features := Unset;
     ProductUpdate.images := Unset |}.

(** An empty store in which a product is created at price 100 with a
    discount of 25, and the same store after the discount is set to 50. *)
Definition store_100_25 : database :=
  fst (create_product (sample_product "Widget" 1 1 100 25) t0 t0
                      empty_database).

Definition store_100_50 : database :=
  fst (change_product 1 (only_discount 50) t0 store_100_25).

(** The store with one new product, after reviews rated 5, 5 and 4. *)
Definition reviews_554 : list store_op :=
  [OpCreateReview (sample_review 1 1 5) t0;
   OpCreateReview (sample_review 1 2 5) t0;
   OpCreateReview (sample_review 1 3 4) t0].

Definition store_554 : database := run reviews_554 store_100_25.

(** The same product after 39 reviews rated 4 and one rated 5. *)
Definition reviews_403 : list store_op :=
  repeat (OpCreateReview (sample_review 1 1 4) t0) 39
  ++ [OpCreateReview (sample_review 1 2 5) t0].

Definition store_403 : database := run reviews_403 store_100_25.

(** The rating and the review count of a product of a store. *)
Definition aggregates (db : database) (product_id : Z) : option (Q * Z) :=
  option_map (fun p => (Product.average_rating p, Product.review_count p))
             (get_product db product_id).

(** ** More of the store ([app/database/memory_db.py]) *)

Definition get_products_by_seller (db : database) (seller_id : Z)
  : list Product.t :=
  filter (fun p => (Product.seller_id p =? seller_id)%Z)
         (Dict.values (_products db)).

Definition get_all_reviews (db : database) : list Review.t :=
  Dict.values (_reviews db).

Definition get_review (db : database) (review_id : Z) : option Review.t :=
  Dict.get (_reviews db) review_id.

Definition get_reviews_by_product (db : database) (product_id : Z)
  : list Review.t :=
  filter (fun r => (Review.product_id r =? product_id)%Z)
         (Dict.values (_reviews db)).

Definition get_reviews_by_user (db : database) (user_id : Z)
  : list Review.t :=
  filter (fun r => (Review.user_id r =? user_id)%Z)
         (Dict.values (_reviews db)).

(** [self._reviews[review_id]["helpful_count"] += 1]. *)
Definition add_helpful (r : Review.t) : Review.t :=
  {| Review.id := Review.id r;
     Review.product_id := Review.product_id r;
     Review.user_id := Review.user_id r;
     Review.rating := Review.rating r;
     Review.title := Review.title r;
     Review.comment := Review.comment r;
     Review.pros := Review.pros r;
     Review.cons := Review.cons r;
     Review.created_at := Review.created_at r;
     Review.helpful_count := (Review.helpful_count r + 1)%Z |}.

(** [increment_helpful(review_id)]. *)
Definition increment_helpful (review_id : Z) (db : database)
  : database * bool :=
  if Dict.contains (_reviews db) review_id then
    ({| _products := _products db;
        _reviews := Dict.modify (_reviews db) review_id add_helpful;
        _product_counter := _product_counter db;
        _review_counter := _review_counter db |}, true)
  else (db, false).

(** A table of a store made by its own operations: the counter is not
    negative, the keys come in increasing order and lie between 1 and the
    counter, and each record carries its key as [id]. *)
Definition table_ok {V : Type} (id_of : V -> Z) (d : Dict.t V) (counter : Z)
  : Prop :=
  (0 <= counter)%Z
  /\ StronglySorted Z.lt (map fst d)
  /\ forall k v, In (k, v) d -> (1 <= k <= counter)%Z /\ id_of v = k.

Definition store_ok (db : database) : Prop :=
  table_ok Product.id (_products db) (_product_counter db)
  /\ table_ok Review.id (_reviews db) (_review_counter db).

(** ** More of the recommendation service
    ([app/services/recommendation.py]) *)

(** [get_top_rated(category_id, min_reviews, limit)]. *)
Definition get_top_rated (category_id : option Z) (min_reviews : Z)
  (limit : Z) : DB (list Product.t) :=
  products <-
    match category_id with
    | Some c =>
        if Py.truthy_int c then db_get_products_by_category c
        else db_get_all_products
    | None => db_get_all_products
    end ;;
  let products :=
    filter (fun p => (min_reviews <=? Product.review_count p)%Z) products in
  let products := Py.sorted Py.Qltb Product.average_rating true products in
  ret (Py.slice_to products limit).

(** [get_best_deals(category_id, min_discount, limit)]. *)
Definition get_best_deals (category_id : option Z) (min_discount : Q)
  (limit : Z) : DB (list Product.t) :=
  products <-
    match category_id with
    | Some c =>
        if Py.truthy_int c then db_get_products_by_category c
        else db_get_all_products
    | None => db_get_all_products
    end ;;
  let products :=
    filter (fun p => Py.Qleb min_discount (Product.discount_percentage p))
           products in
  let products :=
    Py.sorted Py.Qltb Product.discount_percentage true products in
  ret (Py.slice_to products limit).

(** [get_popular_products(category_id, limit)]. *)
Definition get_popular_products (category_id : option Z) (limit : Z)
  : DB (list Product.t) :=
  products <-
    match category_id with
    | Some c =>
        if Py.truthy_int c then db_get_products_by_category c
        else db_get_all_products
    | None => db_get_all_products
    end ;;
  let products := Py.sorted Z.ltb Product.review_count true products in
  ret (Py.slice_to products limit).

(** [get_new_arrivals(category_id, limit)]. *)
Definition get_new_arrivals (category_id : option Z) (limit : Z)
  : DB (list Product.t) :=
  products <-
    match category_id with
    | Some c =>
        if Py.truthy_int c then db_get_products_by_category c
        else db_get_all_products
    | None => db_get_all_products
    end ;;
  let products := Py.sorted String.ltb Product.created_at true products in
  ret (Py.slice_to products limit).

(** ** More of the product router ([app/routers/products.py]) *)

(** Python's [needle in hay] on strings. *)
Module Str.

Fixpoint starts_with (prefix s : string) : bool :=
  match prefix, s with
  | EmptyString, _ => true
  | String a prefix', String b s' =>
      (Ascii.eqb a b && starts_with prefix' s')%bool
  | String _ _, EmptyString => false
  end.

Fixpoint contains (needle hay : string) : bool :=
  (starts_with needle hay
   || match hay with
      | EmptyString => false
      | String _ hay' => contains needle hay'
      end)%bool.

End Str.

(** [search_products(query)] of the store. *)
Definition search_products {L : Py.Lower} (db : database) (query : string)
  : list Product.t :=
  let query_lower := Py.lower query in
  filter (fun p =>
            (Str.contains query_lower (Py.lower (Product.name p))
             || Str.contains query_lower
                             (Py.lower (Product.description p)))%bool)
         (Dict.values (_products db)).

(** The handler of [GET /products]: the query parameters arrive as the
    keyword arguments of [apply_filters]. *)
Definition list_products {L : Py.Lower} (filters : Filters.t)
  (sort_by : ProductSortBy) (order : SortOrder) (page page_size : Z)
  : DB (Page.t Product.t) :=
  products <- db_get_all_products ;;
  let products := apply_filters products filters in
  let products := apply_sorting products sort_by order in
  ret (paginate products page page_size).

(** The handler of [GET /products/search]. *)
Definition search_products_handler {L : Py.Lower} (db : database)
  (q : string)
  (category_id : option Z) (min_price max_price : option Q)
  (sort_by : ProductSortBy) (order : SortOrder) (page page_size : Z)
  : Page.t Product.t :=
  let products := search_products db q in
  let products :=
    apply_filters products
      (Filters.mk category_id min_price max_price None None None None) in
  let products := apply_sorting products sort_by order in
  paginate products page page_size.

(** ** Sorting and paging of reviews ([app/routers/reviews.py]) *)

Module ReviewSortBy.
Inductive t : Type := DATE | RATING | HELPFUL.
End ReviewSortBy.

(** [apply_review_sorting(reviews, sort_by, order)]. *)
Definition apply_review_sorting (reviews : list Review.t)
  (sort_by : ReviewSortBy.t) (order : SortOrder) : list Review.t :=
  let reverse := match order with DESC => true | ASC => false end in
  match sort_by with
  | ReviewSortBy.DATE =>
      Py.sorted String.ltb Review.created_at reverse reviews
  | ReviewSortBy.RATING => Py.sorted Z.ltb Review.rating reverse reviews
  | ReviewSortBy.HELPFUL =>
      Py.sorted Z.ltb Review.helpful_count reverse reviews
  end.

(** [paginate_reviews(items, page, page_size)]. *)
Definition paginate_reviews {A : Type} (items : list A) (page page_size : Z)
  : Page.t A :=
  let total := Py.len items in
  let total_pages :=
    if (page_size >? 0)%Z then ((total + page_size - 1) / page_size)%Z
    else 1%Z in
  let start := ((page - 1) * page_size)%Z in
  let end_ := (start + page_size)%Z in
  {| Page.items := Py.slice items start end_;
     Page.total := total;
     Page.page := page;
     Page.page_size := page_size;
     Page.total_pages := total_pages;
     Page.has_next := (page <? total_pages)%Z;
     Page.has_previous := (page >? 1)%Z |}.

(** ** More vocabulary *)

(** The dict of a product. *)
Definition to_dict (p : Product.t) : ProductDict.t :=
  {| ProductDict.id := Product.id p;
     ProductDict.name := Some (Product.name p);
     ProductDict.description := Some (Product.description p);
     ProductDict.category_id := Some (Product.category_id p);
     ProductDict.seller_id := Product.seller_id p;
     ProductDict.price := Some (Product.price p);
     ProductDict.discount_percentage :=
       Some (Product.discount_percentage p);
     ProductDict.stock_status := Some (Product.stock_status p);
     ProductDict.features := Some (Product.features p);
     ProductDict.images := Some (Product.images p);
     ProductDict.created_at := Product.created_at p;
     ProductDict.updated_at := Product.updated_at p;
     ProductDict.average_rating := Product.average_rating p;
     ProductDict.review_count := Product.review_count p;
     ProductDict.final_price := Product.final_price p |}.

(** The keys of [stored], the final price aside, are those of product
    [old] after an update with [product_data] at time [now]: a key of
    the update holds what the update has for it, [None] included,
    [updated_at] is [now], and every other key is as in [old]. *)
Definition updated_keys (old : Product.t) (product_data : ProductUpdate.t)
  (now : string) (stored : ProductDict.t) : Prop :=
  ProductDict.id stored = Product.id old
  /\ ProductDict.seller_id stored = Product.seller_id old
  /\ ProductDict.created_at stored = Product.created_at old
  /\ ProductDict.average_rating stored = Product.average_rating old
  /\ ProductDict.review_count stored = Product.review_count old
  /\ ProductDict.updated_at stored = now
  /\ ProductDict.name stored
     = assigned (ProductUpdate.name product_data) (Product.name old)
  /\ ProductDict.description stored
     = assigned (ProductUpdate.description product_data)
                (Product.description old)
  /\ ProductDict.category_id stored
     = assigned (ProductUpdate.category_id product_data)
                (Product.category_id old)
  /\ ProductDict.price stored
     = assigned (ProductUpdate.price product_data) (Product.price old)
  /\ ProductDict.discount_percentage stored
     = assigned (ProductUpdate.discount_percentage product_data)
                (Product.discount_percentage old)
  /\ ProductDict.stock_status stored
     = assigned (ProductUpdate.stock_status product_data)
                (Product.stock_status old)
  /\ ProductDict.features stored
     = assigned (ProductUpdate.features product_data)
                (Product.features old)
  /\ ProductDict.images stored
     = assigned (ProductUpdate.images product_data) (Product.images old).

(** The products a query with an optional category is about: those of the
    category when one is given (and is not 0), all products otherwise. *)
Definition category_scope (db : database) (category_id : option Z)
  : list Product.t :=
  price_range_scope db category_id.

(** Descending order of an integer key and of a string key. *)
Definition Descending_int {A : Type} (key : A -> Z) (l : list A) : Prop :=
  StronglySorted (fun a b => (key b <= key a)%Z) l.

Definition Descending_str {A : Type} (key : A -> string) (l : list A)
  : Prop :=
  StronglySorted (fun a b => String.leb (key b) (key a) = true) l.

Definition same_on_int {A : Type} (key : A -> Z) (a b : A) : bool :=
  (key a =? key b)%Z.

Definition same_on_str {A : Type} (key : A -> string) (a b : A) : bool :=
  String.eqb (key a) (key b).


Definition review_key_le (sort_by : ReviewSortBy.t) (a b : Review.t)
  : Prop :=
  match sort_by with
  | ReviewSortBy.DATE =>
      String.leb (Review.created_at a) (Review.created_at b) = true
  | ReviewSortBy.RATING => (Review.rating a <= Review.rating b)%Z
  | ReviewSortBy.HELPFUL =>
      (Review.helpful_count a <= Review.helpful_count b)%Z
  end.

Definition review_same_key (sort_by : ReviewSortBy.t) (a b : Review.t)
  : bool :=
  match sort_by with
  | ReviewSortBy.DATE =>
      String.eqb (Review.created_at a) (Review.created_at b)
  | ReviewSortBy.RATING => (Review.rating a =? Review.rating b)%Z
  | ReviewSortBy.HELPFUL =>
      (Review.helpful_count a =? Review.helpful_count b)%Z
  end.

(** [l] in the order that [order] asks for. *)
Definition Ordered {A : Type} (le : A -> A -> Prop) (order : SortOrder)
  (l : list A) : Prop :=
  StronglySorted
    (fun a b => match order with ASC => le a b | DESC => le b a end) l.

(** [returned] is the first [limit] elements of the ranking of
    [eligible]: the rearrangement of [eligible] that is in the order
    [ordered] and keeps elements of equal key in the order they have in
    [eligible]. *)
Definition Ranking {A : Type} (ordered : list A -> Prop)
  (same : A -> A -> bool) (eligible returned : list A) (limit : Z) : Prop :=
  exists ranked,
    returned = firstn (Z.to_nat limit) ranked
    /\ Permutation ranked eligible
    /\ ordered ranked
    /\ Stable same eligible ranked.

(** [needle] occurs in [hay]. *)
Definition occurs_in (needle hay : string) : Prop :=
  exists before after, hay = (before ++ needle ++ after)%string.

(** ** The other tables of the store ([app/database/memory_db.py]) *)

(** A stored seller: [seller_data] of the seed with [id] and
    [created_at]. *)
Module Seller.
Record t : Type := mk {
  id : Z;
  name : string;
  description : string;
  logo_url : option string;
  contact_email : string;
  contact_phone : option string;
  is_verified : bool;
  product_count : Z;
  average_rating : Q;
  created_at : string
}.
End Seller.

Module SellerData.
Record t : Type := mk {
  name : string;
  description : string;
  logo_url : option string;
  contact_email : string;
  contact_phone : option string;
  is_verified : bool;
  product_count : Z;
  average_rating : Q
}.
End SellerData.

(** A stored category: [category_data] with [id]. *)
Module Category.
Record t : Type := mk {
  id : Z;
  name : string;
  description : string;
  icon : option string;
  image_url : option string;
  parent_id : option Z
}.
End Category.

Module CategoryData.
Record t : Type := mk {
  name : string;
  description : string;
  icon : option string;
  image_url : option string;
  parent_id : option Z
}.
End CategoryData.

(** A stored user: [user_data] with [id] and [created_at]. *)
Module User.
Record t : Type := mk {
  id : Z;
  name : string;
  email : string;
  avatar_url : option string;
  created_at : string
}.
End User.

Module UserData.
Record t : Type := mk {
  name : string;
  email : string;
  avatar_url : option string
}.
End UserData.

(** A dict with string keys, in insertion order. *)
Module StrDict.
Section Ops.
Variable V : Type.

Definition t : Type := list (string * V).

Fixpoint get (d : t) (k : string) : option V :=
  match d with
  | [] => None
  | (k', v) :: d' => if String.eqb k' k then Some v else get d' k
  end.

Definition contains (d : t) (k : string) : bool :=
  match get d k with Some _ => true | None => false end.

Fixpoint set (d : t) (k : string) (v : V) : t :=
  match d with
  | [] => [(k, v)]
  | (k', v') :: d' =>
      if String.eqb k' k then (k', v) :: d' else (k', v') :: set d' k v
  end.

End Ops.
End StrDict.

(** The whole [InMemoryDatabase]: the product and review tables with
    their counters are the record [database]; the users, the sellers, the
    categories and the API keys come with it here. *)
Record in_memory_database : Type := mk_in_memory_database {
  tables : database;
  _users : Dict.t User.t;
  _sellers : Dict.t Seller.t;
  _categories : Dict.t Category.t;
  _api_keys : StrDict.t Z;
  _user_counter : Z;
  _seller_counter : Z;
  _category_counter : Z
}.

Definition empty_store : in_memory_database :=
  {| tables := empty_database;
     _users := []; _sellers := []; _categories := []; _api_keys := [];
     _user_counter := 0; _seller_counter := 0; _category_counter := 0 |}.

(** A method of the product and review tables, run on the whole store. *)
Definition on_tables {A : Type} (f : database -> database * A)
  (s : in_memory_database) : in_memory_database * A :=
  ({| tables := fst (f (tables s));
      _users := _users s; _sellers := _sellers s;
      _categories := _categories s; _api_keys := _api_keys s;
      _user_counter := _user_counter s;
      _seller_counter := _seller_counter s;
      _category_counter := _category_counter s |},
   snd (f (tables s))).

(** The store with other tables of products and reviews. *)
Definition with_tables (s : in_memory_database) (db : database)
  : in_memory_database :=
  {| tables := db;
     _users := _users s; _sellers := _sellers s;
     _categories := _categories s; _api_keys := _api_keys s;
     _user_counter := _user_counter s;
     _seller_counter := _seller_counter s;
     _category_counter := _category_counter s |}.

Definition get_user (s : in_memory_database) (user_id : Z)
  : option User.t :=
  Dict.get (_users s) user_id.

(** [create_user(user_data)]. *)
Definition create_user (user_data : UserData.t) (now : string)
  (s : in_memory_database) : in_memory_database * User.t :=
  let user_id := (_user_counter s + 1)%Z in
  let user :=
    {| User.id := user_id;
       User.name := UserData.name user_data;
       User.email := UserData.email user_data;
       User.avatar_url := UserData.avatar_url user_data;
       User.created_at := now |} in
  ({| tables := tables s;
      _users := Dict.set (_users s) user_id user;
      _sellers := _sellers s; _categories := _categories s;
      _api_keys := _api_keys s;
      _user_counter := user_id;
      _seller_counter := _seller_counter s;
      _category_counter := _category_counter s |}, user).

Definition get_seller (s : in_memory_database) (seller_id : Z)
  : option Seller.t :=
  Dict.get (_sellers s) seller_id.

(** [get_seller_by_api_key(api_key)]: the seller identifier found under
    the key is tested for truthiness. *)
Definition get_seller_by_api_key (s : in_memory_database) (api_key : string)
  : option Seller.t :=
  match StrDict.get (_api_keys s) api_key with
  | Some seller_id =>
      if Py.truthy_int seller_id then Dict.get (_sellers s) seller_id
      else None
  | None => None
  end.

(** [create_seller(seller_data, api_key)]. *)
Definition create_seller (seller_data : SellerData.t) (api_key : string)
  (now : string) (s : in_memory_database) : in_memory_database * Seller.t :=
  let seller_id := (_seller_counter s + 1)%Z in
  let seller :=
    {| Seller.id := seller_id;
       Seller.name := SellerData.name seller_data;
       Seller.description := SellerData.description seller_data;
       Seller.logo_url := SellerData.logo_url seller_data;
       Seller.contact_email := SellerData.contact_email seller_data;
       Seller.contact_phone := SellerData.contact_phone seller_data;
       Seller.is_verified := SellerData.is_verified seller_data;
       Seller.product_count := SellerData.product_count seller_data;
       Seller.average_rating := SellerData.average_rating seller_data;
       Seller.created_at := now |} in
  ({| tables := tables s;
      _users := _users s;
      _sellers := Dict.set (_sellers s) seller_id seller;
      _categories := _categories s;
      _api_keys := StrDict.set (_api_keys s) api_key seller_id;
      _user_counter := _user_counter s;
      _seller_counter := seller_id;
      _category_counter := _category_counter s |}, seller).

(** [verify_api_key(api_key)] of the store. *)
Definition db_verify_api_key (s : in_memory_database) (api_key : string)
  : bool :=
  StrDict.contains (_api_keys s) api_key.

Definition get_all_categories (s : in_memory_database) : list Category.t :=
  Dict.values (_categories s).

Definition get_category (s : in_memory_database) (category_id : Z)
  : option Category.t :=
  Dict.get (_categories s) category_id.

(** [create_category(category_data)]. *)
Definition create_category (category_data : CategoryData.t)
  (s : in_memory_database) : in_memory_database * Category.t :=
  let category_id := (_category_counter s + 1)%Z in
  let category :=
    {| Category.id := category_id;
       Category.name := CategoryData.name category_data;
       Category.description := CategoryData.description category_data;
       Category.icon := CategoryData.icon category_data;
       Category.image_url := CategoryData.image_url category_data;
       Category.parent_id := CategoryData.parent_id category_data |} in
  ({| tables := tables s;
      _users := _users s; _sellers := _sellers s;
      _categories := Dict.set (_categories s) category_id category;
      _api_keys := _api_keys s;
      _user_counter := _user_counter s;
      _seller_counter := _seller_counter s;
      _category_counter := category_id |}, category).

(** [get_category_product_count(category_id)]. *)
Definition get_category_product_count (s : in_memory_database)
  (category_id : Z) : Z :=
  Py.len (filter (fun p => (Product.category_id p =? category_id)%Z)
                 (Dict.values (_products (tables s)))).

(** ** Authentication ([app/auth/api_key.py])

    A dependency gives a value or raises; the headers of the 401 are not
    part of [HTTPException] here. *)

Definition HTTP_401_UNAUTHORIZED : Z := 401.
Definition HTTP_403_FORBIDDEN : Z := 403.
Definition HTTP_404_NOT_FOUND : Z := 404.

(** [f"... {n} ..."]: the decimal writing of an integer. *)
Definition str_int (n : Z) : string :=
  DecimalString.NilZero.string_of_int (Z.to_int n).

Definition product_not_found (product_id : Z) : string :=
  "Product with ID: " ++ str_int product_id ++ " not found.".

Module Auth.

Definition verify_api_key (x_api_key : option string)
  (s : in_memory_database) : response string :=
  match x_api_key with
  | None =>
      HTTPException HTTP_401_UNAUTHORIZED
        "API key required. Please send it with the X-API-Key header."
  | Some key =>
      if negb (db_verify_api_key s key) then
        HTTPException HTTP_403_FORBIDDEN
          "Invalid API key. Please make sure you are using the correct API key."
      else Ok key
  end.

Definition get_current_seller (x_api_key : option string)
  (s : in_memory_database) : response Seller.t :=
  match verify_api_key x_api_key s with
  | HTTPException code detail => HTTPException code detail
  | Ok api_key =>
      match get_seller_by_api_key s api_key with
      | None =>
          HTTPException HTTP_403_FORBIDDEN
            "No seller found for this API key."
      | Some seller => Ok seller
      end
  end.

Definition get_optional_seller (x_api_key : option string)
  (s : in_memory_database) : option Seller.t :=
  match x_api_key with
  | None => None
  | Some key =>
      if negb (db_verify_api_key s key) then None
      else get_seller_by_api_key s key
  end.

Definition check_product_ownership (product : Product.t) (seller : Seller.t)
  : bool :=
  (Product.seller_id product =? Seller.id seller)%Z.

Definition verify_product_owner (product_id : Z)
  (x_api_key : option string) (s : in_memory_database)
  : response (Product.t * Seller.t) :=
  match get_current_seller x_api_key s with
  | HTTPException code detail => HTTPException code detail
  | Ok seller =>
      match get_product (tables s) product_id with
      | None =>
          HTTPException HTTP_404_NOT_FOUND (product_not_found product_id)
      | Some product =>
          if negb (check_product_ownership product seller) then
            HTTPException HTTP_403_FORBIDDEN
              "You don't have permission to perform this action on this product. You can only update your own products."
          else Ok (product, seller)
      end
  end.

End Auth.

(** ** The handlers that change products ([app/routers/products.py]) *)

(** The body of [POST /products]. *)
Module ProductCreate.
Record t : Type := mk {
  name : string;
  description : string;
  category_id : Z;
  price : Q;
  discount_percentage : Q;
  stock_status : string;
  features : list (string * string);
  images : list string
}.
End ProductCreate.

Module MessageResponse.
Record t : Type := mk { message : string; success : bool }.
End MessageResponse.

Definition category_not_found (category_id : Z) : string :=
  "Category with ID: " ++ str_int category_id ++ " not found.".

(** How the handler of [PUT] ends.  [Responds response s]: it returns
    or raises an [HTTPException], and leaves the store [s].
    [HandlerReturnsDict stored]: it returns the dict of the product,
    which is now [stored] and has a key that holds [None], so that it
    is not a [Product], the response model of the route.
    [HandlerRaisesTypeError stored]: [db.update_product] raises
    [TypeError], and the dict of the product is left as [stored].  In
    the last two cases the rest of the store is as before the
    request. *)
Inductive handler_outcome : Type :=
| Responds (answer : response (option Product.t)) (s : in_memory_database)
| HandlerReturnsDict (stored : ProductDict.t)
| HandlerRaisesTypeError (stored : ProductDict.t).

Module ProductsRouter.

(** [create_product(product, seller)]. *)
Definition create_product (product : ProductCreate.t)
  (x_api_key : option string) (now1 now2 : string)
  (s : in_memory_database) : response Product.t * in_memory_database :=
  match Auth.get_current_seller x_api_key s with
  | HTTPException code detail => (HTTPException code detail, s)
  | Ok seller =>
      match get_category s (ProductCreate.category_id product) with
      | None =>
          (HTTPException HTTP_400_BAD_REQUEST
             (category_not_found (ProductCreate.category_id product)), s)
      | Some _ =>
          let product_data :=
            {| ProductData.name := ProductCreate.name product;
               ProductData.description := ProductCreate.description product;
               ProductData.category_id := ProductCreate.category_id product;
               ProductData.seller_id := Seller.id seller;
               ProductData.price := ProductCreate.price product;
               ProductData.discount_percentage :=
                 ProductCreate.discount_percentage product;
               ProductData.stock_status :=
                 ProductCreate.stock_status product;
               ProductData.features := ProductCreate.features product;
               ProductData.images := ProductCreate.images product |} in
          let (s', created_product) :=
            on_tables (create_product product_data now1 now2) s in
          (Ok created_product, s')
      end
  end.

(** [not update_data] for an update none of whose keys holds [None]: no
    field is set. *)
Definition no_field (u : ProductChanges.t) : bool :=
  match ProductChanges.name u, ProductChanges.description u,
        ProductChanges.category_id u, ProductChanges.price u,
        ProductChanges.discount_percentage u, ProductChanges.stock_status u,
        ProductChanges.features u, ProductChanges.images u with
  | None, None, None, None, None, None, None, None => true
  | _, _, _, _, _, _, _, _ => false
  end.

(** [update_product(product_id, product_update, ownership)] for a body
    that sets no field to [null] (lemma
    [update_product_handler_without_none]). *)
Definition change_product (product_id : Z) (product_update : ProductChanges.t)
  (x_api_key : option string) (now : string) (s : in_memory_database)
  : response (option Product.t) * in_memory_database :=
  match Auth.verify_product_owner product_id x_api_key s with
  | HTTPException code detail => (HTTPException code detail, s)
  | Ok _ =>
      if no_field product_update then
        (HTTPException HTTP_400_BAD_REQUEST
           "You must specify at least one field to update.", s)
      else
        let unknown_category :=
          match ProductChanges.category_id product_update with
          | Some c =>
              match get_category s c with
              | None => Some c
              | Some _ => None
              end
          | None => None
          end in
        match unknown_category with
        | Some c =>
            (HTTPException HTTP_400_BAD_REQUEST (category_not_found c), s)
        | None =>
            let (s', updated_product) :=
              on_tables (change_product product_id product_update now) s in
            (Ok updated_product, s')
        end
  end.

(** [not update_data]: the dict has no key. *)
Definition no_key (u : ProductUpdate.t) : bool :=
  match ProductUpdate.name u, ProductUpdate.description u,
        ProductUpdate.category_id u, ProductUpdate.price u,
        ProductUpdate.discount_percentage u, ProductUpdate.stock_status u,
        ProductUpdate.features u, ProductUpdate.images u with
  | Unset, Unset, Unset, Unset, Unset, Unset, Unset, Unset => true
  | _, _, _, _, _, _, _, _ => false
  end.

(** [update_product(product_id, product_update, ownership)], for every
    body that schema [ProductUpdate] admits.  A [category_id] that is
    [null] is looked up as [db.get_category(None)], which finds
    nothing. *)
Definition update_product (product_id : Z) (product_update : ProductUpdate.t)
  (x_api_key : option string) (now : string) (s : in_memory_database)
  : handler_outcome :=
  match Auth.verify_product_owner product_id x_api_key s with
  | HTTPException code detail => Responds (HTTPException code detail) s
  | Ok _ =>
      if no_key product_update then
        Responds (HTTPException HTTP_400_BAD_REQUEST
                    "You must specify at least one field to update.") s
      else
        let category_error :=
          match ProductUpdate.category_id product_update with
          | Given c =>
              match get_category s c with
              | None => Some (category_not_found c)
              | Some _ => None
              end
          | Null => Some "Category with ID: None not found."
          | Unset => None
          end in
        match category_error with
        | Some detail =>
            Responds (HTTPException HTTP_400_BAD_REQUEST detail) s
        | None =>
            match update_product product_id product_update now (tables s)
            with
            | Returns db updated_product =>
                Responds (Ok updated_product) (with_tables s db)
            | ReturnsDict stored => HandlerReturnsDict stored
            | RaisesTypeError stored => HandlerRaisesTypeError stored
            end
        end
  end.

(** [delete_product(product_id, ownership)]. *)
Definition delete_product (product_id : Z) (x_api_key : option string)
  (s : in_memory_database)
  : response MessageResponse.t * in_memory_database :=
  match Auth.verify_product_owner product_id x_api_key s with
  | HTTPException code detail => (HTTPException code detail, s)
  | Ok _ =>
      let (s', _) := on_tables (delete_product product_id) s in
      (Ok {| MessageResponse.message :=
               "Product with ID: " ++ str_int product_id
               ++ " deleted successfully.";
             MessageResponse.success := true |}, s')
  end.

(** [get_products_by_category(category_id, sort_by, order, page,
    page_size)]. *)
Definition get_products_by_category {L : Py.Lower} (category_id : Z)
  (sort_by : ProductSortBy) (order : SortOrder) (page page_size : Z)
  (s : in_memory_database) : response (Page.t Product.t) :=
  match get_category s category_id with
  | None =>
      HTTPException HTTP_404_NOT_FOUND (category_not_found category_id)
  | Some _ =>
      let products := get_products_by_category (tables s) category_id in
      let products := apply_sorting products sort_by order in
      Ok (paginate products page page_size)
  end.

End ProductsRouter.

(** ** The review handlers ([app/routers/reviews.py]) *)

(** The body of [POST /products/{product_id}/reviews]. *)
Module ReviewCreate.
Record t : Type := mk {
  rating : Z;
  title : string;
  comment : string;
  pros : list string;
  cons : list string;
  user_id : Z
}.
End ReviewCreate.

Module ReviewStats.
Record t : Type := mk {
  product_id : Z;
  total_reviews : Z;
  average_rating : Q;
  rating_distribution : StrDict.t Z;
  recommendation_percentage : Q
}.
End ReviewStats.

(** The dict that [mark_review_helpful] returns. *)
Module HelpfulResponse.
Record t : Type := mk { message : string; helpful_count : Z }.
End HelpfulResponse.

Definition user_not_found (user_id : Z) : string :=
  "User with ID: " ++ str_int user_id ++ " not found.".

Definition review_not_found (review_id : Z) : string :=
  "Review with ID: " ++ str_int review_id ++ " not found.".

(** [{"5": 0, "4": 0, "3": 0, "2": 0, "1": 0}]. *)
Definition empty_distribution : StrDict.t Z :=
  [("5", 0%Z); ("4", 0%Z); ("3", 0%Z); ("2", 0%Z); ("1", 0%Z)].

(** One turn of the loop of [get_review_stats] over the reviews: the
    distribution, the sum of the ratings and the number of ratings of 4
    and more. *)
Definition stats_step (acc : StrDict.t Z * Z * Z) (review : Review.t)
  : StrDict.t Z * Z * Z :=
  let '(rating_distribution, total_rating, positive_reviews) := acc in
  let rating := Review.rating review in
  let total_rating := (total_rating + rating)%Z in
  let rating_str := str_int rating in
  let rating_distribution :=
    match StrDict.get rating_distribution rating_str with
    | Some n => StrDict.set rating_distribution rating_str (n + 1)%Z
    | None => rating_distribution
    end in
  let positive_reviews :=
    if (4 <=? rating)%Z then (positive_reviews + 1)%Z
    else positive_reviews in
  (rating_distribution, total_rating, positive_reviews).

Module ReviewsRouter.

(** [create_review(product_id, review)]: the review that is returned
    carries the name of the user.  The handler writes the name into the
    dict that the store holds as well; the handlers that answer with
    stored reviews write it again before they do. *)
Definition create_review (product_id : Z) (review : ReviewCreate.t)
  (now : string) (s : in_memory_database)
  : response (Review.t * string) * in_memory_database :=
  match get_product (tables s) product_id with
  | None =>
      (HTTPException HTTP_404_NOT_FOUND (product_not_found product_id), s)
  | Some _ =>
      match get_user s (ReviewCreate.user_id review) with
      | None =>
          (HTTPException HTTP_404_NOT_FOUND
             (user_not_found (ReviewCreate.user_id review)), s)
      | Some user =>
          let review_data :=
            {| ReviewData.product_id := product_id;
               ReviewData.user_id := ReviewCreate.user_id review;
               ReviewData.rating := ReviewCreate.rating review;
               ReviewData.title := ReviewCreate.title review;
               ReviewData.comment := ReviewCreate.comment review;
               ReviewData.pros := ReviewCreate.pros review;
               ReviewData.cons := ReviewCreate.cons review |} in
          let (s', created_review) :=
            on_tables (create_review review_data now) s in
          (Ok (created_review, User.name user), s')
      end
  end.

(** [get_review_stats(product_id)]. *)
Definition get_review_stats (product_id : Z) (s : in_memory_database)
  : response ReviewStats.t :=
  match get_product (tables s) product_id with
  | None =>
      HTTPException HTTP_404_NOT_FOUND (product_not_found product_id)
  | Some _ =>
      let reviews := get_reviews_by_product (tables s) product_id in
      let total_reviews := Py.len reviews in
      if (total_reviews =? 0)%Z then
        Ok {| ReviewStats.product_id := product_id;
              ReviewStats.total_reviews := 0;
              ReviewStats.average_rating := 0;
              ReviewStats.rating_distribution := empty_distribution;
              ReviewStats.recommendation_percentage := 0 |}
      else
        let '(rating_distribution, total_rating, positive_reviews) :=
          fold_left stats_step reviews (empty_distribution, 0%Z, 0%Z) in
        let average_rating :=
          Py.round (Py.truediv total_rating total_reviews) 2 in
        let recommendation_percentage :=
          Py.round (Py.fmul (Py.truediv positive_reviews total_reviews)
                            100) 1 in
        Ok {| ReviewStats.product_id := product_id;
              ReviewStats.total_reviews := total_reviews;
              ReviewStats.average_rating := average_rating;
              ReviewStats.rating_distribution := rating_distribution;
              ReviewStats.recommendation_percentage :=
                recommendation_percentage |}
  end.

(** [mark_review_helpful(review_id)]. *)
Definition mark_review_helpful (review_id : Z) (s : in_memory_database)
  : response HelpfulResponse.t * in_memory_database :=
  let (s', success) := on_tables (increment_helpful review_id) s in
  if negb success then
    (HTTPException HTTP_404_NOT_FOUND (review_not_found review_id), s')
  else
    match get_review (tables s') review_id with
    | Some review =>
        (Ok {| HelpfulResponse.message := "Review marked as helpful";
               HelpfulResponse.helpful_count :=
                 Review.helpful_count review |}, s')
    | None =>
        (* [review.get] on [None]: an [AttributeError] *)
        (HTTPException 500 "Internal Server Error", s')
    end.

End ReviewsRouter.

(** ** The category handlers ([app/routers/categories.py]) *)

Module CategoryWithCount.
Record t : Type := mk {
  category : Category.t;
  product_count : Z;
  subcategories : list Category.t
}.
End CategoryWithCount.

Module CategoriesRouter.

(** [list_categories()]. *)
Definition list_categories (s : in_memory_database)
  : list CategoryWithCount.t :=
  map (fun cat =>
         {| CategoryWithCount.category := cat;
            CategoryWithCount.product_count :=
              get_category_product_count s (Category.id cat);
            CategoryWithCount.subcategories := [] |})
      (get_all_categories s).

(** [get_category(category_id)]. *)
Definition get_category (category_id : Z) (s : in_memory_database)
  : response CategoryWithCount.t :=
  match get_category s category_id with
  | None =>
      HTTPException HTTP_404_NOT_FOUND (category_not_found category_id)
  | Some category =>
      Ok {| CategoryWithCount.category := category;
            CategoryWithCount.product_count :=
              get_category_product_count s category_id;
            CategoryWithCount.subcategories := [] |}
  end.

End CategoriesRouter.

(** ** Requests *)

(** The calls that fill and change a running store: the seeding of
    sellers, categories and users, and the handlers that write.  The
    seed also calls [create_product] and [create_review] of the store
    itself, each time for a stored seller with a key, a stored category,
    a stored product and a stored user; that is the change that
    [PostProduct] with the key of the seller and [PostReview] make.
    [PutProduct] is a [PUT] whose body sets no field to [null]; what a
    [PUT] with any body does to a store is
    [ProductsRouter.update_product]. *)
Inductive request : Type :=
| SeedSeller (seller_data : SellerData.t) (api_key : string) (now : string)
| SeedCategory (category_data : CategoryData.t)
| SeedUser (user_data : UserData.t) (now : string)
| PostProduct (product : ProductCreate.t) (x_api_key : option string)
              (now1 now2 : string)
| PutProduct (product_id : Z) (product_update : ProductChanges.t)
             (x_api_key : option string) (now : string)
| DeleteProduct (product_id : Z) (x_api_key : option string)
| PostReview (product_id : Z) (review : ReviewCreate.t) (now : string)
| PostHelpful (review_id : Z).

Definition serve (r : request) (s : in_memory_database)
  : in_memory_database :=
  match r with
  | SeedSeller d k n => fst (create_seller d k n s)
  | SeedCategory d => fst (create_category d s)
  | SeedUser d n => fst (create_user d n s)
  | PostProduct p k n1 n2 => snd (ProductsRouter.create_product p k n1 n2 s)
  | PutProduct i u k n => snd (ProductsRouter.change_product i u k n s)
  | DeleteProduct i k => snd (ProductsRouter.delete_product i k s)
  | PostReview i r n => snd (ReviewsRouter.create_review i r n s)
  | PostHelpful i => snd (ReviewsRouter.mark_review_helpful i s)
  end.

Definition serve_all (rs : list request) (s : in_memory_database)
  : in_memory_database :=
  fold_left (fun st r => serve r st) rs s.

(** Every reference of a stored record leads to a stored record: a
    review to its product and its user, a product to its seller and its
    category, an API key to its seller. *)
Definition references_resolve (s : in_memory_database) : Prop :=
  (forall k r, In (k, r) (_reviews (tables s)) ->
     (exists p, get_product (tables s) (Review.product_id r) = Some p)
     /\ (exists u, get_user s (Review.user_id r) = Some u))
  /\ (forall k p, In (k, p) (_products (tables s)) ->
        (exists x, get_seller s (Product.seller_id p) = Some x)
        /\ (exists c, get_category s (Product.category_id p) = Some c))
  /\ (forall key seller_id,
        StrDict.get (_api_keys s) key = Some seller_id ->
        exists x, get_seller_by_api_key s key = Some x
                  /\ Seller.id x = seller_id).

(** ** Consistency of the whole store *)

(** The tables of the users, the sellers and the categories are tables
    of a store made by its own operations. *)
Definition accounts_ok (s : in_memory_database) : Prop :=
  table_ok User.id (_users s) (_user_counter s)
  /\ table_ok Seller.id (_sellers s) (_seller_counter s)
  /\ table_ok Category.id (_categories s) (_category_counter s).

Definition consistent (s : in_memory_database) : Prop :=
  store_ok (tables s) /\ accounts_ok s
  /\ final_price_in_sync (tables s) /\ ratings_in_sync (tables s)
  /\ references_resolve s.

(** The API key that comes with a request. *)
Definition credential (r : request) : option string :=
  match r with
  | PostProduct _ k _ _ | PutProduct _ _ k _ | DeleteProduct _ k => k
  | _ => None
  end.

(** The two product records differ at most in the rating and the number
    of reviews. *)
Definition same_listing (p q : Product.t) : Prop :=
  Product.id q = Product.id p
  /\ Product.name q = Product.name p
  /\ Product.description q = Product.description p
  /\ Product.category_id q = Product.category_id p
  /\ Product.seller_id q = Product.seller_id p
  /\ Product.price q = Product.price p
  /\ Product.discount_percentage q = Product.discount_percentage p
  /\ Product.stock_status q = Product.stock_status p
  /\ Product.features q = Product.features p
  /\ Product.images q = Product.images p
  /\ Product.created_at q = Product.created_at p
  /\ Product.updated_at q = Product.updated_at p
  /\ Product.final_price q = Product.final_price p.

(** The number of reviews of a list with a given rating. *)
Definition count_rating (reviews : list Review.t) (rating : Z) : Z :=
  Py.len (filter (fun r => (Review.rating r =? rating)%Z) reviews).

(** The status code of a response, 200 when nothing is raised. *)
Definition status_of {A : Type} (r : response A) : Z :=
  match r with
  | Ok _ => 200%Z
  | HTTPException code _ => code
  end.

(** ** A running store *)

Definition sample_seller (name : string) : SellerData.t :=
  {| SellerData.name := name;
     SellerData.description := "";
     SellerData.logo_url := None;
     SellerData.contact_email := "";
     SellerData.contact_phone := None;
     SellerData.is_verified := true;
     SellerData.product_count := 0;
     SellerData.average_rating := 0 |}.

Definition sample_category (name : string) : CategoryData.t :=
  {| CategoryData.name := name;
     CategoryData.description := "";
     CategoryData.icon := None;
     CategoryData.image_url := None;
     CategoryData.parent_id := None |}.

Definition sample_user (name : string) : UserData.t :=
  {| UserData.name := name;
     UserData.email := "";
     UserData.avatar_url := None |}.

Definition sample_listing (name : string) (category : Z) (price : Q)
  : ProductCreate.t :=
  {| ProductCreate.name := name;
     ProductCreate.description := "";
     ProductCreate.category_id := category;
     ProductCreate.price := price;
     ProductCreate.discount_percentage := 0;
     ProductCreate.stock_status := "in_stock";
     ProductCreate.features := [];
     ProductCreate.images := [] |}.

Definition sample_opinion (user rating : Z) : ReviewCreate.t :=
  {| ReviewCreate.rating := rating;
     ReviewCreate.title := "";
     ReviewCreate.comment := "";
     ReviewCreate.pros := [];
     ReviewCreate.cons := [];
     ReviewCreate.user_id := user |}.

(** Two categories, two sellers with their keys and a user are seeded;
    each seller lists a product, and the user reviews the first one
    twice. *)
Definition sample_requests : list request :=
  [SeedCategory (sample_category "Electronics");
   SeedCategory (sample_category "Fashion");
   SeedSeller (sample_seller "TechStore") "seller_key_001" t0;
   SeedSeller (sample_seller "FashionHub") "seller_key_002" t0;
   SeedUser (sample_user "John") t0;
   PostProduct (sample_listing "Phone" 1 100) (Some "seller_key_001") t0 t0;
   PostProduct (sample_listing "Shirt" 2 20) (Some "seller_key_002") t0 t0;
   PostReview 1 (sample_opinion 1 5) t0;
   PostReview 1 (sample_opinion 1 4) t0].

Definition sample_store : in_memory_database :=
  serve_all sample_requests empty_store.

(** An update that sets the price and nothing else. *)
Definition new_price (price : Q) : ProductChanges.t :=
  {| ProductChanges.name := None;
     ProductChanges.description := None;
     ProductChanges.category_id := None;
     ProductChanges.price := Some price;
     ProductChanges.discount_percentage := None;
     ProductChanges.stock_status := None;
     ProductChanges.features := None;
     ProductChanges.images := None |}.

(** * Properties *)

(** ** The dict *)

Section DictFacts.
Variable V : Type.
Implicit Types (d : Dict.t V) (k : Z) (v : V).

Lemma get_set d k v k' :
  Dict.get (Dict.set d k v) k'
  = if (k =? k')%Z then Some v else Dict.get d k'.
Proof.
  induction d as [|[k0 v0] d IH]; cbn [Dict.set Dict.get].
  - reflexivity.
  - destruct (Z.eqb_spec k0 k) as [->|Hne]; cbn [Dict.get].
    + now destruct (k =? k')%Z.
    + rewrite IH. destruct (Z.eqb_spec k0 k') as [->|]; [|reflexivity].
      destruct (Z.eqb_spec k k'); [congruence|reflexivity].
Qed.

Lemma get_del d k k' :
  Dict.get (Dict.del d k) k'
  = if (k =? k')%Z then None else Dict.get d k'.
Proof.
  unfold Dict.del.
  induction d as [|[k0 v0] d IH]; cbn [filter Dict.get fst].
  - now destruct (k =? k')%Z.
  - destruct (Z.eqb_spec k0 k) as [->|Hne]; cbn [negb Dict.get].
    + rewrite IH. now destruct (k =? k')%Z.
    + rewrite IH. destruct (Z.eqb_spec k0 k') as [->|]; [|reflexivity].
      destruct (Z.eqb_spec k k'); [congruence|reflexivity].
Qed.

Lemma get_modify d k (f : V -> V) k' :
  Dict.get (Dict.modify d k f) k'
  = if (k =? k')%Z then option_map f (Dict.get d k) else Dict.get d k'.
Proof.
  unfold Dict.modify. destruct (Dict.get d k) as [v|] eqn:E.
  - rewrite get_set. now destruct (k =? k')%Z.
  - destruct (Z.eqb_spec k k') as [<-|]; [exact E|reflexivity].
Qed.

Lemma in_set d k v k' v' :
  In (k', v') (Dict.set d k v) -> (k', v') = (k, v) \/ In (k', v') d.
Proof.
  induction d as [|[k0 v0] d IH]; cbn [Dict.set].
  - intros [[= <- <-]|[]]. now left.
  - destruct (Z.eqb_spec k0 k) as [->|Hne].
    + intros [[= <- <-]|Hin]; [now left|right; now right].
    + intros [Heq|Hin]; [right; now left|].
      destruct (IH Hin); [now left|right; now right].
Qed.

(** A key that is not in the dict goes last. *)
Lemma set_fresh d k v :
  (forall k' v', In (k', v') d -> k' <> k) ->
  Dict.set d k v = d ++ [(k, v)].
Proof.
  induction d as [|[k0 v0] d IH]; intro Hfresh; cbn [Dict.set app].
  - reflexivity.
  - destruct (Z.eqb_spec k0 k) as [->|Hne].
    + exfalso. apply (Hfresh k v0); [now left|reflexivity].
    + rewrite IH; [reflexivity|].
      intros k' v' Hin. apply (Hfresh k' v'). now right.
Qed.

End DictFacts.

(** ** Comparison of rationals *)

Lemma Qltb_lt (a b : Q) : Py.Qltb a b = true <-> (a < b)%Q.
Proof.
  unfold Py.Qltb. rewrite negb_true_iff.
  split; intro H.
  - apply Qnot_le_lt. intro Hle. apply Qle_bool_iff in Hle. congruence.
  - destruct (Qle_bool b a) eqn:E; [|reflexivity].
    apply Qle_bool_iff in E. exfalso. exact (Qlt_not_le _ _ H E).
Qed.

Lemma Qltb_ge (a b : Q) : Py.Qltb a b = false <-> (b <= a)%Q.
Proof.
  unfold Py.Qltb. rewrite negb_false_iff. apply Qle_bool_iff.
Qed.

Lemma Qleb_le (a b : Q) : Py.Qleb a b = true <-> (a <= b)%Q.
Proof. apply Qle_bool_iff. Qed.

Lemma Qeqb_eq (a b : Q) : Py.Qeqb a b = true <-> (a == b)%Q.
Proof. apply Qeq_bool_iff. Qed.

Lemma abs_Qabs (x : Q) : (Py.abs x == Qabs x)%Q.
Proof.
  unfold Py.abs. destruct (Py.Qltb x 0) eqn:E.
  - apply Qltb_lt in E. symmetry. apply Qabs_neg. apply Qlt_le_weak, E.
  - apply Qltb_ge in E. symmetry. apply Qabs_pos, E.
Qed.

Lemma max_Qmax (a b : Q) : (Py.max a b == Qmax a b)%Q.
Proof.
  unfold Py.max. destruct (Py.Qltb a b) eqn:E.
  - apply Qltb_lt in E. symmetry. apply Q.max_r. apply Qlt_le_weak, E.
  - apply Qltb_ge in E. symmetry. apply Q.max_l, E.
Qed.

(** ** Rounding *)

Lemma round_half_even_close (x : Q) :
  (Qabs (inject_Z (Py.round_half_even x) - x) <= 1 # 2)%Q.
Proof.
  unfold Py.round_half_even.
  pose proof (Qfloor_le x) as Hlo. pose proof (Qlt_floor x) as Hhi.
  rewrite inject_Z_plus in Hhi. change (inject_Z 1) with 1%Q in Hhi.
  apply Qabs_Qle_condition.
  destruct (Qcompare_spec (x - inject_Z (Qfloor x)) (1 # 2)) as [He|Hl|Hg].
  - destruct (Z.even (Qfloor x)); rewrite ?inject_Z_plus;
      change (inject_Z 1) with 1%Q; split; lra.
  - split; lra.
  - rewrite inject_Z_plus. change (inject_Z 1) with 1%Q. split; lra.
Qed.

(** [round_decimal x n] is a multiple of [10^-n]... *)
Lemma round_multiple (x : Q) (n : nat) :
  exists k : Z, (Py.round_decimal x n == k # Z.to_pos (10 ^ Z.of_nat n))%Q.
Proof.
  unfold Py.round_decimal. eexists. apply Qred_correct.
Qed.

(** ... and at most half of [10^-n] away from [x]. *)
Lemma round_close (x : Q) (n : nat) :
  (Qabs (Py.round_decimal x n - x)
   <= 1 # (2 * Z.to_pos (10 ^ Z.of_nat n)))%Q.
Proof.
  unfold Py.round_decimal. set (s := Z.to_pos (10 ^ Z.of_nat n)).
  rewrite Qred_correct.
  set (k := Py.round_half_even (x * inject_Z (Z.pos s))).
  pose proof (round_half_even_close (x * inject_Z (Z.pos s))) as Hk.
  fold k in Hk.
  assert (Hs : (0 < inject_Z (Z.pos s))%Q) by reflexivity.
  rewrite (Qmake_Qdiv k s).
  assert (Heq : (inject_Z k / inject_Z (Z.pos s) - x
                 == (inject_Z k - x * inject_Z (Z.pos s))
                    * / inject_Z (Z.pos s))%Q).
  { field. lra. }
  rewrite Heq, Qabs_Qmult.
  rewrite (Qabs_pos (/ inject_Z (Z.pos s)))
    by (apply Qlt_le_weak, Qinv_lt_0_compat, Hs).
  assert (H2 : (1 # (2 * s) == (1 # 2) * / inject_Z (Z.pos s))%Q).
  { rewrite (Qmake_Qdiv 1 (2 * s)). rewrite Pos2Z.inj_mul, inject_Z_mult.
    change (inject_Z 1) with 1%Q. change (inject_Z 2) with 2%Q.
    field. lra. }
  rewrite H2. apply Qmult_le_compat_r; [exact Hk|].
  apply Qlt_le_weak, Qinv_lt_0_compat, Hs.
Qed.

Unset Implicit Arguments.

Lemma round_half_even_comp (x y : Q) :
  (x == y)%Q -> Py.round_half_even x = Py.round_half_even y.
Proof.
  intro H. unfold Py.round_half_even. rewrite (Qfloor_comp _ _ H).
  assert (Hc : Qcompare (x - inject_Z (Qfloor y)) (1 # 2)
               = Qcompare (y - inject_Z (Qfloor y)) (1 # 2)).
  { apply Qcompare_comp; [now rewrite H|reflexivity]. }
  now rewrite Hc.
Qed.

Lemma round_half_even_Z (z : Z) : Py.round_half_even (inject_Z z) = z.
Proof.
  unfold Py.round_half_even. rewrite Qfloor_Z.
  assert (Hc : Qcompare (inject_Z z - inject_Z z) (1 # 2) = Lt).
  { apply Qlt_alt.
    setoid_replace (inject_Z z - inject_Z z)%Q with 0%Q by ring.
    reflexivity. }
  now rewrite Hc.
Qed.

Lemma round_half_even_bounds (x : Q) :
  (Qfloor x <= Py.round_half_even x <= Qfloor x + 1)%Z.
Proof.
  unfold Py.round_half_even.
  destruct (Qcompare _ _); [destruct (Z.even _)| |]; lia.
Qed.

Lemma round_half_even_mono (x y : Q) :
  (x <= y)%Q -> (Py.round_half_even x <= Py.round_half_even y)%Z.
Proof.
  intro H. pose proof (Qfloor_resp_le _ _ H) as Hf.
  destruct (Z.eq_dec (Qfloor x) (Qfloor y)) as [He|Hne].
  - unfold Py.round_half_even. rewrite He.
    destruct (Qcompare_spec (x - inject_Z (Qfloor y)) (1 # 2))
      as [H1|H1|H1];
      destruct (Qcompare_spec (y - inject_Z (Qfloor y)) (1 # 2))
        as [H2|H2|H2];
      try (destruct (Z.even (Qfloor y))); try lia; exfalso; lra.
  - pose proof (round_half_even_bounds x).
    pose proof (round_half_even_bounds y). lia.
Qed.

(** ** Floats *)

Lemma pow2_pos (e : Z) : (0 < Py.pow2 e)%Q.
Proof. apply Qpower_0_lt. reflexivity. Qed.

Lemma pow2_add (a b : Z) : (Py.pow2 (a + b) == Py.pow2 a * Py.pow2 b)%Q.
Proof. apply Qpower_plus. discriminate. Qed.

Lemma pow2_sub (a b : Z) : (Py.pow2 (a - b) == Py.pow2 a / Py.pow2 b)%Q.
Proof. apply Qpower_minus. discriminate. Qed.

Lemma pow2_le (a b : Z) : (a <= b)%Z -> (Py.pow2 a <= Py.pow2 b)%Q.
Proof. intro H. apply Qpower_le_compat_l; [exact H|discriminate]. Qed.

Lemma pow2_Z (e : Z) : (0 <= e)%Z -> (Py.pow2 e == inject_Z (2 ^ e))%Q.
Proof. intro H. unfold Py.pow2. now rewrite Zpower_Qpower. Qed.

Lemma pow2_neg (e : Z) :
  (0 <= e)%Z -> (Py.pow2 (- e) == / inject_Z (2 ^ e))%Q.
Proof.
  intro H. unfold Py.pow2. rewrite Qpower_opp. now rewrite Zpower_Qpower.
Qed.

(** [ilog2] gives the binade of a positive number. *)
Lemma ilog2_spec (x : Q) :
  (0 < x)%Q -> (Py.pow2 (Py.ilog2 x) <= x < Py.pow2 (Py.ilog2 x + 1))%Q.
Proof.
  intro Hx. unfold Py.ilog2.
  destruct (Qle_bool 1 x) eqn:E.
  - apply Qle_bool_iff in E.
    assert (Hf : (1 <= Qfloor x)%Z).
    { change 1%Z with (Qfloor 1). now apply Qfloor_resp_le. }
    destruct (Z.log2_spec (Qfloor x)) as [Hlo Hhi]; [lia|].
    pose proof (Z.log2_nonneg (Qfloor x)) as Hk.
    rewrite !pow2_Z by lia. split.
    + eapply Qle_trans; [|apply Qfloor_le]. now rewrite <- Zle_Qle.
    + eapply Qlt_le_trans; [apply Qlt_floor|]. rewrite <- Zle_Qle.
      replace (Z.log2 (Qfloor x) + 1)%Z with (Z.succ (Z.log2 (Qfloor x)))
        by lia. lia.
  - assert (Hlt : (x < 1)%Q).
    { apply Qnot_le_lt. intro H. apply Qle_bool_iff in H. congruence. }
    assert (Hinv : (1 < / x)%Q).
    { apply Qlt_shift_inv_l; [exact Hx|]. now rewrite Qmult_1_l. }
    assert (Hix : (0 < / x)%Q) by now apply Qinv_lt_0_compat.
    set (c := Qceiling (/ x)).
    assert (Hc : (1 < c)%Z).
    { pose proof (Qlt_le_trans _ _ _ Hinv (Qle_ceiling (/ x))) as H.
      fold c in H. change 1%Q with (inject_Z 1) in H.
      now rewrite <- Zlt_Qlt in H. }
    destruct (Z.log2_up_spec c Hc) as [Hlo Hhi].
    pose proof (Z.log2_up_pos c Hc) as Hj.
    set (j := Z.log2_up c) in *.
    assert (Hup : (/ x <= inject_Z (2 ^ j))%Q).
    { eapply Qle_trans; [apply Qle_ceiling|]. fold c. now rewrite <- Zle_Qle. }
    assert (H2j : (0 < inject_Z (2 ^ j))%Q).
    { change 0%Q with (inject_Z 0). rewrite <- Zlt_Qlt.
      apply Z.pow_pos_nonneg; lia. }
    split.
    + rewrite pow2_neg by lia.
      apply Qle_shift_inv_r; [exact H2j|].
      apply (Qmult_le_l _ _ (/ x)); [exact Hix|].
      rewrite Qmult_assoc, (Qmult_comm (/ x) x), Qmult_inv_r, Qmult_1_l
        by (intro H0; rewrite H0 in Hx; discriminate).
      rewrite Qmult_1_r. exact Hup.
    + replace (- j + 1)%Z with (- (j - 1))%Z by lia.
      rewrite pow2_neg by lia.
      assert (Hlo' : (inject_Z (2 ^ (j - 1)) < / x)%Q).
      { eapply Qle_lt_trans; [|apply (Qceiling_lt (/ x))]. fold c.
        rewrite <- Zle_Qle. replace (Z.pred j) with (j - 1)%Z in Hlo by lia.
        lia. }
      assert (H2j1 : (0 < inject_Z (2 ^ (j - 1)))%Q).
      { change 0%Q with (inject_Z 0). rewrite <- Zlt_Qlt.
        apply Z.pow_pos_nonneg; lia. }
      apply Qlt_shift_inv_l; [exact H2j1|].
      apply (Qmult_lt_l _ _ (/ x)); [exact Hix|].
      rewrite Qmult_assoc, (Qmult_comm (/ x) x), Qmult_inv_r, Qmult_1_l
        by (intro H0; rewrite H0 in Hx; discriminate).
      rewrite Qmult_1_r. exact Hlo'.
Qed.

Lemma ilog2_mono (x y : Q) :
  (0 < x)%Q -> (x <= y)%Q -> (Py.ilog2 x <= Py.ilog2 y)%Z.
Proof.
  intros Hx Hxy.
  assert (Hy : (0 < y)%Q) by (eapply Qlt_le_trans; eassumption).
  destruct (ilog2_spec x Hx) as [Hlo _].
  destruct (ilog2_spec y Hy) as [_ Hhi].
  destruct (Z_le_gt_dec (Py.ilog2 x) (Py.ilog2 y)) as [H|H]; [exact H|].
  exfalso.
  assert (Hp : (Py.pow2 (Py.ilog2 y + 1) <= Py.pow2 (Py.ilog2 x))%Q)
    by (apply pow2_le; lia).
  lra.
Qed.

Lemma ilog2_comp (x y : Q) : (x == y)%Q -> Py.ilog2 x = Py.ilog2 y.
Proof.
  intro H. unfold Py.ilog2.
  rewrite (Qleb_comp 1 1 (Qeq_refl 1) x y H), (Qfloor_comp _ _ H).
  assert (Hi : (/ x == / y)%Q) by now rewrite H.
  now rewrite (Qceiling_comp _ _ Hi).
Qed.

Lemma nearest_comp (x y : Q) : (x == y)%Q -> (Py.nearest x == Py.nearest y)%Q.
Proof.
  intro H. unfold Py.nearest. rewrite (ilog2_comp _ _ H).
  set (e := Z.max (Py.ilog2 y - 52) (-1074)).
  rewrite (round_half_even_comp (x / Py.pow2 e) (y / Py.pow2 e))
    by now rewrite H.
  reflexivity.
Qed.

Lemma nearest_nonneg (x : Q) : (0 < x)%Q -> (0 <= Py.nearest x)%Q.
Proof.
  intro Hx. unfold Py.nearest.
  set (e := Z.max (Py.ilog2 x - 52) (-1074)).
  pose proof (pow2_pos e) as He.
  apply Qmult_le_0_compat; [|lra].
  change 0%Q with (inject_Z 0). rewrite <- Zle_Qle.
  rewrite <- (round_half_even_Z 0). apply round_half_even_mono.
  apply Qle_shift_div_l; [exact He|]. change (inject_Z 0) with 0%Q. lra.
Qed.

(** A number below a power of two is rounded, on any finer grid, to at
    most that power; a number above it to at least that power. *)
Lemma grid_le (x b : Q) (e k : Z) :
  (0 <= k)%Z -> (x <= b)%Q -> (b == Py.pow2 (e + k))%Q ->
  (inject_Z (Py.round_half_even (x / Py.pow2 e)) * Py.pow2 e <= b)%Q.
Proof.
  intros Hk Hx Hb. pose proof (pow2_pos e) as He.
  assert (Hq : (b / Py.pow2 e == inject_Z (2 ^ k))%Q).
  { rewrite Hb, (Z.add_comm e k), pow2_add, (pow2_Z k Hk). field. lra. }
  assert (Hr : (Py.round_half_even (x / Py.pow2 e) <= 2 ^ k)%Z).
  { rewrite <- (round_half_even_Z (2 ^ k)). apply round_half_even_mono.
    rewrite <- Hq. apply Qmult_le_compat_r; [exact Hx|].
    apply Qlt_le_weak, Qinv_lt_0_compat, He. }
  rewrite Zle_Qle in Hr.
  apply (Qmult_le_compat_r _ _ (Py.pow2 e)) in Hr; [|lra].
  eapply Qle_trans; [exact Hr|]. rewrite <- Hq.
  apply Qle_lteq. right. field. lra.
Qed.

Lemma grid_ge (x b : Q) (e k : Z) :
  (0 <= k)%Z -> (b <= x)%Q -> (b == Py.pow2 (e + k))%Q ->
  (b <= inject_Z (Py.round_half_even (x / Py.pow2 e)) * Py.pow2 e)%Q.
Proof.
  intros Hk Hx Hb. pose proof (pow2_pos e) as He.
  assert (Hq : (b / Py.pow2 e == inject_Z (2 ^ k))%Q).
  { rewrite Hb, (Z.add_comm e k), pow2_add, (pow2_Z k Hk). field. lra. }
  assert (Hr : (2 ^ k <= Py.round_half_even (x / Py.pow2 e))%Z).
  { rewrite <- (round_half_even_Z (2 ^ k)). apply round_half_even_mono.
    rewrite <- Hq. apply Qmult_le_compat_r; [exact Hx|].
    apply Qlt_le_weak, Qinv_lt_0_compat, He. }
  rewrite Zle_Qle in Hr.
  apply (Qmult_le_compat_r _ _ (Py.pow2 e)) in Hr; [|lra].
  eapply Qle_trans; [|exact Hr]. rewrite <- Hq.
  apply Qle_lteq. right. field. lra.
Qed.

Lemma nearest_mono (x y : Q) :
  (0 < x)%Q -> (x <= y)%Q -> (Py.nearest x <= Py.nearest y)%Q.
Proof.
  intros Hx Hxy.
  assert (Hy : (0 < y)%Q) by (eapply Qlt_le_trans; eassumption).
  pose proof (ilog2_mono x y Hx Hxy) as Hl.
  unfold Py.nearest.
  set (ex := Z.max (Py.ilog2 x - 52) (-1074)).
  set (ey := Z.max (Py.ilog2 y - 52) (-1074)).
  destruct (Z.eq_dec ex ey) as [E|E].
  - rewrite E. pose proof (pow2_pos ey) as He.
    apply Qmult_le_compat_r; [|lra]. rewrite <- Zle_Qle.
    apply round_half_even_mono. apply Qmult_le_compat_r; [exact Hxy|].
    apply Qlt_le_weak, Qinv_lt_0_compat, He.
  - assert (Hey : ey = (Py.ilog2 y - 52)%Z) by lia.
    assert (Hlt : (Py.ilog2 x < Py.ilog2 y)%Z) by lia.
    destruct (ilog2_spec x Hx) as [_ Hxhi].
    destruct (ilog2_spec y Hy) as [Hylo _].
    apply Qle_trans with (y := Py.pow2 (Py.ilog2 y)).
    + apply grid_le with (k := (Py.ilog2 y - ex)%Z); [lia| |].
      * apply Qlt_le_weak. eapply Qlt_le_trans; [exact Hxhi|].
        apply pow2_le. lia.
      * replace (ex + (Py.ilog2 y - ex))%Z with (Py.ilog2 y) by lia.
        reflexivity.
    + apply grid_ge with (k := 52%Z); [lia|exact Hylo|].
      rewrite Hey. replace (Py.ilog2 y - 52 + 52)%Z with (Py.ilog2 y) by lia.
      reflexivity.
Qed.

(** The float of equal numbers is one float, ... *)
Lemma float_comp (x y : Q) : (x == y)%Q -> Py.float x = Py.float y.
Proof.
  intro H. unfold Py.float.
  rewrite (Qcompare_comp x y H 0 0 (Qeq_refl 0)).
  destruct (Qcompare y 0); [reflexivity| |]; apply Qred_complete.
  - apply Qopp_comp, nearest_comp. now rewrite H.
  - now apply nearest_comp.
Qed.

(** ... rounding keeps the order, ... *)
Lemma float_mono (x y : Q) : (x <= y)%Q -> (Py.float x <= Py.float y)%Q.
Proof.
  intro H. unfold Py.float.
  destruct (Qcompare_spec x 0) as [Hx|Hx|Hx];
    destruct (Qcompare_spec y 0) as [Hy|Hy|Hy];
    rewrite ?Qred_correct; try lra.
  - apply nearest_nonneg, Hy.
  - assert (H0 : (0 < - x)%Q) by lra.
    pose proof (nearest_nonneg (- x) H0). lra.
  - assert (H0 : (0 < - y)%Q) by lra. assert (H1 : (- y <= - x)%Q) by lra.
    pose proof (nearest_mono (- y) (- x) H0 H1). lra.
  - assert (H0 : (0 < - x)%Q) by lra.
    pose proof (nearest_nonneg (- x) H0).
    pose proof (nearest_nonneg y Hy). lra.
  - now apply nearest_mono.
Qed.

Lemma float_opp (x : Q) : (Py.float (- x) == - Py.float x)%Q.
Proof.
  unfold Py.float.
  destruct (Qcompare_spec x 0) as [Hx|Hx|Hx];
    destruct (Qcompare_spec (- x) 0) as [Hy|Hy|Hy];
    rewrite ?Qred_correct; try lra.
  rewrite (nearest_comp (- - x) x) by ring. ring.
Qed.


Set Implicit Arguments.

(** ** [round] *)

Lemma round_decimal_mono (x y : Q) (n : nat) :
  (x <= y)%Q -> (Py.round_decimal x n <= Py.round_decimal y n)%Q.
Proof.
  intro H. unfold Py.round_decimal. rewrite !Qred_correct.
  set (s := Z.to_pos (10 ^ Z.of_nat n)).
  assert (Hk : (Py.round_half_even (x * inject_Z (Z.pos s))
                <= Py.round_half_even (y * inject_Z (Z.pos s)))%Z).
  { apply round_half_even_mono. apply Qmult_le_compat_r; [exact H|easy]. }
  unfold Qle. cbn [Qnum Qden]. now apply Z.mul_le_mono_nonneg_r.
Qed.


(** Rounding keeps the order, ... *)
Lemma round_mono (x y : Q) (n : nat) :
  (x <= y)%Q -> (Py.round x n <= Py.round y n)%Q.
Proof. intro H. apply float_mono, round_decimal_mono, H. Qed.


(** A float that is a whole number stays as it is. *)
Lemma round_decimal_Z (z : Z) (n : nat) :
  (Py.round_decimal (inject_Z z) n == inject_Z z)%Q.
Proof.
  unfold Py.round_decimal. set (s := Z.to_pos (10 ^ Z.of_nat n)).
  rewrite Qred_correct.
  rewrite (round_half_even_comp _ (inject_Z (z * Z.pos s))).
  - rewrite round_half_even_Z. unfold Qeq, inject_Z. cbn [Qnum Qden]. lia.
  - now rewrite inject_Z_mult.
Qed.

Lemma round_0 (n : nat) : Py.round 0 n = 0%Q.
Proof.
  unfold Py.round. transitivity (Py.float 0); [|reflexivity].
  apply float_comp. exact (round_decimal_Z 0 n).
Qed.

(** Python's [round(0.125, 2)] is 0.12, the tie going to the even digit;
    [round(2.675, 2)] is 2.67 and [round(1.005, 2)] is 1.0, the floats
    written 2.675 and 1.005 being below these decimals; [round(14/3, 2)]
    is the float 4.67. *)
Example round_example :
  Py.round (Py.float (1 # 8)) 2 = Py.float (12 # 100)
  /\ Py.round (Py.float (2675 # 1000)) 2 = Py.float (267 # 100)
  /\ Py.round (Py.float (1005 # 1000)) 2 = 1%Q
  /\ Py.round (Py.truediv 14 3) 2 = Py.float (467 # 100)
  /\ Py.round 75 2 = 75%Q
  /\ Py.fadd (Py.float (1 # 10)) (Py.float (2 # 10))
     = Py.float (30000000000000004 # 100000000000000000).
Proof. vm_compute. repeat split. Qed.

(** The derived fields are floats.  At price 1.05 with a discount of 10
    the final price is 0.95 and at 19.99 with a discount of 50 it is
    9.99, the float products being just above 0.945 and just below
    9.995; 39 ratings of 4 and one of 5 have the mean 4.03, the float
    4.025 being above that decimal; 23 positive reviews of 80 are
    28.7 percent, the float [23 / 80 * 100] being below 28.75. *)
Example float_rounding_example :
  compute_final_price (Py.float (105 # 100)) 10 = Py.float (95 # 100)
  /\ compute_final_price (Py.float (1999 # 100)) 50 = Py.float (999 # 100)
  /\ mean_rating (repeat 4%Z 39 ++ [5%Z]) = Py.float (403 # 100)
  /\ Py.round (Py.fmul (Py.truediv 23 80) 100) 1 = Py.float (287 # 10).
Proof. vm_compute. repeat split. Qed.

(** ** The sort *)

Section SortFacts.
Variables A K : Type.
Variable ltb : K -> K -> bool.
Variable key : A -> K.

Lemma insert_perm (x : A) (l : list A) :
  Permutation (Py.insert ltb key x l) (x :: l).
Proof.
  induction l as [|y l IH]; simpl.
  - apply Permutation_refl.
  - destruct (ltb (key y) (key x)).
    + eapply Permutation_trans.
      * apply perm_skip, IH.
      * apply perm_swap.
    + apply Permutation_refl.
Qed.

Lemma sort_asc_perm (l : list A) : Permutation (Py.sort_asc ltb key l) l.
Proof.
  induction l as [|x l IH]; simpl.
  - apply perm_nil.
  - eapply Permutation_trans; [apply insert_perm|]. apply perm_skip, IH.
Qed.

Lemma sorted_perm (reverse : bool) (l : list A) :
  Permutation (Py.sorted ltb key reverse l) l.
Proof.
  unfold Py.sorted. destruct reverse.
  - eapply Permutation_trans; [apply Permutation_sym, Permutation_rev|].
    eapply Permutation_trans; [apply sort_asc_perm|].
    apply Permutation_sym, Permutation_rev.
  - apply sort_asc_perm.
Qed.

(** *** Stability: elements of equal key are never moved past each
    other, because [<] does not hold between equal keys. *)
Section Stability.
Variable same : A -> A -> bool.
Hypothesis same_not_lt :
  forall a x y, same a x = true -> same a y = true ->
                ltb (key x) (key y) = false.

Lemma filter_insert (a x : A) (l : list A) :
  filter (same a) (Py.insert ltb key x l) = filter (same a) (x :: l).
Proof.
  induction l as [|y l IH]; [reflexivity|].
  cbn [Py.insert]. destruct (ltb (key y) (key x)) eqn:Hlt; [|reflexivity].
  cbn [filter] in *. rewrite IH.
  destruct (same a y) eqn:Hy, (same a x) eqn:Hx; try reflexivity.
  rewrite (@same_not_lt a y x Hy Hx) in Hlt. discriminate.
Qed.

Lemma sort_asc_stable (l : list A) : Stable same l (Py.sort_asc ltb key l).
Proof.
  intro a. induction l as [|x l IH]; [reflexivity|].
  cbn [Py.sort_asc]. rewrite filter_insert. cbn [filter]. now rewrite IH.
Qed.

Lemma sorted_stable (reverse : bool) (l : list A) :
  Stable same l (Py.sorted ltb key reverse l).
Proof.
  intro a. unfold Py.sorted. destruct reverse.
  - rewrite filter_rev, sort_asc_stable, filter_rev. apply rev_involutive.
  - apply sort_asc_stable.
Qed.

End Stability.

(** *** Order: when [<] is asymmetric and its complement transitive, the
    output is ordered. *)
Section Order.
Hypothesis ltb_asym :
  forall a b, ltb a b = true -> ltb b a = false.
Hypothesis geb_trans :
  forall a b c, ltb b a = false -> ltb c b = false -> ltb c a = false.

Let le (x y : A) : Prop := ltb (key y) (key x) = false.

Lemma insert_sorted (x : A) (l : list A) :
  StronglySorted le l -> StronglySorted le (Py.insert ltb key x l).
Proof.
  induction 1 as [|y l Hs IH Hall]; cbn [Py.insert].
  - constructor; constructor.
  - destruct (ltb (key y) (key x)) eqn:Hlt.
    + constructor; [exact IH|].
      eapply Permutation_Forall.
      * apply Permutation_sym, insert_perm.
      * constructor; [apply ltb_asym, Hlt | exact Hall].
    + constructor; [constructor; assumption|].
      constructor; [exact Hlt|].
      eapply Forall_impl; [|exact Hall].
      intros z Hz. unfold le in *. eapply geb_trans; eassumption.
Qed.

Lemma sort_asc_sorted (l : list A) :
  StronglySorted le (Py.sort_asc ltb key l).
Proof.
  induction l as [|x l IH]; cbn [Py.sort_asc].
  - constructor.
  - apply insert_sorted, IH.
Qed.

End Order.
End SortFacts.

Lemma StronglySorted_app {A : Type} (R : A -> A -> Prop) (l1 l2 : list A) :
  StronglySorted R l1 -> StronglySorted R l2 ->
  (forall a b, In a l1 -> In b l2 -> R a b) ->
  StronglySorted R (l1 ++ l2).
Proof.
  induction 1 as [|x l1 Hs IH Hall]; intros H2 Hc; simpl; [exact H2|].
  constructor.
  - apply IH; [exact H2|]. intros a b Ha Hb. apply Hc; [now right|exact Hb].
  - apply Forall_app. split; [exact Hall|].
    apply Forall_forall. intros b Hb. apply Hc; [now left|exact Hb].
Qed.

Lemma StronglySorted_rev {A : Type} (R : A -> A -> Prop) (l : list A) :
  StronglySorted R l -> StronglySorted (fun a b => R b a) (rev l).
Proof.
  induction 1 as [|x l Hs IH Hall]; simpl; [constructor|].
  apply StronglySorted_app; [exact IH|constructor; constructor|].
  intros a b Ha [<-|[]]. apply in_rev in Ha.
  rewrite Forall_forall in Hall. now apply Hall.
Qed.

Lemma StronglySorted_impl {A : Type} (R S : A -> A -> Prop) (l : list A) :
  (forall a b, R a b -> S a b) -> StronglySorted R l -> StronglySorted S l.
Proof.
  intros HRS. induction 1 as [|x l Hs IH Hall]; constructor; [exact IH|].
  eapply Forall_impl; [|exact Hall]. intros b. apply HRS.
Qed.

(** A list sorted on a rational key with [reverse=True] is in descending
    order of the key. *)
Lemma sorted_reverse_descending {A : Type} (key : A -> Q) (l : list A) :
  Descending key (Py.sorted Py.Qltb key true l).
Proof.
  unfold Descending, Py.sorted.
  eapply StronglySorted_impl;
    [|apply StronglySorted_rev, (sort_asc_sorted Py.Qltb key)].
  - intros a b H. cbn beta in H. apply Qltb_ge in H. exact H.
  - intros a b H. apply Qltb_lt in H. apply Qltb_ge. now apply Qlt_le_weak.
  - intros a b c H1 H2. apply Qltb_ge in H1, H2. apply Qltb_ge.
    eapply Qle_trans; eassumption.
Qed.

Lemma same_on_not_lt {A : Type} (key : A -> Q) (a x y : A) :
  same_on key a x = true -> same_on key a y = true ->
  Py.Qltb (key x) (key y) = false.
Proof.
  unfold same_on. intros Hx Hy. apply Qeqb_eq in Hx, Hy.
  apply Qltb_ge. rewrite <- Hx, <- Hy. apply Qle_refl.
Qed.

Lemma same_on_key {A : Type} (key : A -> Q) (a b : A) :
  same_on key a b = true <-> (key a == key b)%Q.
Proof. apply Qeqb_eq. Qed.

(** A ranking is determined by its three properties: two rearrangements
    of the same list that are both in descending order of the key and both
    stable are the same list. *)
Lemma ranking_unique {A : Type} (key : A -> Q) (r1 r2 : list A) :
  Permutation r1 r2 ->
  Descending key r1 -> Descending key r2 ->
  (forall a, filter (same_on key a) r1 = filter (same_on key a) r2) ->
  r1 = r2.
Proof.
  revert r2. induction r1 as [|x r1 IH]; intros r2 Hperm Hd1 Hd2 Hst.
  - apply Permutation_nil in Hperm. now subst.
  - destruct r2 as [|y r2];
      [apply Permutation_sym, Permutation_nil in Hperm; discriminate|].
    apply StronglySorted_inv in Hd1, Hd2.
    destruct Hd1 as [Hd1 Hx], Hd2 as [Hd2 Hy].
    rewrite Forall_forall in Hx, Hy.
    assert (Hxy : (key x == key y)%Q).
    { apply Qle_antisym.
      - assert (Hin : In x (y :: r2))
          by (eapply Permutation_in; [exact Hperm|now left]).
        destruct Hin as [->|Hin]; [apply Qle_refl|now apply Hy].
      - assert (Hin : In y (x :: r1))
          by (eapply Permutation_in;
              [apply Permutation_sym; exact Hperm|now left]).
        destruct Hin as [->|Hin]; [apply Qle_refl|now apply Hx]. }
    assert (Heq : x = y).
    { specialize (Hst x). cbn [filter] in Hst.
      rewrite (proj2 (same_on_key key x x) (Qeq_refl _)) in Hst.
      rewrite (proj2 (same_on_key key x y) Hxy) in Hst.
      now injection Hst. }
    subst y. f_equal. apply IH.
    + now apply Permutation_cons_inv in Hperm.
    + exact Hd1.
    + exact Hd2.
    + intro a. specialize (Hst a). cbn [filter] in Hst.
      destruct (same_on key a x); [now injection Hst|exact Hst].
Qed.

(** ** Slices *)

Lemma slice_nonneg {A : Type} (l : list A) (i j : Z) :
  (0 <= i <= j)%Z ->
  Py.slice l i j = firstn (Z.to_nat (j - i)) (skipn (Z.to_nat i) l).
Proof.
  intros Hij. unfold Py.slice, Py.clamp, Py.len.
  destruct (Z.ltb_spec i 0); [lia|]. destruct (Z.ltb_spec j 0); [lia|].
  destruct (Z.le_gt_cases (Z.of_nat (List.length l)) i) as [Hi|Hi].
  - rewrite !skipn_all2 by lia. now rewrite !firstn_nil.
  - rewrite (Z.min_l i) by lia.
    destruct (Z.le_gt_cases j (Z.of_nat (List.length l))) as [Hj|Hj].
    + now rewrite (Z.min_l j) by lia.
    + rewrite (Z.min_r j) by lia.
      rewrite !firstn_all2; [reflexivity| |]; rewrite length_skipn; lia.
Qed.

Lemma slice_to_nonneg {A : Type} (l : list A) (n : Z) :
  (0 <= n)%Z -> Py.slice_to l n = firstn (Z.to_nat n) l.
Proof.
  intro Hn. unfold Py.slice_to. rewrite slice_nonneg by lia.
  now rewrite Z.sub_0_r.
Qed.

Lemma slice_to_count {A : Type} (l : list A) (n : Z) :
  Py.slice_to l n = firstn (returned_count (List.length l) n) l.
Proof.
  unfold returned_count. destruct (Z.leb_spec 0 n) as [Hn|Hn].
  - now apply slice_to_nonneg.
  - unfold Py.slice_to, Py.slice, Py.clamp, Py.len. cbn [Z.ltb Z.compare].
    destruct (Z.ltb_spec n 0); [|lia].
    rewrite Z.min_l by lia. cbn [Z.to_nat skipn]. f_equal. lia.
Qed.

Lemma slice_map {A B : Type} (f : A -> B) (l : list A) (i j : Z) :
  Py.slice (map f l) i j = map f (Py.slice l i j).
Proof.
  unfold Py.slice, Py.len. rewrite length_map.
  now rewrite skipn_map, firstn_map.
Qed.

(** ** Sorting a list decorated with its keys *)

Section Decorated.
Variables A K : Type.
Variable ltb : K -> K -> bool.
Variable f : A -> K.

Let deco (p : A) : A * K := (p, f p).

Lemma insert_decorated (x : A) (l : list A) :
  Py.insert ltb (@snd A K) (deco x) (map deco l)
  = map deco (Py.insert ltb f x l).
Proof.
  induction l as [|y l IH]; [reflexivity|].
  cbn [map Py.insert]. unfold deco at 1 2. cbn [snd].
  destruct (ltb (f y) (f x)); [|reflexivity].
  cbn [map]. now rewrite IH.
Qed.

Lemma sort_asc_decorated (l : list A) :
  Py.sort_asc ltb (@snd A K) (map deco l) = map deco (Py.sort_asc ltb f l).
Proof.
  induction l as [|x l IH]; [reflexivity|].
  cbn [map Py.sort_asc]. rewrite IH. apply insert_decorated.
Qed.

Lemma sorted_decorated (reverse : bool) (l : list A) :
  map fst (Py.sorted ltb (@snd A K) reverse (map (fun p => (p, f p)) l))
  = Py.sorted ltb f reverse l.
Proof.
  change (fun p => (p, f p)) with deco.
  unfold Py.sorted. destruct reverse.
  - rewrite <- map_rev, sort_asc_decorated, <- map_rev, map_map.
    unfold deco. cbn [fst]. apply map_id.
  - rewrite sort_asc_decorated, map_map. unfold deco. cbn [fst].
    apply map_id.
Qed.

End Decorated.

Lemma filter_andb {A : Type} (f g : A -> bool) (l : list A) :
  filter g (filter f l) = filter (fun x => (f x && g x)%bool) l.
Proof.
  induction l as [|x l IH]; [reflexivity|].
  cbn [filter]. destruct (f x); cbn [filter andb]; now rewrite IH.
Qed.

(** ** Similar products *)

(** The score that the code computes is the score of the
    specification. *)
Lemma calculate_score_spec (reference_price : Q) (p : Product.t) :
  (calculate_score reference_price p
   == similarity_score reference_price p)%Q.
Proof.
  unfold calculate_score, similarity_score.
  destruct (Qlt_le_dec 0 reference_price) as [Hpos|Hle].
  - apply Qltb_lt in Hpos. rewrite Hpos.
    unfold Py.fadd, Py.fmul, Py.fsub, Py.fdiv.
    set (d := Py.float (Product.final_price p - reference_price)).
    rewrite (float_comp (Py.abs d / reference_price)
                        (Qabs d / reference_price))
      by now rewrite abs_Qabs.
    set (r := (1 - Py.float (Qabs d / reference_price))%Q).
    rewrite (float_comp (Py.max 0 (Py.float r) * 2)
                        (Qmax 0 (Py.float r) * 2))
      by now rewrite max_Qmax.
    reflexivity.
  - apply Qltb_ge in Hle. rewrite Hle. reflexivity.
Qed.

(** The three passes over the products of the category select the
    candidate set. *)
Lemma candidates_eq (db : database) (ref : Product.t) (x : Z) (inc : bool) :
  (if negb inc
   then filter (fun p => negb (Product.seller_id p
                               =? Product.seller_id ref)%Z)
   else fun l => l)
    (filter (fun p => negb (Product.id p =? x)%Z)
            (get_products_by_category db (Product.category_id ref)))
  = candidate_set db ref x inc.
Proof.
  unfold candidate_set, get_products_by_category, get_all_products.
  destruct inc; cbn [negb]; rewrite ?filter_andb; apply filter_ext;
    intro p; unfold is_candidate; cbn [orb];
    now rewrite ?andb_true_r, ?andb_assoc.
Qed.

(** What the service returns, with the bookkeeping of scores removed. *)
Lemma get_similar_products_eq (db : database) (x limit : Z) (inc : bool) :
  result_of (get_similar_products x limit inc) db =
  match get_product db x with
  | None => []
  | Some ref =>
      Py.slice_to
        (Py.sorted Py.Qltb (calculate_score (Product.final_price ref)) true
                   (candidate_set db ref x inc))
        limit
  end.
Proof.
  unfold result_of, get_similar_products, bind, db_get_product.
  destruct (get_product db x) as [ref|]; [|reflexivity].
  unfold db_get_products_by_category, ret. cbn [fst].
  unfold Py.slice_to. rewrite <- slice_map, sorted_decorated.
  rewrite <- candidates_eq. now destruct inc.
Qed.

Lemma in_firstn {A : Type} (n : nat) (l : list A) (x : A) :
  In x (firstn n l) -> In x l.
Proof.
  intro H. rewrite <- (firstn_skipn n l). apply in_or_app. now left.
Qed.

Lemma is_candidate_true (ref : Product.t) (x : Z) (inc : bool)
  (p : Product.t) :
  is_candidate ref x inc p = true <->
  Product.category_id p = Product.category_id ref
  /\ Product.id p <> x
  /\ (inc = false -> Product.seller_id p <> Product.seller_id ref).
Proof.
  unfold is_candidate.
  rewrite !andb_true_iff, orb_true_iff, !negb_true_iff, Z.eqb_eq,
    !Z.eqb_neq.
  split.
  - intros [[Hc Hi] Hs]. repeat split; try assumption.
    intros ->. now destruct Hs.
  - intros (Hc & Hi & Hs). repeat split; try assumption.
    destruct inc; [now left|right; now apply Hs].
Qed.

(** In a store made by its own operations, the [id] of a product is the
    key it is stored under. *)
Lemma apply_op_ids (op : store_op) (db : database) :
  (forall k p, get_product db k = Some p -> Product.id p = k) ->
  forall k p, get_product (apply_op op db) k = Some p -> Product.id p = k.
Proof.
  intros Hdb k p.
  assert (Hupr : forall i d,
             (forall k p, get_product d k = Some p -> Product.id p = k) ->
             get_product (update_product_rating i d) k = Some p ->
             Product.id p = k).
  { intros i d Hd. unfold update_product_rating, get_product.
    destruct (negb (Dict.contains (_products d) i)); [apply Hd|].
    cbn [_products].
    destruct (product_reviews d i); rewrite get_modify;
      (destruct (Z.eqb_spec i k) as [->|]; [|apply Hd]);
      (destruct (Dict.get (_products d) k) as [p0|] eqn:E;
       [|discriminate]);
      cbn [option_map]; intros [= <-]; cbn [Product.id]; now apply Hd. }
  destruct op as [d n1 n2|i d n|i|i|d n]; cbn [apply_op].
  - unfold create_product, get_product. cbn [fst _products].
    rewrite get_set.
    destruct (Z.eqb_spec (_product_counter db + 1) k) as [<-|]; [|apply Hdb].
    now intros [= <-].
  - unfold change_product.
    destruct (Dict.get (_products db) i) as [p0|] eqn:E; [|apply Hdb].
    unfold get_product. cbn [fst _products]. rewrite get_set.
    destruct (Z.eqb_spec i k) as [->|]; [|apply Hdb].
    intros [= <-]. cbn [updated_product Product.id]. now apply Hdb.
  - unfold delete_product.
    destruct (Dict.contains (_products db) i); [|apply Hdb].
    unfold get_product. cbn [fst _products]. rewrite get_del.
    destruct (i =? k)%Z; [discriminate|apply Hdb].
  - now apply Hupr.
  - unfold create_review. cbn [fst]. apply Hupr. exact Hdb.
Qed.

Lemma run_ids_are_keys (ops : list store_op) (k : Z) (p : Product.t) :
  get_product (run ops empty_database) k = Some p -> Product.id p = k.
Proof.
  unfold run. revert k p.
  assert (H : forall db,
             (forall k p, get_product db k = Some p -> Product.id p = k) ->
             forall k p,
               get_product (fold_left (fun d op => apply_op op d) ops db) k
               = Some p -> Product.id p = k).
  { induction ops as [|op ops IH]; intros db Hdb; cbn [fold_left].
    - exact Hdb.
    - apply IH. now apply apply_op_ids. }
  apply H. intros k p. discriminate.
Qed.

(** C1. [get_similar_products(X, L, includeSameSeller)], for every limit
    [L]: the empty list when [X] is not a product of the store; otherwise
    a prefix of a ranking of the candidate set (the products of the
    category of [X], without the products whose [id] is [X], which in a
    store made by its own operations is [X] itself, and, unless
    [includeSameSeller], without those of the seller of [X]).  The
    ranking holds exactly the candidates, is in descending order of the
    float [average_rating + price-similarity bonus], and keeps candidates
    of equal score in the order in which the store lists them.  For
    [L >= 0] the prefix is the first [L] elements of the ranking; for
    [L < 0] it is the ranking without its last [-L] elements.  So every
    product that is returned is a product of the store in the category of
    [X], is not [X], and unless [includeSameSeller] is not of the seller
    of [X]. *)
Theorem get_similar_products_spec (db : database) (x limit : Z)
  (include_same_seller : bool) :
  match get_product db x with
  | None =>
      result_of (get_similar_products x limit include_same_seller) db = []
  | Some ref =>
      let score := similarity_score (Product.final_price ref) in
      let candidates := candidate_set db ref x include_same_seller in
      let returned :=
        result_of (get_similar_products x limit include_same_seller) db in
      (exists ranked,
         Permutation ranked candidates
         /\ Descending score ranked
         /\ Stable (same_on score) candidates ranked
         /\ returned
            = firstn (returned_count (List.length ranked) limit) ranked
         /\ ((0 <= limit)%Z -> returned = firstn (Z.to_nat limit) ranked)
         /\ ((limit < 0)%Z ->
             returned
             = firstn (List.length ranked - Z.to_nat (- limit)) ranked))
      /\ (forall p, In p returned ->
            In p (get_all_products db)
            /\ Product.category_id p = Product.category_id ref
            /\ Product.id p <> x
            /\ (include_same_seller = false ->
                Product.seller_id p <> Product.seller_id ref))
  end.
Proof.
  rewrite get_similar_products_eq.
  destruct (get_product db x) as [ref|]; [|reflexivity].
  cbn zeta.
  set (cs := candidate_set db ref x include_same_seller).
  set (code_score := calculate_score (Product.final_price ref)).
  rewrite slice_to_count.
  split.
  - exists (Py.sorted Py.Qltb code_score true cs).
    split; [apply sorted_perm|].
    split.
    { eapply StronglySorted_impl; [|apply sorted_reverse_descending].
      intros a b H. cbn beta in H. unfold code_score in H.
      now rewrite !calculate_score_spec in H. }
    split.
    { intro a.
      assert (Hext : forall b,
                 same_on (similarity_score (Product.final_price ref)) a b
                 = same_on code_score a b).
      { intro b. unfold same_on, code_score.
        apply eq_true_iff_eq. rewrite !Qeqb_eq.
        now rewrite !calculate_score_spec. }
      rewrite !(filter_ext _ _ Hext).
      apply sorted_stable. intros c y z. apply same_on_not_lt. }
    split; [reflexivity|]. unfold returned_count.
    split; intro Hlimit.
    + destruct (Z.leb_spec 0 limit); [reflexivity|lia].
    + destruct (Z.leb_spec 0 limit); [lia|reflexivity].
  - intros p Hin. apply in_firstn in Hin.
    apply (Permutation_in _ (sorted_perm _ _ _ _)) in Hin.
    unfold cs, candidate_set in Hin. apply filter_In in Hin.
    destruct Hin as [Hall Hcand]. split; [exact Hall|].
    now apply is_candidate_true.
Qed.

Lemma get_similar_products_spec_witness :
  (0 <= 5)%Z
  /\ match get_product sample_db 1 with
     | None => result_of (get_similar_products 1 5 false) sample_db = []
     | Some ref =>
         let score := similarity_score (Product.final_price ref) in
         let candidates := candidate_set sample_db ref 1 false in
         let returned :=
           result_of (get_similar_products 1 5 false) sample_db in
         (exists ranked,
            Permutation ranked candidates
            /\ Descending score ranked
            /\ Stable (same_on score) candidates ranked
            /\ returned
               = firstn (returned_count (List.length ranked) 5) ranked
            /\ ((0 <= 5)%Z -> returned = firstn (Z.to_nat 5) ranked)
            /\ ((5 < 0)%Z ->
                returned
                = firstn (List.length ranked - Z.to_nat (- 5)) ranked))
         /\ (forall p, In p returned ->
               In p (get_all_products sample_db)
               /\ Product.category_id p = Product.category_id ref
               /\ Product.id p <> 1%Z
               /\ (false = false ->
                   Product.seller_id p <> Product.seller_id ref))
     end.
Proof.
  split; [lia|]. exact (@get_similar_products_spec sample_db 1 5 false).
Defined.

(** The claim read for every limit: at the limit [-1] the service
    returns the ranking of the two candidates without its last element,
    one product, which is not the first [-1] elements of any list. *)
Lemma get_similar_products_negative_limit :
  let returned := result_of (get_similar_products 1 (-1) false) sample_db in
  option_map (fun ref => ids (candidate_set sample_db ref 1 false))
             (get_product sample_db 1) = Some [2; 3]%Z
  /\ ids returned = [2]%Z
  /\ ~ (exists ranked, returned = firstn (Z.to_nat (-1)) ranked).
Proof.
  cbv zeta.
  assert (Hr : ids (result_of (get_similar_products 1 (-1) false) sample_db)
               = [2]%Z) by (vm_compute; reflexivity).
  split; [vm_compute; reflexivity|]. split; [exact Hr|].
  intros [ranked H]. rewrite H in Hr.
  cbn [Z.to_nat firstn ids map] in Hr. discriminate Hr.
Qed.

(** The scores are floats: against a reference at 100, a product rated
    4.6 and priced 300 scores [4.6], and a product rated 4.4 and priced
    190 scores [4.4 + (1 - 0.9) * 2], which in float arithmetic is
    [4.6000000000000005]; the second is ranked first, although it is
    listed last and the two sums are equal as real numbers. *)
Example get_similar_products_float_example :
  ids (get_all_products close_scores) = [1; 2; 3]%Z
  /\ map (calculate_score 100) (get_all_products close_scores)
     = [Py.float 2; Py.float (46 # 10);
        Py.float (46000000000000005 # 10000000000000000)]
  /\ ids (result_of (get_similar_products 1 5 false) close_scores)
     = [3; 2]%Z.
Proof. vm_compute. repeat split; reflexivity. Qed.

(** The end-to-end example of the specification: with final prices 100,
    130 and 500 and ratings 4.0, 4.5 and 5.0, the product at 130 is ranked
    above the product at 500. *)
Example get_similar_products_example :
  ids (result_of (get_similar_products 1 5 false) sample_db) = [2; 3]%Z
  /\ result_of (get_similar_products 9 5 false) sample_db = []
  /\ ids (result_of (get_similar_products 1 1 true) sample_db) = [2]%Z.
Proof. vm_compute. repeat split; reflexivity. Qed.

(** ** Filters *)

Lemma filter_true {A : Type} (l : list A) : filter (fun _ => true) l = l.
Proof. induction l as [|x l IH]; [reflexivity|]. cbn. now rewrite IH. Qed.

Lemma filter_Subseq {A : Type} (f : A -> bool) (l : list A) :
  Subseq (filter f l) l.
Proof.
  induction l as [|x l IH]; cbn; [constructor|].
  destruct (f x); now constructor.
Qed.

Section FilterStages.

(** A product meets every criterion of a list that the code acts on. *)
Let sat (cs : list criterion) (p : Product.t) : bool :=
  forallb (fun k => meets k p) (filter effective cs).

Lemma filter_sat_nil (l : list Product.t) : filter (sat []) l = l.
Proof. apply filter_true. Qed.

Lemma filter_sat_one (c : criterion) (l : list Product.t) :
  effective c = true ->
  filter (fun p => meets c p) l = filter (sat [c]) l.
Proof.
  intro He. apply filter_ext. intro p. unfold sat. cbn [filter].
  rewrite He. cbn [forallb]. now rewrite andb_true_r.
Qed.

Lemma filter_sat_skip (c : criterion) (l : list Product.t) :
  effective c = false -> l = filter (sat [c]) l.
Proof.
  intro He. unfold sat. cbn [filter]. rewrite He. cbn [forallb].
  symmetry. apply filter_true.
Qed.

Lemma filter_sat_app (cs1 cs2 : list criterion) (l : list Product.t) :
  filter (sat cs2) (filter (sat cs1) l) = filter (sat (cs1 ++ cs2)) l.
Proof.
  rewrite filter_andb. apply filter_ext. intro p. unfold sat.
  now rewrite filter_app, forallb_app.
Qed.

(** The seven passes, each as a filter on its own criterion. *)
Lemma stage_category_id (o : option Z) (l : list Product.t) :
  match o with
  | Some c =>
      if Py.truthy_int c
      then filter (fun p => (Product.category_id p =? c)%Z) l
      else l
  | None => l
  end = filter (sat (opt_list CategoryId o)) l.
Proof.
  destruct o as [c|]; [|symmetry; apply filter_sat_nil].
  cbn [opt_list]. unfold Py.truthy_int.
  destruct (negb (c =? 0)%Z) eqn:E.
  - now apply (filter_sat_one (CategoryId c)).
  - now apply (filter_sat_skip (CategoryId c)).
Qed.

Lemma stage_min_price (o : option Q) (l : list Product.t) :
  match o with
  | Some m => filter (fun p => Py.Qleb m (Product.final_price p)) l
  | None => l
  end = filter (sat (opt_list MinPrice o)) l.
Proof.
  destruct o as [m|]; [|symmetry; apply filter_sat_nil].
  now apply (filter_sat_one (MinPrice m)).
Qed.

Lemma stage_max_price (o : option Q) (l : list Product.t) :
  match o with
  | Some m => filter (fun p => Py.Qleb (Product.final_price p) m) l
  | None => l
  end = filter (sat (opt_list MaxPrice o)) l.
Proof.
  destruct o as [m|]; [|symmetry; apply filter_sat_nil].
  now apply (filter_sat_one (MaxPrice m)).
Qed.

Lemma stage_min_rating (o : option Q) (l : list Product.t) :
  match o with
  | Some m => filter (fun p => Py.Qleb m (Product.average_rating p)) l
  | None => l
  end = filter (sat (opt_list MinRating o)) l.
Proof.
  destruct o as [m|]; [|symmetry; apply filter_sat_nil].
  now apply (filter_sat_one (MinRating m)).
Qed.

Lemma stage_stock_status (o : option string) (l : list Product.t) :
  match o with
  | Some s =>
      if Py.truthy_str s
      then filter (fun p => String.eqb (Product.stock_status p) s) l
      else l
  | None => l
  end = filter (sat (opt_list StockStatus o)) l.
Proof.
  destruct o as [s|]; [|symmetry; apply filter_sat_nil].
  cbn [opt_list]. destruct s as [|a s]; cbn [Py.truthy_str].
  - now apply (filter_sat_skip (StockStatus "")).
  - now apply (filter_sat_one (StockStatus (String a s))).
Qed.

Lemma stage_seller_id (o : option Z) (l : list Product.t) :
  match o with
  | Some s =>
      if Py.truthy_int s
      then filter (fun p => (Product.seller_id p =? s)%Z) l
      else l
  | None => l
  end = filter (sat (opt_list SellerId o)) l.
Proof.
  destruct o as [c|]; [|symmetry; apply filter_sat_nil].
  cbn [opt_list]. unfold Py.truthy_int.
  destruct (negb (c =? 0)%Z) eqn:E.
  - now apply (filter_sat_one (SellerId c)).
  - now apply (filter_sat_skip (SellerId c)).
Qed.

Lemma stage_has_discount (o : option bool) (l : list Product.t) :
  match o with
  | Some true =>
      filter (fun p => Py.Qltb 0 (Product.discount_percentage p)) l
  | _ => l
  end = filter (sat (opt_list HasDiscount o)) l.
Proof.
  destruct o as [[|]|]; [| |symmetry; apply filter_sat_nil].
  - now apply (filter_sat_one (HasDiscount true)).
  - unfold sat. cbn. symmetry. apply filter_true.
Qed.

(** All at once: [apply_filters] keeps the products that meet the
    criteria the code acts on. *)
Lemma apply_filters_eq (products : list Product.t) (c : Filters.t) :
  apply_filters products c = filter (satisfies_effective c) products.
Proof.
  unfold apply_filters. cbn zeta.
  rewrite stage_has_discount, stage_seller_id, stage_stock_status,
    stage_min_rating, stage_max_price, stage_min_price, stage_category_id.
  rewrite !filter_sat_app. reflexivity.
Qed.

End FilterStages.

(** C2, as amended.  [apply_filters(P, C)] is the subsequence of [P] made
    of the products that satisfy every criterion of [C] that the code acts
    on: every present criterion, except a [category_id] or [seller_id] of 0
    and an empty [stock_status], which constrain nothing.  The criteria
    are category equality, final price within the bounds (inclusive),
    rating at least [min_rating], stock status equality, seller equality,
    and a positive discount when [has_discount] is true. *)
Theorem apply_filters_spec (products : list Product.t) (c : Filters.t) :
  apply_filters products c = filter (satisfies_effective c) products
  /\ Subseq (apply_filters products c) products
  /\ (forall p, In p (apply_filters products c)
                <-> In p products /\ satisfies_effective c p = true).
Proof.
  rewrite apply_filters_eq. split; [reflexivity|].
  split; [apply filter_Subseq|]. intro p. apply filter_In.
Qed.

(** C2, as stated, fails: with [category_id=0] present, every product of
    the sample store is returned although none is of category 0. *)
Lemma apply_filters_presence_counterexample :
  ~ (forall p,
        In p (apply_filters (get_all_products sample_db)
                            (single (CategoryId 0)))
        <-> In p (get_all_products sample_db)
            /\ satisfies_present (single (CategoryId 0)) p = true).
Proof.
  intro H.
  destruct (get_all_products sample_db) as [|p l] eqn:E;
    [vm_compute in E; discriminate|].
  assert (Hin : In p (apply_filters (p :: l) (single (CategoryId 0)))).
  { rewrite apply_filters_eq. cbn. now left. }
  apply H in Hin. destruct Hin as [_ Hsat].
  assert (Hp : nth 0 (get_all_products sample_db) p = p) by now rewrite E.
  rewrite <- Hp in Hsat. vm_compute in Hsat. discriminate.
Qed.

(** ** Order of the criteria *)

Lemma present_single (c : criterion) : present_criteria (single c) = [c].
Proof. destruct c; reflexivity. Qed.

Lemma forallb_filter {A : Type} (f g : A -> bool) (l : list A) :
  forallb g (filter f l) = forallb (fun x => implb (f x) (g x)) l.
Proof.
  induction l as [|x l IH]; [reflexivity|].
  cbn [filter forallb]. destruct (f x); cbn [forallb implb]; now rewrite IH.
Qed.

Lemma forallb_Permutation {A : Type} (f : A -> bool) (l l' : list A) :
  Permutation l l' -> forallb f l = forallb f l'.
Proof.
  induction 1 as [|x l l' _ IH|x y l|l l' l'' _ IH1 _ IH2]; cbn [forallb].
  - reflexivity.
  - now rewrite IH.
  - now rewrite !andb_assoc, (andb_comm (f y)).
  - congruence.
Qed.

(** Single-criterion passes, one after the other, keep the products that
    meet every criterion of the list that the code acts on. *)
Lemma apply_in_order_eq (cs : list criterion) (products : list Product.t) :
  apply_in_order cs products
  = filter (fun p => forallb (fun k => meets k p) (filter effective cs))
           products.
Proof.
  unfold apply_in_order. revert products.
  induction cs as [|c cs IH]; intro products; cbn [fold_left].
  - symmetry. apply filter_true.
  - rewrite IH, apply_filters_eq, filter_andb. apply filter_ext. intro p.
    unfold satisfies_effective. rewrite present_single.
    change (c :: cs) with ([c] ++ cs).
    now rewrite filter_app, forallb_app.
Qed.

(** C9. Applying the present criteria of [C] as single-criterion filter
    passes, in any order, gives the same list as [apply_filters(P, C)]. *)
Theorem apply_filters_commutative (products : list Product.t)
  (c : Filters.t) (cs : list criterion) :
  Permutation cs (present_criteria c) ->
  apply_in_order cs products = apply_filters products c.
Proof.
  intro Hperm. rewrite apply_in_order_eq, apply_filters_eq.
  apply filter_ext. intro p. unfold satisfies_effective.
  rewrite !forallb_filter. now apply forallb_Permutation.
Qed.

Lemma apply_filters_commutative_witness :
  let c := Filters.mk (Some 1%Z) (Some 90) (Some 600) None
                      (Some "in_stock") None (Some false) in
  let cs := [HasDiscount false; MaxPrice 600; StockStatus "in_stock";
             CategoryId 1; MinPrice 90] in
  Permutation cs (present_criteria c)
  /\ apply_in_order cs (get_all_products sample_db)
     = apply_filters (get_all_products sample_db) c.
Proof.
  cbn zeta.
  assert (Hperm :
    Permutation
      [HasDiscount false; MaxPrice 600; StockStatus "in_stock";
       CategoryId 1; MinPrice 90]
      (present_criteria
         (Filters.mk (Some 1%Z) (Some 90) (Some 600) None
                     (Some "in_stock") None (Some false)))).
  { cbn.
    apply (Permutation_cons_app
             [CategoryId 1; MinPrice 90; MaxPrice 600;
              StockStatus "in_stock"] [] (HasDiscount false)); cbn.
    apply (Permutation_cons_app [CategoryId 1; MinPrice 90]
             [StockStatus "in_stock"] (MaxPrice 600)); cbn.
    apply (Permutation_cons_app [CategoryId 1; MinPrice 90] []
             (StockStatus "in_stock")); cbn.
    apply Permutation_refl. }
  split; [exact Hperm|].
  exact (@apply_filters_commutative _ _ _ Hperm).
Defined.

(** ** Truthiness and presence *)

(** C10. [category_id] and [seller_id] are tested for truthiness: passed
    as 0 (which is also what [False] is), they constrain nothing, whatever
    the other criteria are, and alone they give back all of [P].
    [min_price], [max_price] and [min_rating] are tested for presence:
    passed as 0, the comparison with 0 is made, and there are lists that it
    shortens. *)
Theorem apply_filters_truthiness :
  (forall products mn mx mr ss sl hd,
      apply_filters products (Filters.mk (Some 0%Z) mn mx mr ss sl hd)
      = apply_filters products (Filters.mk None mn mx mr ss sl hd))
  /\ (forall products ca mn mx mr ss hd,
      apply_filters products (Filters.mk ca mn mx mr ss (Some 0%Z) hd)
      = apply_filters products (Filters.mk ca mn mx mr ss None hd))
  /\ (forall products,
      apply_filters products (single (CategoryId 0)) = products
      /\ apply_filters products (single (SellerId 0)) = products)
  /\ (forall products,
      apply_filters products (single (MinPrice 0))
      = filter (fun p => Py.Qleb 0 (Product.final_price p)) products
      /\ apply_filters products (single (MaxPrice 0))
         = filter (fun p => Py.Qleb (Product.final_price p) 0) products
      /\ apply_filters products (single (MinRating 0))
         = filter (fun p => Py.Qleb 0 (Product.average_rating p)) products)
  /\ apply_filters [below_zero] (single (MinPrice 0)) = []
  /\ apply_filters (get_all_products sample_db) (single (MaxPrice 0)) = []
  /\ apply_filters [below_zero] (single (MinRating 0)) = [].
Proof.
  repeat split; reflexivity.
Qed.

(** ** Sorting *)




Lemma string_ltb_irrefl (s : string) : String.ltb s s = false.
Proof.
  unfold String.ltb. pose proof (String.compare_antisym s s) as H.
  destruct (String.compare s s); [reflexivity|discriminate|reflexivity].
Qed.



(** The sample store sorted by name, case-insensitively, and by price,
    descending; the three products without discount keep their order in
    both directions. *)
Example apply_sorting_example :
  let sort := apply_sorting (L := ascii_lower) (get_all_products sample_db) in
  ids (sort NAME ASC) = [1; 2; 4; 3]%Z
  /\ ids (sort PRICE DESC) = [3; 2; 1; 4]%Z
  /\ ids (sort DISCOUNT DESC) = [4; 1; 2; 3]%Z
  /\ ids (sort DISCOUNT ASC) = [1; 2; 3; 4]%Z.
Proof. vm_compute. repeat split; reflexivity. Qed.

(** ** Pagination *)

Lemma slice_length_le {A : Type} (l : list A) (i j : Z) :
  (i <= j)%Z -> (Py.len (Py.slice l i j) <= j - i)%Z.
Proof.
  intro Hij. unfold Py.slice, Py.len, Py.clamp.
  rewrite length_firstn.
  destruct (Z.ltb_spec i 0), (Z.ltb_spec j 0); lia.
Qed.

(** Cutting a list into [n] pieces of [size] elements and gluing them
    back, when [n] pieces are enough. *)
Lemma concat_chunks {A : Type} (size n : nat) (l : list A) :
  (List.length l <= n * size)%nat ->
  List.concat
    (map (fun k => firstn size (skipn (k * size)%nat l)) (seq 0 n)) = l.
Proof.
  revert l. induction n as [|n IH]; intros l Hlen.
  - destruct l; [reflexivity|cbn in Hlen; lia].
  - cbn [seq map List.concat]. rewrite <- seq_shift, map_map.
    cbn [Nat.mul skipn Nat.add].
    transitivity (firstn size l ++ skipn size l);
      [|apply firstn_skipn].
    f_equal.
    rewrite <- (IH (skipn size l)) by (cbn in Hlen; rewrite length_skipn; lia).
    f_equal. apply map_ext. intro k.
    rewrite skipn_skipn. f_equal. f_equal. lia.
Qed.

Lemma total_pages_ceiling (total page_size : Z) :
  (1 <= page_size)%Z ->
  ((total + page_size - 1) / page_size)%Z
  = Qceiling (inject_Z total / inject_Z page_size).
Proof.
  intro Hps. unfold Qceiling.
  assert (Hneg : (- (inject_Z total / inject_Z page_size)
                  == inject_Z (- total) / inject_Z page_size)%Q).
  { unfold Qdiv. rewrite inject_Z_opp. ring. }
  rewrite Hneg, <- Zdiv_Qdiv.
  pose proof (Z.div_mod (- total) page_size ltac:(lia)) as Hdm.
  pose proof (Z.mod_pos_bound (- total) page_size ltac:(lia)) as Hb.
  symmetry.
  apply (Z.div_unique_pos _ _ _ (page_size - 1 - (- total) mod page_size));
    lia.
Qed.

Lemma total_pages_enough (total page_size : Z) :
  (1 <= page_size)%Z ->
  (total <= (total + page_size - 1) / page_size * page_size)%Z.
Proof.
  intro Hps.
  pose proof (Z.div_mod (total + page_size - 1) page_size ltac:(lia)) as Hdm.
  pose proof (Z.mod_pos_bound (total + page_size - 1) page_size ltac:(lia)).
  lia.
Qed.

Lemma paginate_items {A : Type} (items : list A) (k : nat) (page_size : Z) :
  (1 <= page_size)%Z ->
  Page.items (paginate items (Z.of_nat (S k)) page_size)
  = firstn (Z.to_nat page_size)
           (skipn (k * Z.to_nat page_size)%nat items).
Proof.
  intro Hps. unfold paginate. cbn [Page.items].
  rewrite slice_nonneg by lia. f_equal; [f_equal; lia|f_equal; lia].
Qed.

(** C4. For a page size of at least 1: the items of every page are at
    most [pageSize]; [total] is the length of [items] and [total_pages] is
    [ceil(total / pageSize)]; and the items of the pages
    [1 .. total_pages], one after the other, are [items]. *)
Theorem paginate_spec {A : Type} (items : list A) (page_size : Z) :
  (1 <= page_size)%Z ->
  (forall page,
      (Py.len (Page.items (paginate items page page_size)) <= page_size)%Z
      /\ Page.total (paginate items page page_size) = Py.len items
      /\ Page.total_pages (paginate items page page_size)
         = Qceiling (inject_Z (Py.len items) / inject_Z page_size))
  /\ List.concat
       (map (fun page => Page.items (paginate items page page_size))
            (page_numbers
               (Qceiling (inject_Z (Py.len items) / inject_Z page_size))))
     = items.
Proof.
  intro Hps. split.
  - intro page. split; [|split].
    + unfold paginate. cbn [Page.items].
      pose proof (@slice_length_le A items ((page - 1) * page_size)
                    ((page - 1) * page_size + page_size) ltac:(lia)).
      lia.
    + reflexivity.
    + unfold paginate. cbn [Page.total_pages].
      destruct (Z.gtb_spec page_size 0); [|lia].
      now apply total_pages_ceiling.
  - rewrite <- total_pages_ceiling by exact Hps.
    unfold page_numbers. rewrite <- seq_shift, !map_map.
    rewrite (map_ext _ (fun k => firstn (Z.to_nat page_size)
                                   (skipn (k * Z.to_nat page_size)%nat
                                          items))).
    + apply concat_chunks.
      pose proof (total_pages_enough (Py.len items) Hps) as Hen.
      unfold Py.len in *. nia.
    + intro k. now apply paginate_items.
Qed.

Lemma paginate_spec_witness :
  (1 <= 2)%Z
  /\ Page.total_pages (paginate [10; 20; 30; 40; 50]%Z 1 2) = 3%Z
  /\ List.concat
       (map (fun page => Page.items (paginate [10; 20; 30; 40; 50]%Z page 2))
            [1; 2; 3]%Z)
     = [10; 20; 30; 40; 50]%Z.
Proof.
  assert (H : (1 <= 2)%Z) by lia.
  split; [exact H|]. split.
  - exact (proj2 (proj2 (proj1 (paginate_spec [10; 20; 30; 40; 50]%Z H)
                               1%Z))).
  - exact (proj2 (paginate_spec [10; 20; 30; 40; 50]%Z H)).
Defined.

Example paginate_example :
  Page.items (paginate [10; 20; 30; 40; 50]%Z 1 2) = [10; 20]%Z
  /\ Page.items (paginate [10; 20; 30; 40; 50]%Z 3 2) = [50]%Z
  /\ Page.has_next (paginate [10; 20; 30; 40; 50]%Z 3 2) = false
  /\ Page.has_previous (paginate [10; 20; 30; 40; 50]%Z 3 2) = true
  /\ Page.total_pages (paginate [10; 20; 30; 40; 50]%Z 1 0) = 1%Z.
Proof. repeat split; reflexivity. Qed.

(** C5. For a page size of at least 1 and a page beyond the last of at
    least one page, [paginate] returns its dict as usual (it has no other
    way to end): no items, [total] and [total_pages] as for any other
    page, no next page, and a previous page. *)
Theorem paginate_beyond_last {A : Type} (items : list A)
  (page page_size : Z) :
  (1 <= page_size)%Z ->
  (1 <= Page.total_pages (paginate items page page_size))%Z ->
  (Page.total_pages (paginate items page page_size) < page)%Z ->
  Page.items (paginate items page page_size) = []
  /\ Page.total (paginate items page page_size) = Py.len items
  /\ Page.total_pages (paginate items page page_size)
     = Qceiling (inject_Z (Py.len items) / inject_Z page_size)
  /\ Page.page (paginate items page page_size) = page
  /\ Page.page_size (paginate items page page_size) = page_size
  /\ Page.has_next (paginate items page page_size) = false
  /\ Page.has_previous (paginate items page page_size) = true.
Proof.
  intros Hps Hone Hpage.
  unfold paginate in *. cbn [Page.items Page.total Page.total_pages
    Page.page Page.page_size Page.has_next Page.has_previous] in *.
  destruct (Z.gtb_spec page_size 0) as [_|]; [|lia].
  repeat split.
  - rewrite slice_nonneg by nia.
    rewrite skipn_all2; [apply firstn_nil|].
    pose proof (total_pages_enough (Py.len items) Hps) as Hen.
    unfold Py.len in *. nia.
  - now apply total_pages_ceiling.
  - apply Z.ltb_ge. lia.
  - apply Z.gtb_lt. lia.
Qed.

Lemma paginate_beyond_last_witness :
  (1 <= 2)%Z
  /\ Page.items (paginate [10; 20; 30; 40; 50]%Z 4 2) = []
  /\ Page.has_next (paginate [10; 20; 30; 40; 50]%Z 4 2) = false
  /\ Page.has_previous (paginate [10; 20; 30; 40; 50]%Z 4 2) = true.
Proof.
  assert (H1 : (1 <= 2)%Z) by lia.
  assert (H2 : (1 <= Page.total_pages (paginate [10; 20; 30; 40; 50]%Z 4 2))%Z)
    by (vm_compute; discriminate).
  assert (H3 : (Page.total_pages (paginate [10; 20; 30; 40; 50]%Z 4 2) < 4)%Z)
    by reflexivity.
  pose proof (@paginate_beyond_last Z [10; 20; 30; 40; 50]%Z 4%Z 2%Z
                H1 H2 H3)
    as (Hi & _ & _ & _ & _ & Hn & Hp).
  repeat split; assumption.
Defined.

(** ** The final price *)

Lemma final_price_in_sync_empty : final_price_in_sync empty_database.
Proof. intros k p H. discriminate. Qed.

(** [update_product_rating] leaves the prices alone. *)
Lemma update_product_rating_prices (i : Z) (db : database) (k : Z) :
  prices (update_product_rating i db) k = prices db k.
Proof.
  unfold prices, update_product_rating, get_product.
  destruct (negb (Dict.contains (_products db) i)); [reflexivity|].
  cbn [_products].
  destruct (product_reviews db i); rewrite get_modify;
    (destruct (Z.eqb_spec i k) as [->|]; [|reflexivity]);
    now destruct (Dict.get (_products db) k).
Qed.

Lemma update_product_rating_final_price (i : Z) (db : database) :
  final_price_in_sync db -> final_price_in_sync (update_product_rating i db).
Proof.
  intros Hdb k p Hp.
  pose proof (update_product_rating_prices i db k) as Hpr.
  unfold prices in Hpr. rewrite Hp in Hpr. cbn [option_map] in Hpr.
  destruct (get_product db k) as [p0|] eqn:E; [|discriminate].
  cbn [option_map] in Hpr. injection Hpr as H1 H2 H3.
  rewrite H1, H2, H3. exact (Hdb k p0 E).
Qed.

(** Every operation of the store keeps the final prices in sync. *)
Lemma apply_op_final_price (op : store_op) (db : database) :
  final_price_in_sync db -> final_price_in_sync (apply_op op db).
Proof.
  intro Hdb. destruct op as [d n1 n2|i d n|i|i|d n]; cbn [apply_op].
  - intros k p. unfold create_product, get_product. cbn [fst _products].
    rewrite get_set.
    destruct (_product_counter db + 1 =? k)%Z; [|apply Hdb].
    intros [= <-]. reflexivity.
  - unfold change_product.
    destruct (Dict.get (_products db) i) as [p0|] eqn:E; [|exact Hdb].
    intros k p. unfold get_product. cbn [fst _products]. rewrite get_set.
    destruct (i =? k)%Z; [|apply Hdb].
    intros [= <-]. reflexivity.
  - unfold delete_product.
    destruct (Dict.contains (_products db) i); [|exact Hdb].
    intros k p. unfold get_product. cbn [fst _products]. rewrite get_del.
    destruct (i =? k)%Z; [discriminate|apply Hdb].
  - now apply update_product_rating_final_price.
  - unfold create_review. cbn [fst].
    apply update_product_rating_final_price. exact Hdb.
Qed.

Lemma run_final_price (ops : list store_op) (db : database) :
  final_price_in_sync db -> final_price_in_sync (run ops db).
Proof.
  unfold run. revert db.
  induction ops as [|op ops IH]; intros db Hdb; cbn [fold_left].
  - exact Hdb.
  - apply IH, apply_op_final_price, Hdb.
Qed.

(** The calls other than [create_product] and [change_product] leave
    the prices of a stored product as they are, or delete the product. *)
Lemma apply_op_prices (op : store_op) (db : database) (k : Z) :
  create_or_update op = false ->
  prices (apply_op op db) k = prices db k
  \/ prices (apply_op op db) k = None.
Proof.
  intro Hop.
  destruct op as [d n1 n2|i d n|i|i|d n]; try discriminate; cbn [apply_op].
  - unfold delete_product.
    destruct (Dict.contains (_products db) i); [|now left].
    unfold prices, get_product. cbn [fst _products]. rewrite get_del.
    destruct (i =? k)%Z; [now right|now left].
  - left. apply update_product_rating_prices.
  - left. unfold create_review. cbn [fst].
    now rewrite update_product_rating_prices.
Qed.

(** *** Updates with and without [None] *)

Lemma assigned_of_option {A : Type} (o : option A) (old : A) :
  assigned (of_option o) old = Some (merged o old).
Proof. now destruct o. Qed.

Lemma of_option_to_option {A : Type} (f : field A) :
  is_null f = false -> of_option (to_option f) = f.
Proof. now destruct f. Qed.

Lemma assigned_some {A : Type} (f : field A) (old x : A) :
  assigned f old = Some x -> is_null f = false.
Proof. now destruct f. Qed.

Lemma holds_none_to_update (c : ProductChanges.t) :
  holds_none (to_update c) = false.
Proof.
  destruct c as [a1 a2 a3 a4 a5 a6 a7 a8].
  now destruct a1, a2, a3, a4, a5, a6, a7, a8.
Qed.

(** An update dict without [None] is one of [ProductChanges]. *)
Lemma to_update_values (u : ProductUpdate.t) :
  holds_none u = false -> to_update (values u) = u.
Proof.
  unfold holds_none. intro H.
  repeat match type of H with
         | (_ || _)%bool = false =>
             apply orb_false_elim in H; let H' := fresh "H" in
                                        destruct H as [H H']
         end.
  destruct u; unfold to_update, values;
    cbn [ProductUpdate.name ProductUpdate.description
         ProductUpdate.category_id ProductUpdate.price
         ProductUpdate.discount_percentage ProductUpdate.stock_status
         ProductUpdate.features ProductUpdate.images
         ProductChanges.name ProductChanges.description
         ProductChanges.category_id ProductChanges.price
         ProductChanges.discount_percentage ProductChanges.stock_status
         ProductChanges.features ProductChanges.images] in *.
  now rewrite !of_option_to_option.
Qed.

(** On an update dict without [None], [update_product] is
    [change_product]. *)
Lemma update_product_without_none (product_id : Z) (c : ProductChanges.t)
  (now : string) (db : database) :
  update_product product_id (to_update c) now db
  = Returns (fst (change_product product_id c now db))
            (snd (change_product product_id c now db)).
Proof.
  unfold update_product, change_product.
  destruct (Dict.get (_products db) product_id) as [old|]; [|reflexivity].
  unfold dict_update, to_update.
  cbn [ProductUpdate.name ProductUpdate.description
       ProductUpdate.category_id ProductUpdate.price
       ProductUpdate.discount_percentage ProductUpdate.stock_status
       ProductUpdate.features ProductUpdate.images].
  rewrite !assigned_of_option. reflexivity.
Qed.

(** A dict is a product only when none of its keys holds [None]. *)
Lemma to_product_some (d : ProductDict.t) (p : Product.t) :
  to_product d = Some p ->
  ProductDict.name d = Some (Product.name p)
  /\ ProductDict.description d = Some (Product.description p)
  /\ ProductDict.category_id d = Some (Product.category_id p)
  /\ ProductDict.stock_status d = Some (Product.stock_status p)
  /\ ProductDict.features d = Some (Product.features p)
  /\ ProductDict.images d = Some (Product.images p).
Proof.
  unfold to_product.
  destruct (ProductDict.name d); [|discriminate].
  destruct (ProductDict.description d); [|discriminate].
  destruct (ProductDict.category_id d); [|discriminate].
  destruct (ProductDict.price d); [|discriminate].
  destruct (ProductDict.discount_percentage d); [|discriminate].
  destruct (ProductDict.stock_status d); [|discriminate].
  destruct (ProductDict.features d); [|discriminate].
  destruct (ProductDict.images d); [|discriminate].
  intros [= <-]. repeat split.
Qed.

(** The four ways in which a call of [update_product] ends. *)
Lemma update_product_cases (product_id : Z) (product_data : ProductUpdate.t)
  (now : string) (db : database) :
  match update_product product_id product_data now db with
  | Returns db' None => get_product db product_id = None /\ db' = db
  | Returns db' (Some p) =>
      holds_none product_data = false
      /\ exists old,
           get_product db product_id = Some old
           /\ p = updated_product old (values product_data) now
           /\ db' = fst (change_product product_id (values product_data)
                                        now db)
  | ReturnsDict stored =>
      holds_none product_data = true
      /\ exists old price discount,
           get_product db product_id = Some old
           /\ assigned (ProductUpdate.price product_data)
                       (Product.price old) = Some price
           /\ assigned (ProductUpdate.discount_percentage product_data)
                       (Product.discount_percentage old) = Some discount
           /\ stored = set_final_price (dict_update old product_data now)
                         (compute_final_price price discount)
  | RaisesTypeError stored =>
      (ProductUpdate.price product_data = Null
       \/ ProductUpdate.discount_percentage product_data = Null)
      /\ exists old,
           get_product db product_id = Some old
           /\ stored = dict_update old product_data now
  end.
Proof.
  destruct (holds_none product_data) eqn:Hn.
  - unfold update_product, get_product.
    destruct (Dict.get (_products db) product_id) as [old|];
      [|now split].
    cbn zeta.
    destruct (ProductDict.price (dict_update old product_data now))
      as [price|] eqn:Ep.
    2:{ split; [|now exists old]. left.
        cbn [dict_update ProductDict.price] in Ep.
        now destruct (ProductUpdate.price product_data). }
    destruct (ProductDict.discount_percentage
                (dict_update old product_data now)) as [discount|] eqn:Ed.
    2:{ split; [|now exists old]. right.
        cbn [dict_update ProductDict.discount_percentage] in Ed.
        now destruct (ProductUpdate.discount_percentage product_data). }
    destruct (to_product _) as [p|] eqn:Et.
    + exfalso. apply to_product_some in Et.
      cbn [set_final_price dict_update ProductDict.name
           ProductDict.description ProductDict.category_id
           ProductDict.stock_status ProductDict.features
           ProductDict.images] in Et.
      destruct Et as (H1 & H2 & H3 & H6 & H7 & H8).
      cbn [dict_update ProductDict.price ProductDict.discount_percentage]
        in Ep, Ed.
      unfold holds_none in Hn.
      rewrite (assigned_some _ _ H1), (assigned_some _ _ H2),
        (assigned_some _ _ H3), (assigned_some _ _ Ep),
        (assigned_some _ _ Ed), (assigned_some _ _ H6),
        (assigned_some _ _ H7), (assigned_some _ _ H8) in Hn.
      discriminate.
    + split; [reflexivity|]. now exists old, price, discount.
  - pose proof (update_product_without_none product_id
                  (values product_data) now db) as H.
    rewrite (to_update_values _ Hn) in H. rewrite H. clear H.
    unfold change_product, get_product.
    destruct (Dict.get (_products db) product_id) as [old|];
      cbn [fst snd]; [|now split].
    split; [reflexivity|]. now exists old.
Qed.

(** C6.  [create_product] stores the product it returns, with the price
    and discount it was given and the final price
    [round(price * (1 - discount_percentage / 100), 2)] computed from
    them, in float arithmetic.  A call of [update_product] ends in one
    of four ways.  On an unknown product it returns [None] and changes
    nothing.  When the update dict has no [None], it returns the stored
    product, with the price and discount of the update where it has them
    and the stored ones where it has not, and the final price computed
    from them.  When the dict has a [None], but not as price or
    discount, the final price is computed all the same.  When the price
    or the discount of the dict is [None], a body [{"price": null}]
    that schema [ProductUpdate] admits, the dict of the product is
    updated with that [None] and the new [updated_at], and then
    [TypeError] is raised before the final price is assigned: the stored
    final price is the one of before the call and no longer the rounded
    discounted price.  Whatever calls with update dicts without [None]
    are made on a new store, the final price of every stored product is
    the rounded discounted price, and no call but [create_product] and
    [update_product] changes the prices of a product that stays in the
    store.  Created at price 100 with discount 25, a product has final
    price 75; after the discount alone is updated to 50, its final price
    is 50 and its price still 100; after [update_product] with
    [{"price": None}] its price is [None] and its final price still
    50.  The same happens to the first product of the running store of
    the examples, priced 100, when its seller sends [PUT /products/1]
    with the body [{"price": null}]. *)
Theorem final_price_recomputed :
  (forall db product_data now1 now2,
      let db' := fst (create_product product_data now1 now2 db) in
      let p := snd (create_product product_data now1 now2 db) in
      get_product db' (Product.id p) = Some p
      /\ Product.price p = ProductData.price product_data
      /\ Product.discount_percentage p
         = ProductData.discount_percentage product_data
      /\ Product.final_price p
         = Py.round (Py.fmul (Product.price p)
                       (Py.fsub 1 (Py.fdiv (Product.discount_percentage p)
                                           100))) 2)
  /\ (forall db product_id product_data now,
        match update_product product_id product_data now db with
        | Returns db' None => get_product db product_id = None /\ db' = db
        | Returns db' (Some p) =>
            get_product db' product_id = Some p
            /\ (exists old,
                  get_product db product_id = Some old
                  /\ assigned (ProductUpdate.price product_data)
                              (Product.price old)
                     = Some (Product.price p)
                  /\ assigned (ProductUpdate.discount_percentage
                                 product_data)
                              (Product.discount_percentage old)
                     = Some (Product.discount_percentage p))
            /\ Product.final_price p
               = Py.round (Py.fmul (Product.price p)
                             (Py.fsub 1
                                (Py.fdiv (Product.discount_percentage p)
                                         100))) 2
        | ReturnsDict stored =>
            exists price discount,
              ProductDict.price stored = Some price
              /\ ProductDict.discount_percentage stored = Some discount
              /\ ProductDict.final_price stored
                 = Py.round (Py.fmul price
                               (Py.fsub 1 (Py.fdiv discount 100))) 2
        | RaisesTypeError stored =>
            (ProductUpdate.price product_data = Null
             \/ ProductUpdate.discount_percentage product_data = Null)
            /\ exists old,
                 get_product db product_id = Some old
                 /\ ProductDict.price stored
                    = assigned (ProductUpdate.price product_data)
                               (Product.price old)
                 /\ ProductDict.discount_percentage stored
                    = assigned (ProductUpdate.discount_percentage
                                  product_data)
                               (Product.discount_percentage old)
                 /\ ProductDict.updated_at stored = now
                 /\ ProductDict.final_price stored
                    = Product.final_price old
        end)
  /\ (forall ops, final_price_in_sync (run ops empty_database))
  /\ (forall db op k,
        create_or_update op = false ->
        prices (apply_op op db) k = prices db k
        \/ prices (apply_op op db) k = None)
  /\ prices store_100_25 1 = Some (100, 25, 75)
  /\ prices store_100_50 1 = Some (100, 50, 50)
  /\ (exists stored,
        update_product 1 null_price t1 store_100_50 = RaisesTypeError stored
        /\ ProductDict.price stored = None
        /\ ProductDict.discount_percentage stored = Some 50
        /\ ProductDict.updated_at stored = t1
        /\ ProductDict.final_price stored = 50)
  /\ (exists stored,
        ProductsRouter.update_product 1 null_price (Some "seller_key_001")
          t1 sample_store = HandlerRaisesTypeError stored
        /\ ProductDict.price stored = None
        /\ ProductDict.discount_percentage stored = Some 0
        /\ ProductDict.updated_at stored = t1
        /\ ProductDict.final_price stored = 100).
Proof.
  split.
  { intros db d n1 n2. cbn zeta. unfold create_product, get_product.
    cbn [fst snd _products Product.id Product.price
         Product.discount_percentage Product.final_price].
    rewrite get_set, Z.eqb_refl. repeat split. }
  split.
  { intros db i u n. pose proof (update_product_cases i u n db) as H.
    destruct (update_product i u n db) as [db' [p|]|stored|stored].
    - destruct H as (Hn & old & Hold & -> & ->).
      unfold change_product, get_product in *. rewrite Hold.
      cbn [fst _products]. rewrite get_set, Z.eqb_refl.
      split; [reflexivity|]. split; [|reflexivity].
      exists old. split; [reflexivity|].
      rewrite <- (to_update_values _ Hn) at 1 3.
      unfold to_update.
      cbn [ProductUpdate.price ProductUpdate.discount_percentage].
      rewrite !assigned_of_option. split; reflexivity.
    - exact H.
    - destruct H as (_ & old & price & discount & _ & Hp & Hd & ->).
      exists price, discount.
      cbn [set_final_price dict_update ProductDict.price
           ProductDict.discount_percentage ProductDict.final_price].
      repeat split; assumption.
    - destruct H as (Hnull & old & Hold & ->).
      split; [exact Hnull|]. exists old. repeat split. exact Hold. }
  split; [intro ops; apply run_final_price, final_price_in_sync_empty|].
  split; [intros db op k; apply apply_op_prices|].
  split; [reflexivity|]. split; [reflexivity|].
  split; (eexists; split; [vm_compute; reflexivity|repeat split]).
Qed.

(** ** The rating aggregates *)

Lemma sum_fold_right (l : list Z) : Py.sum l = fold_right Z.add 0%Z l.
Proof.
  unfold Py.sum.
  assert (H : forall a, fold_left Z.add l a = (a + fold_right Z.add 0 l)%Z).
  { induction l as [|x l IH]; intro a; cbn [fold_left fold_right].
    - lia.
    - rewrite IH. lia. }
  rewrite H. lia.
Qed.

(** What [update_product_rating] computes from the reviews of a product is
    the mean rating and the number of the ratings. *)
Lemma computed_rating (rs : list Review.t) :
  (match rs with
   | _ :: _ =>
       Py.round (Py.truediv (Py.sum (map Review.rating rs)) (Py.len rs)) 2
   | [] => 0
   end == mean_rating (map Review.rating rs))%Q
  /\ match rs with _ :: _ => Py.len rs | [] => 0%Z end
     = Z.of_nat (List.length (map Review.rating rs)).
Proof.
  destruct rs as [|r rs]; [split; reflexivity|].
  split.
  - unfold mean_rating. cbn [map]. rewrite sum_fold_right.
    unfold Py.len. rewrite <- (length_map Review.rating (r :: rs)).
    reflexivity.
  - unfold Py.len. now rewrite length_map.
Qed.

Lemma update_product_rating_reviews (i : Z) (db : database) :
  _reviews (update_product_rating i db) = _reviews db
  /\ _review_counter (update_product_rating i db) = _review_counter db.
Proof.
  unfold update_product_rating.
  now destruct (negb (Dict.contains (_products db) i)).
Qed.

Lemma update_product_rating_ratings (i : Z) (db : database) (k : Z) :
  ratings_of (update_product_rating i db) k = ratings_of db k.
Proof.
  unfold ratings_of. now rewrite (proj1 (update_product_rating_reviews i db)).
Qed.

Lemma update_product_rating_other (i : Z) (db : database) (k : Z) :
  k <> i ->
  get_product (update_product_rating i db) k = get_product db k.
Proof.
  intro Hne. unfold update_product_rating, get_product.
  destruct (negb (Dict.contains (_products db) i)); [reflexivity|].
  cbn [_products].
  destruct (product_reviews db i); rewrite get_modify;
    (destruct (Z.eqb_spec i k); [congruence|reflexivity]).
Qed.

Lemma update_product_rating_same (i : Z) (db : database) (p : Product.t) :
  get_product (update_product_rating i db) i = Some p ->
  (Product.average_rating p == mean_rating (ratings_of db i))%Q
  /\ Product.review_count p = Z.of_nat (List.length (ratings_of db i)).
Proof.
  unfold update_product_rating, get_product, Dict.contains.
  destruct (Dict.get (_products db) i) as [p0|] eqn:E; cbn [negb].
  - cbn [_products].
    pose proof (computed_rating (product_reviews db i)) as [Havg Hcnt].
    unfold ratings_of. fold (product_reviews db i).
    destruct (product_reviews db i) as [|r rs];
      rewrite get_modify, Z.eqb_refl, E; cbn [option_map];
      intros [= <-]; cbn [Product.average_rating Product.review_count];
      split; assumption.
  - rewrite E. discriminate.
Qed.

(** Recomputing the rating of [i] brings a store in sync if every other
    product is. *)
Lemma update_product_rating_sync (i : Z) (db : database) :
  (forall k p, k <> i -> get_product db k = Some p ->
     (Product.average_rating p == mean_rating (ratings_of db k))%Q
     /\ Product.review_count p = Z.of_nat (List.length (ratings_of db k))) ->
  ratings_in_sync (update_product_rating i db).
Proof.
  intros Hothers k p Hp. rewrite update_product_rating_ratings.
  destruct (Z.eq_dec k i) as [->|Hne].
  - now apply update_product_rating_same.
  - rewrite update_product_rating_other in Hp by exact Hne.
    now apply Hothers.
Qed.

Lemma values_app {V : Type} (d1 d2 : Dict.t V) :
  Dict.values (d1 ++ d2) = Dict.values d1 ++ Dict.values d2.
Proof. apply map_app. Qed.

Lemma create_review_sync (d : ReviewData.t) (now : string) (db : database) :
  review_ids_fresh db -> ratings_in_sync db ->
  ratings_in_sync (fst (create_review d now db)).
Proof.
  intros Hfresh Hsync. unfold create_review. cbn [fst].
  apply update_product_rating_sync. intros k p Hne Hp.
  unfold get_product in Hp. cbn [_products] in Hp.
  unfold ratings_of. cbn [_reviews].
  rewrite set_fresh.
  - rewrite values_app, filter_app, map_app.
    cbn [Dict.values map snd filter Review.product_id].
    destruct (Z.eqb_spec (ReviewData.product_id d) k); [congruence|].
    cbn [map]. rewrite app_nil_r. now apply Hsync.
  - intros k' v' Hin. apply Hfresh in Hin. lia.
Qed.

Lemma delete_product_sync (i : Z) (db : database) :
  ratings_in_sync db -> ratings_in_sync (fst (delete_product i db)).
Proof.
  intro Hsync. unfold delete_product.
  destruct (Dict.contains (_products db) i); [|exact Hsync].
  intros k p. unfold get_product, ratings_of.
  cbn [fst _products _reviews]. rewrite get_del.
  destruct (Z.eqb_spec i k) as [->|Hne]; [discriminate|].
  intro Hp.
  assert (Hrs :
    filter (fun r => (Review.product_id r =? k)%Z)
           (Dict.values
              (Dict.filter_values
                 (fun v => negb (Review.product_id v =? i)%Z)
                 (_reviews db)))
    = filter (fun r => (Review.product_id r =? k)%Z)
             (Dict.values (_reviews db))).
  { unfold Dict.values, Dict.filter_values.
    induction (_reviews db) as [|[k0 r] l IH]; [reflexivity|].
    cbn [filter map snd].
    destruct (Z.eqb_spec (Review.product_id r) i) as [Hri|Hri];
      cbn [negb map snd filter]; rewrite IH; [|reflexivity].
    destruct (Z.eqb_spec (Review.product_id r) k); [congruence|reflexivity]. }
  rewrite Hrs. now apply Hsync.
Qed.

Lemma apply_op_fresh (op : store_op) (db : database) :
  review_or_delete op = true ->
  review_ids_fresh db -> review_ids_fresh (apply_op op db).
Proof.
  intros Hop Hfresh.
  destruct op as [d n1 n2|i d n|i|i|d n]; try discriminate; cbn [apply_op].
  - unfold delete_product.
    destruct (Dict.contains (_products db) i); [|exact Hfresh].
    intros k v. cbn [fst _reviews _review_counter].
    unfold Dict.filter_values. rewrite filter_In. intros [Hin _].
    now apply Hfresh in Hin.
  - unfold create_review. cbn [fst]. intros k v.
    destruct (update_product_rating_reviews (ReviewData.product_id d)
                {| _products := _products db;
                   _reviews :=
                     Dict.set (_reviews db) (_review_counter db + 1)
                       {| Review.id := (_review_counter db + 1)%Z;
                          Review.product_id := ReviewData.product_id d;
                          Review.user_id := ReviewData.user_id d;
                          Review.rating := ReviewData.rating d;
                          Review.title := ReviewData.title d;
                          Review.comment := ReviewData.comment d;
                          Review.pros := ReviewData.pros d;
                          Review.cons := ReviewData.cons d;
                          Review.created_at := n;
                          Review.helpful_count := 0 |};
                   _product_counter := _product_counter db;
                   _review_counter := (_review_counter db + 1)%Z |})
      as [-> ->].
    cbn [_reviews _review_counter]. intro Hin.
    apply in_set in Hin. destruct Hin as [[= -> _]|Hin]; [lia|].
    apply Hfresh in Hin. lia.
Qed.

Lemma apply_op_sync (op : store_op) (db : database) :
  review_or_delete op = true ->
  review_ids_fresh db -> ratings_in_sync db ->
  ratings_in_sync (apply_op op db).
Proof.
  intros Hop Hfresh Hsync.
  destruct op as [d n1 n2|i d n|i|i|d n]; try discriminate; cbn [apply_op].
  - now apply delete_product_sync.
  - now apply create_review_sync.
Qed.

Lemma ratings_in_sync_b_sound (db : database) :
  ratings_in_sync_b db = true -> ratings_in_sync db.
Proof.
  unfold ratings_in_sync_b, ratings_in_sync, get_product.
  rewrite forallb_forall. intros Hall k p Hget.
  assert (Hin : In (k, p) (_products db)).
  { clear Hall. induction (_products db) as [|[k0 p0] l IH];
      cbn [Dict.get] in Hget; [discriminate|].
    destruct (Z.eqb_spec k0 k) as [->|].
    - injection Hget as ->. now left.
    - right. now apply IH. }
  apply Hall in Hin. cbn [fst snd] in Hin.
  apply andb_true_iff in Hin. destruct Hin as [Havg Hcnt].
  split; [now apply Qeqb_eq|now apply Z.eqb_eq].
Qed.

Lemma review_ids_fresh_b_sound (db : database) :
  review_ids_fresh_b db = true -> review_ids_fresh db.
Proof.
  unfold review_ids_fresh_b, review_ids_fresh. rewrite forallb_forall.
  intros Hall k v Hin. apply Hall in Hin. now apply Z.leb_le.
Qed.

(** *** Stores reached from the empty store *)

Lemma update_product_rating_counter (i : Z) (db : database) :
  _product_counter (update_product_rating i db) = _product_counter db.
Proof.
  unfold update_product_rating.
  now destruct (negb (Dict.contains (_products db) i)).
Qed.

Lemma update_product_rating_stored (i : Z) (db : database) (k : Z)
  (p : Product.t) :
  get_product (update_product_rating i db) k = Some p ->
  exists p0, get_product db k = Some p0.
Proof.
  intro Hp. pose proof (update_product_rating_prices i db k) as H.
  unfold prices in H. rewrite Hp in H.
  destruct (get_product db k) as [p0|]; [|discriminate].
  now exists p0.
Qed.

Lemma update_product_rating_references (i : Z) (db : database) :
  references_created db -> references_created (update_product_rating i db).
Proof.
  intros [Hp Hr]. split.
  - intros k p Hk. rewrite update_product_rating_counter.
    apply update_product_rating_stored in Hk. destruct Hk as [p0 Hk].
    now apply Hp in Hk.
  - intros k r. rewrite update_product_rating_counter,
      (proj1 (update_product_rating_reviews i db)). apply Hr.
Qed.

Lemma apply_op_references (op : store_op) (db : database) :
  admissible op db = true ->
  references_created db -> references_created (apply_op op db).
Proof.
  intros Hadm [Hp Hr].
  destruct op as [d n1 n2|i d n|i|i|d n]; cbn [apply_op].
  - unfold create_product. cbn [fst]. split.
    + intros k p. unfold get_product. cbn [_products _product_counter].
      rewrite get_set.
      destruct (Z.eqb_spec (_product_counter db + 1) k) as [<-|]; [lia|].
      intro Hk. apply Hp in Hk. lia.
    + intros k r Hin. cbn [_reviews _product_counter] in *.
      apply Hr in Hin. lia.
  - unfold change_product.
    destruct (Dict.get (_products db) i) as [p0|] eqn:E; [|now split].
    cbn [fst]. split; [|exact Hr].
    intros k p. unfold get_product. cbn [_products _product_counter].
    rewrite get_set. destruct (Z.eqb_spec i k) as [<-|]; [|apply Hp].
    intros _. now apply (Hp i p0).
  - unfold delete_product.
    destruct (Dict.contains (_products db) i); [|now split].
    cbn [fst]. split.
    + intros k p. unfold get_product. cbn [_products _product_counter].
      rewrite get_del. destruct (i =? k)%Z; [discriminate|apply Hp].
    + intros k r. cbn [_reviews _product_counter].
      unfold Dict.filter_values. rewrite filter_In. intros [Hin _].
      now apply Hr in Hin.
  - apply update_product_rating_references. now split.
  - unfold create_review. cbn [fst].
    apply update_product_rating_references. split.
    + exact Hp.
    + intros k r Hin. cbn [_reviews _product_counter] in *.
      apply in_set in Hin.
      destruct Hin as [[= _ ->]|Hin]; [|exact (Hr k r Hin)].
      cbn [Review.product_id]. cbn [admissible] in Hadm.
      unfold Dict.contains in Hadm.
      destruct (Dict.get (_products db) (ReviewData.product_id d))
        as [p0|] eqn:E; [|discriminate].
      now apply (Hp _ p0).
Qed.

Lemma apply_op_fresh_any (op : store_op) (db : database) :
  review_ids_fresh db -> review_ids_fresh (apply_op op db).
Proof.
  intro Hfresh.
  destruct op as [d n1 n2|i d n|i|i|d n];
    try (now apply apply_op_fresh); cbn [apply_op].
  - exact Hfresh.
  - unfold change_product.
    now destruct (Dict.get (_products db) i).
  - intros k v. destruct (update_product_rating_reviews i db) as [-> ->].
    apply Hfresh.
Qed.

(** A product created beyond the references has no review. *)
Lemma ratings_of_unreferenced (db : database) (k : Z) :
  (forall k' r, In (k', r) (_reviews db) -> (Review.product_id r < k)%Z) ->
  ratings_of db k = [].
Proof.
  unfold ratings_of, Dict.values. intro Href.
  induction (_reviews db) as [|[k0 r] l IH]; [reflexivity|].
  cbn [map snd filter].
  destruct (Z.eqb_spec (Review.product_id r) k) as [Heq|_].
  - specialize (Href k0 r (or_introl eq_refl)). lia.
  - apply IH. intros k' r' Hin. apply (Href k' r'). now right.
Qed.

Lemma apply_op_sync_any (op : store_op) (db : database) :
  references_created db -> review_ids_fresh db -> ratings_in_sync db ->
  ratings_in_sync (apply_op op db).
Proof.
  intros [Hp Hr] Hfresh Hsync.
  destruct op as [d n1 n2|i d n|i|i|d n];
    try (now apply apply_op_sync); cbn [apply_op].
  - intros k p. unfold create_product, get_product, ratings_of.
    cbn [fst _products _reviews]. rewrite get_set.
    destruct (Z.eqb_spec (_product_counter db + 1) k) as [<-|];
      [|apply Hsync].
    intros [= <-]. cbn [Product.average_rating Product.review_count].
    fold (ratings_of db (_product_counter db + 1)).
    rewrite ratings_of_unreferenced; [split; reflexivity|].
    intros k' r Hin. apply Hr in Hin. lia.
  - unfold change_product.
    destruct (Dict.get (_products db) i) as [p0|] eqn:E; [|exact Hsync].
    intros k p. unfold get_product, ratings_of.
    cbn [fst _products _reviews]. rewrite get_set.
    destruct (Z.eqb_spec i k) as [<-|]; [|apply Hsync].
    intros [= <-].
    cbn [updated_product Product.average_rating Product.review_count].
    now apply Hsync.
  - apply update_product_rating_sync. intros k p _. apply Hsync.
Qed.

Lemma run_admissible_sync (ops : list store_op) (db : database) :
  admissible_run ops db = true ->
  references_created db -> review_ids_fresh db -> ratings_in_sync db ->
  ratings_in_sync (run ops db).
Proof.
  unfold run. revert db.
  induction ops as [|op ops IH]; intros db Hadm Href Hfresh Hsync;
    cbn [fold_left].
  - exact Hsync.
  - cbn [admissible_run] in Hadm. apply andb_true_iff in Hadm.
    destruct Hadm as [Hop Hops]. apply IH.
    + exact Hops.
    + now apply apply_op_references.
    + now apply apply_op_fresh_any.
    + now apply apply_op_sync_any.
Qed.

(** C7. From a store whose products have the average rating and review
    count of their reviews (and whose review counter is not behind its
    reviews), any sequence of [create_review] and [delete_product] calls
    leads to a store where this is so again: for every stored product,
    [average_rating] is the mean of the ratings of the reviews that
    reference it, rounded to 2 decimals (0 without reviews), and
    [review_count] is their number.  The mean is the float
    [sum / len], and [round(mean, 2)] is the float nearest to the
    decimal that is nearest to that float.  The stores reached from the
    empty store by calls of any kind, reviews being created for stored
    products, are such stores.  A new product has rating 0 and count 0;
    after reviews rated 5, 5 and 4 it has rating 4.67 and count 3, and
    after 39 reviews rated 4 and one rated 5 it has rating 4.03 and
    count 40. *)
Theorem ratings_follow_reviews :
  (forall db ops,
      forallb review_or_delete ops = true ->
      review_ids_fresh db -> ratings_in_sync db ->
      ratings_in_sync (run ops db))
  /\ (forall ops,
        admissible_run ops empty_database = true ->
        ratings_in_sync (run ops empty_database))
  /\ aggregates store_100_25 1 = Some (0, 0%Z)
  /\ aggregates store_554 1 = Some (Py.float (467 # 100), 3%Z)
  /\ aggregates store_403 1 = Some (Py.float (403 # 100), 40%Z).
Proof.
  split; [|split; [|repeat split; vm_compute; reflexivity]].
  - intros db ops. unfold run. revert db.
    induction ops as [|op ops IH]; intros db Hops Hfresh Hsync;
      cbn [fold_left].
    + exact Hsync.
    + cbn [forallb] in Hops. apply andb_true_iff in Hops.
      destruct Hops as [Hop Hops].
      apply IH; [exact Hops| |].
      * now apply apply_op_fresh.
      * now apply apply_op_sync.
  - intros ops Hadm. apply run_admissible_sync; [exact Hadm| | |].
    + split; [intros k p H; discriminate|intros k r []].
    + intros k v [].
    + intros k p H. discriminate.
Qed.

Lemma ratings_follow_reviews_witness :
  forallb review_or_delete
          (sample_reviews ++ [OpDeleteProduct 2]) = true
  /\ review_ids_fresh sample_catalog
  /\ ratings_in_sync sample_catalog
  /\ ratings_in_sync (run (sample_reviews ++ [OpDeleteProduct 2])
                          sample_catalog).
Proof.
  assert (H1 : forallb review_or_delete
                 (sample_reviews ++ [OpDeleteProduct 2]) = true)
    by reflexivity.
  assert (H2 : review_ids_fresh sample_catalog)
    by (apply review_ids_fresh_b_sound; reflexivity).
  assert (H3 : ratings_in_sync sample_catalog)
    by (apply ratings_in_sync_b_sound; reflexivity).
  split; [exact H1|]. split; [exact H2|]. split; [exact H3|].
  exact (proj1 ratings_follow_reviews sample_catalog _ H1 H2 H3).
Defined.

(** Deleting a product takes its reviews with it and leaves the other
    aggregates as they were. *)
Example delete_product_example :
  let db := fst (delete_product 2 sample_db) in
  get_product db 2 = None
  /\ ratings_of db 2 = []
  /\ aggregates db 1 = Some (4, 1%Z)
  /\ aggregates sample_db 2 = Some (9 # 2, 2%Z).
Proof. repeat split; reflexivity. Qed.

(** ** Price range *)

Lemma get_price_range_products_eq (db : database) (min_price max_price : Q)
  (category_id : option Z) (limit : Z) :
  result_of (get_price_range_products min_price max_price category_id limit)
            db
  = Py.slice_to
      (Py.sorted Py.Qltb Product.average_rating true
         (filter (in_price_range_b min_price max_price)
                 (price_range_scope db category_id)))
      limit.
Proof.
  unfold result_of, get_price_range_products, bind, price_range_scope.
  destruct category_id as [c|]; [|reflexivity].
  unfold Py.truthy_int. now destruct (c =? 0)%Z.
Qed.

(** C8. When [min_price > max_price] the handler raises the invalid-range
    error (status 400) without calling any method of the store, so that
    nothing is read and no product is returned.  When
    [min_price <= max_price] (and the limit is not negative) it returns
    the first [limit] elements of a ranking of the products in scope whose
    final price is within [min_price .. max_price], bounds included; the
    ranking is in descending order of average rating, products of equal
    rating in the order of the store. *)
Theorem get_by_price_range_spec (db : database) (min_price max_price : Q)
  (category_id : option Z) (limit : Z) :
  ((max_price < min_price)%Q ->
   get_by_price_range min_price max_price category_id limit db
   = (HTTPException 400 "min_price cannot be greater than max_price.", []))
  /\ ((min_price <= max_price)%Q -> (0 <= limit)%Z ->
      let in_range :=
        filter (in_price_range_b min_price max_price)
               (price_range_scope db category_id) in
      exists ranked,
        result_of
          (get_by_price_range min_price max_price category_id limit) db
        = Ok (firstn (Z.to_nat limit) ranked)
        /\ Permutation ranked in_range
        /\ (forall p, In p ranked -> in_price_range min_price max_price p)
        /\ Descending Product.average_rating ranked
        /\ Stable (same_on Product.average_rating) in_range ranked).
Proof.
  split.
  - intro Hinv. unfold get_by_price_range.
    apply Qltb_lt in Hinv. now rewrite Hinv.
  - intros Hle Hlimit. cbn zeta.
    set (l := filter (in_price_range_b min_price max_price)
                     (price_range_scope db category_id)).
    exists (Py.sorted Py.Qltb Product.average_rating true l).
    split; [|split; [|split; [|split]]].
    + pose proof (get_price_range_products_eq db min_price max_price
                    category_id limit) as Heq.
      unfold get_by_price_range, result_of, bind, ret in *.
      apply Qltb_ge in Hle. rewrite Hle.
      destruct (get_price_range_products min_price max_price category_id
                  limit db) as [ps calls].
      cbn [fst] in *. rewrite Heq. fold l.
      now rewrite slice_to_nonneg.
    + apply sorted_perm.
    + intros p Hin.
      apply (Permutation_in _ (sorted_perm _ _ _ _)) in Hin.
      apply filter_In in Hin. destruct Hin as [_ Hin].
      unfold in_price_range_b in Hin. apply andb_true_iff in Hin.
      destruct Hin as [H1 H2]. apply Qleb_le in H1, H2. now split.
    + apply sorted_reverse_descending.
    + apply sorted_stable. intros a x y. apply same_on_not_lt.
Qed.

Lemma get_by_price_range_spec_witness :
  ((100 < 500)%Q
   /\ get_by_price_range 500 100 None 10 sample_db
      = (HTTPException 400 "min_price cannot be greater than max_price.",
         []))
  /\ ((100 <= 500)%Q /\ (0 <= 2)%Z
      /\ exists ranked,
        result_of (get_by_price_range 100 500 (Some 1%Z) 2) sample_db
        = Ok (firstn 2 ranked)
        /\ (forall p, In p ranked -> in_price_range 100 500 p)
        /\ Descending Product.average_rating ranked).
Proof.
  assert (H1 : (100 < 500)%Q) by reflexivity.
  assert (H2 : (100 <= 500)%Q) by (apply Qlt_le_weak; reflexivity).
  assert (H3 : (0 <= 2)%Z) by lia.
  split.
  - split; [exact H1|].
    exact (proj1 (get_by_price_range_spec sample_db 500 100 None 10) H1).
  - split; [exact H2|]. split; [exact H3|].
    destruct (proj2 (get_by_price_range_spec sample_db 100 500
                       (Some 1%Z) 2) H2 H3)
      as (ranked & Hres & _ & Hin & Hdesc & _).
    exists ranked. split; [exact Hres|]. split; [exact Hin|exact Hdesc].
Defined.

(** The inverted range of the specification, and a range that holds two
    products of category 1. *)
Example get_by_price_range_example :
  get_by_price_range 500 100 None 10 sample_db
  = (HTTPException 400 "min_price cannot be greater than max_price.", [])
  /\ calls_of (get_by_price_range 100 500 (Some 1%Z) 10) sample_db
     = [CallGetProductsByCategory 1]
  /\ match result_of (get_by_price_range 100 500 None 2) sample_db with
     | Ok products => ids products = [3; 2]%Z
     | HTTPException _ _ => False
     end.
Proof. vm_compute. repeat split; reflexivity. Qed.

(** * Further properties of the code *)

(** ** Tables and identifiers *)

Section TableFacts.
Variable V : Type.
Variable id_of : V -> Z.
Implicit Types (d : Dict.t V) (k c : Z) (v : V).

Lemma get_In d k v : Dict.get d k = Some v -> In (k, v) d.
Proof.
  induction d as [|[k0 v0] d IH]; cbn [Dict.get]; [discriminate|].
  destruct (Z.eqb_spec k0 k) as [->|].
  - intros [= ->]. now left.
  - intro H. right. now apply IH.
Qed.

Lemma keys_set_present d k v v0 :
  Dict.get d k = Some v0 -> map fst (Dict.set d k v) = map fst d.
Proof.
  induction d as [|[k1 v1] d IH]; cbn [Dict.get Dict.set];
    [discriminate|].
  destruct (Z.eqb_spec k1 k) as [->|]; [reflexivity|].
  intro H. cbn [map fst]. now rewrite IH.
Qed.

Lemma keys_modify d k (f : V -> V) :
  map fst (Dict.modify d k f) = map fst d.
Proof.
  unfold Dict.modify. destruct (Dict.get d k) as [v0|] eqn:E; [|reflexivity].
  now apply keys_set_present with (v0 := v0).
Qed.

Lemma in_modify d k (f : V -> V) k' v' :
  In (k', v') (Dict.modify d k f) ->
  In (k', v') d \/ exists v0, In (k', v0) d /\ v' = f v0.
Proof.
  unfold Dict.modify. destruct (Dict.get d k) as [v0|] eqn:E; [|now left].
  intro Hin. apply in_set in Hin. destruct Hin as [[= -> ->]|Hin].
  - right. exists v0. split; [now apply get_In|reflexivity].
  - now left.
Qed.

Lemma StronglySorted_filter {A : Type} (R : A -> A -> Prop)
  (f : A -> bool) (l : list A) :
  StronglySorted R l -> StronglySorted R (filter f l).
Proof.
  induction 1 as [|x l Hs IH Hall]; cbn [filter]; [constructor|].
  destruct (f x); [|exact IH]. constructor; [exact IH|].
  rewrite Forall_forall in *. intros y Hy. apply Hall.
  now apply filter_In in Hy.
Qed.

Lemma table_ok_filter (f : Z * V -> bool) d c :
  table_ok id_of d c -> table_ok id_of (filter f d) c.
Proof.
  intros (Hc & Hs & Hin). split; [exact Hc|]. split.
  - clear Hin. induction d as [|kv d IH]; cbn [filter map]; [constructor|].
    cbn [map] in Hs. apply StronglySorted_inv in Hs. destruct Hs as [Hs Hall].
    destruct (f kv); cbn [map]; [|now apply IH].
    constructor; [now apply IH|].
    rewrite Forall_forall in *. intros y Hy. apply Hall.
    apply in_map_iff in Hy. destruct Hy as (kv' & <- & Hy).
    apply filter_In in Hy. apply in_map. apply Hy.
  - intros k v H. apply filter_In in H. now apply Hin.
Qed.

Lemma table_ok_set_new d c v :
  table_ok id_of d c -> id_of v = (c + 1)%Z ->
  table_ok id_of (Dict.set d (c + 1) v) (c + 1).
Proof.
  intros (Hc & Hs & Hin) Hid.
  rewrite set_fresh
    by (intros k' v' H; apply Hin in H; lia).
  split; [lia|]. split.
  - rewrite map_app. cbn [map fst].
    apply StronglySorted_app; [exact Hs|repeat constructor|].
    intros a b Ha [<-|[]]. apply in_map_iff in Ha.
    destruct Ha as ([k' v'] & <- & Ha). apply Hin in Ha. cbn [fst]. lia.
  - intros k v' H. apply in_app_or in H. destruct H as [H|[[= <- <-]|[]]].
    + destruct (Hin _ _ H) as [Hk Hi]. split; [lia|exact Hi].
    + split; [lia|exact Hid].
Qed.

Lemma table_ok_modify d c k (f : V -> V) :
  (forall v, id_of (f v) = id_of v) ->
  table_ok id_of d c -> table_ok id_of (Dict.modify d k f) c.
Proof.
  intros Hf (Hc & Hs & Hin). split; [exact Hc|].
  split; [now rewrite keys_modify|].
  intros k' v' H. apply in_modify in H.
  destruct H as [H|(v0 & H & ->)]; [now apply Hin|].
  rewrite Hf. now apply Hin.
Qed.

Lemma table_ok_set_present d c k v v0 :
  Dict.get d k = Some v0 -> id_of v = id_of v0 ->
  table_ok id_of d c -> table_ok id_of (Dict.set d k v) c.
Proof.
  intros Hget Hid (Hc & Hs & Hin). split; [exact Hc|].
  split; [now rewrite (keys_set_present _ _ _ Hget)|].
  intros k' v' H. apply in_set in H.
  destruct H as [[= -> ->]|H]; [|now apply Hin].
  rewrite Hid. apply Hin. now apply get_In.
Qed.

(** In such a table a record is found under its key. *)
Lemma table_ok_get d c k v :
  table_ok id_of d c -> In (k, v) d -> Dict.get d k = Some v.
Proof.
  intros (_ & Hs & _).
  induction d as [|[k0 v0] d IH]; cbn [In Dict.get]; [easy|].
  cbn [map fst] in Hs. apply StronglySorted_inv in Hs.
  destruct Hs as [Hs Hall].
  intros [[= -> ->]|Hin]; [now rewrite Z.eqb_refl|].
  destruct (Z.eqb_spec k0 k) as [->|]; [|now apply IH].
  rewrite Forall_forall in Hall.
  specialize (Hall k (in_map fst _ _ Hin)). cbn [fst] in Hall. lia.
Qed.

Lemma table_ok_NoDup d c : table_ok id_of d c -> NoDup (map fst d).
Proof.
  intros (_ & Hs & _).
  induction Hs as [|x l Hs IH Hall]; constructor; [|exact IH].
  intro Hin. rewrite Forall_forall in Hall. apply Hall in Hin. lia.
Qed.

End TableFacts.

Lemma store_ok_empty : store_ok empty_database.
Proof.
  split; (split; [reflexivity|split; [constructor|intros k v []]]).
Qed.

Lemma update_product_rating_store_ok (i : Z) (db : database) :
  store_ok db -> store_ok (update_product_rating i db).
Proof.
  intros [Hp Hr]. unfold update_product_rating.
  destruct (negb (Dict.contains (_products db) i)); [now split|].
  split; [|exact Hr]. cbn [_products _product_counter].
  destruct (product_reviews db i);
    (apply table_ok_modify; [intro v; reflexivity|exact Hp]).
Qed.

Lemma apply_op_store_ok (op : store_op) (db : database) :
  store_ok db -> store_ok (apply_op op db).
Proof.
  intros [Hp Hr].
  destruct op as [d n1 n2|i d n|i|i|d n]; cbn [apply_op].
  - split; [|exact Hr]. unfold create_product.
    cbn [fst _products _product_counter].
    now apply table_ok_set_new.
  - unfold change_product.
    destruct (Dict.get (_products db) i) as [p0|] eqn:E; [|now split].
    split; [|exact Hr]. cbn [fst _products _product_counter].
    now apply table_ok_set_present with (v0 := p0).
  - unfold delete_product.
    destruct (Dict.contains (_products db) i); [|now split].
    split; cbn [fst _products _product_counter _reviews _review_counter].
    + now apply table_ok_filter.
    + now apply table_ok_filter.
  - apply update_product_rating_store_ok. now split.
  - unfold create_review. cbn [fst].
    apply update_product_rating_store_ok. split; [exact Hp|].
    cbn [_reviews _review_counter]. now apply table_ok_set_new.
Qed.

Lemma run_store_ok (ops : list store_op) (db : database) :
  store_ok db -> store_ok (run ops db).
Proof.
  unfold run. revert db.
  induction ops as [|op ops IH]; intros db Hdb; cbn [fold_left];
    [exact Hdb|]. apply IH, apply_op_store_ok, Hdb.
Qed.

Lemma apply_op_counter (op : store_op) (db : database) :
  (_product_counter db <= _product_counter (apply_op op db))%Z.
Proof.
  destruct op as [d n1 n2|i d n|i|i|d n]; cbn [apply_op].
  - cbn. lia.
  - unfold change_product. destruct (Dict.get (_products db) i); cbn; lia.
  - unfold delete_product.
    destruct (Dict.contains (_products db) i); cbn; lia.
  - rewrite update_product_rating_counter. lia.
  - unfold create_review. cbn [fst].
    rewrite update_product_rating_counter. cbn. lia.
Qed.

Lemma run_counter (ops : list store_op) (db : database) :
  (_product_counter db <= _product_counter (run ops db))%Z.
Proof.
  unfold run. revert db.
  induction ops as [|op ops IH]; intro db; cbn [fold_left]; [lia|].
  pose proof (apply_op_counter op db). specialize (IH (apply_op op db)). lia.
Qed.

Lemma run_app (ops0 ops1 : list store_op) (db : database) :
  run (ops0 ++ ops1) db = run ops1 (run ops0 db).
Proof. apply fold_left_app. Qed.

(** X1. In every store reached from the empty one, the products and the
    reviews are listed in increasing order of their keys, every key lies
    between 1 and the counter of its table, and every record carries its
    key as [id].  An identifier is never given twice: a product created
    later, whatever was deleted in between, gets an [id] above every key
    that has been in the table. *)
Theorem identifiers_increase_and_are_not_reused :
  (forall ops,
      let db := run ops empty_database in
      StronglySorted Z.lt (map fst (_products db))
      /\ StronglySorted Z.lt (map fst (_reviews db))
      /\ (forall k p, In (k, p) (_products db) ->
            (1 <= k <= _product_counter db)%Z /\ Product.id p = k)
      /\ (forall k r, In (k, r) (_reviews db) ->
            (1 <= k <= _review_counter db)%Z /\ Review.id r = k))
  /\ (forall ops0 ops1 product_data now1 now2 k p,
        In (k, p) (_products (run ops0 empty_database)) ->
        (k < Product.id
               (snd (create_product product_data now1 now2
                       (run (ops0 ++ ops1) empty_database))))%Z).
Proof.
  split.
  - intro ops. cbn zeta.
    destruct (run_store_ok ops store_ok_empty)
      as [(_ & Hps & Hpi) (_ & Hrs & Hri)].
    split; [exact Hps|]. split; [exact Hrs|]. split; assumption.
  - intros ops0 ops1 d n1 n2 k p Hin.
    destruct (run_store_ok ops0 store_ok_empty) as [(_ & _ & Hpi) _].
    apply Hpi in Hin. rewrite run_app. cbn [create_product snd Product.id].
    pose proof (run_counter ops1 (run ops0 empty_database)). lia.
Qed.

(** X2. In a store reached from the empty one, [create_product] puts the
    new product last in the listing, under an [id] that was not in use,
    with the fields it was given, the two readings of the clock, rating 0
    and no review; it changes no other product and no review. *)
Theorem create_product_appends (ops : list store_op)
  (product_data : ProductData.t) (now1 now2 : string) :
  let db := run ops empty_database in
  let db' := fst (create_product product_data now1 now2 db) in
  let p := snd (create_product product_data now1 now2 db) in
  get_all_products db' = get_all_products db ++ [p]
  /\ get_product db (Product.id p) = None
  /\ get_product db' (Product.id p) = Some p
  /\ (forall k, k <> Product.id p -> get_product db' k = get_product db k)
  /\ _reviews db' = _reviews db
  /\ Product.name p = ProductData.name product_data
  /\ Product.category_id p = ProductData.category_id product_data
  /\ Product.seller_id p = ProductData.seller_id product_data
  /\ Product.stock_status p = ProductData.stock_status product_data
  /\ Product.created_at p = now1
  /\ Product.updated_at p = now2
  /\ Product.average_rating p = 0
  /\ Product.review_count p = 0%Z.
Proof.
  cbn zeta.
  destruct (run_store_ok ops store_ok_empty) as [(Hc & Hs & Hin) _].
  set (db := run ops empty_database) in *.
  unfold create_product, get_all_products, get_product.
  cbn [fst snd _products _reviews Product.id Product.name
       Product.category_id Product.seller_id Product.stock_status
       Product.created_at Product.updated_at Product.average_rating
       Product.review_count].
  split.
  { rewrite set_fresh by (intros k' v' H; apply Hin in H; lia).
    now rewrite values_app. }
  split.
  { destruct (Dict.get (_products db) (_product_counter db + 1))
      as [v|] eqn:E; [|reflexivity].
    apply get_In, Hin in E. lia. }
  split; [now rewrite get_set, Z.eqb_refl|].
  split.
  { intros k Hk. rewrite get_set.
    destruct (Z.eqb_spec (_product_counter db + 1) k); [congruence|easy]. }
  repeat split.
Qed.

Lemma reviews_without (i k : Z) (l : Dict.t Review.t) :
  filter (fun r => (Review.product_id r =? k)%Z)
         (Dict.values
            (Dict.filter_values
               (fun v => negb (Review.product_id v =? i)%Z) l))
  = if (k =? i)%Z then []
    else filter (fun r => (Review.product_id r =? k)%Z) (Dict.values l).
Proof.
  unfold Dict.values, Dict.filter_values.
  induction l as [|[k0 r] l IH]; cbn [filter map snd];
    [now destruct (k =? i)%Z|].
  destruct (Z.eqb_spec (Review.product_id r) i) as [Hri|Hri];
    cbn [negb map snd filter]; rewrite IH.
  - destruct (Z.eqb_spec k i) as [->|Hki]; [reflexivity|].
    destruct (Z.eqb_spec (Review.product_id r) k); [congruence|reflexivity].
  - destruct (Z.eqb_spec k i) as [->|Hki]; [|reflexivity].
    destruct (Z.eqb_spec (Review.product_id r) i); [congruence|reflexivity].
Qed.

Lemma map_filter_Subseq {A B : Type} (g : A -> B) (f : A -> bool)
  (l : list A) :
  Subseq (map g (filter f l)) (map g l).
Proof.
  induction l as [|x l IH]; cbn [filter map]; [constructor|].
  destruct (f x); cbn [map]; now constructor.
Qed.

(** X3. [delete_product] on an identifier that is not in the store
    returns [False] and changes nothing.  On a stored product it returns
    [True]; the product and all its reviews are gone, the other products
    and their reviews are as before, in the same order, the counters are
    untouched, and deleting it again returns [False]. *)
Theorem delete_product_cascades (db : database) (product_id : Z) :
  match get_product db product_id with
  | None => delete_product product_id db = (db, false)
  | Some _ =>
      let db' := fst (delete_product product_id db) in
      snd (delete_product product_id db) = true
      /\ get_product db' product_id = None
      /\ get_reviews_by_product db' product_id = []
      /\ (forall k, k <> product_id ->
            get_product db' k = get_product db k
            /\ get_reviews_by_product db' k = get_reviews_by_product db k)
      /\ Subseq (get_all_products db') (get_all_products db)
      /\ Subseq (get_all_reviews db') (get_all_reviews db)
      /\ _product_counter db' = _product_counter db
      /\ _review_counter db' = _review_counter db
      /\ delete_product product_id db' = (db', false)
  end.
Proof.
  unfold delete_product, get_product, Dict.contains.
  destruct (Dict.get (_products db) product_id) as [p|] eqn:E;
    [|reflexivity].
  cbn zeta. cbn [fst snd _products _reviews _product_counter
                 _review_counter].
  unfold get_reviews_by_product, get_all_products, get_all_reviews.
  cbn [_products _reviews].
  split; [reflexivity|].
  split; [now rewrite get_del, Z.eqb_refl|].
  split; [now rewrite reviews_without, Z.eqb_refl|].
  split.
  { intros k Hk. rewrite get_del, reviews_without.
    destruct (Z.eqb_spec product_id k); [congruence|].
    destruct (Z.eqb_spec k product_id); [congruence|]. now split. }
  split.
  { apply map_filter_Subseq. }
  split.
  { apply map_filter_Subseq. }
  split; [reflexivity|]. split; [reflexivity|].
  now rewrite get_del, Z.eqb_refl.
Qed.

(** [change_product] on a stored product: the fields of the update
    replace the stored ones, and nothing else of the store changes. *)
Lemma change_product_frame (db : database) (product_id : Z)
  (product_data : ProductChanges.t) (now : string) (old : Product.t) :
  get_product db product_id = Some old ->
  let db' := fst (change_product product_id product_data now db) in
  snd (change_product product_id product_data now db)
  = Some (updated_product old product_data now)
  /\ get_product db' product_id = Some (updated_product old product_data now)
  /\ map fst (_products db') = map fst (_products db)
  /\ (forall k, k <> product_id -> get_product db' k = get_product db k)
  /\ _reviews db' = _reviews db
  /\ _product_counter db' = _product_counter db
  /\ _review_counter db' = _review_counter db.
Proof.
  unfold change_product, get_product. intro E. rewrite E.
  cbn zeta. cbn [fst snd _products _reviews _product_counter
                 _review_counter].
  split; [reflexivity|].
  split; [now rewrite get_set, Z.eqb_refl|].
  split; [now apply keys_set_present with (v0 := old)|].
  split; [|repeat split].
  intros k Hk. rewrite get_set.
  destruct (Z.eqb_spec product_id k); [congruence|reflexivity].
Qed.

Lemma assigned_merged {A : Type} (f : field A) (old : A) :
  is_null f = false -> assigned f old = Some (merged (to_option f) old).
Proof. now destruct f. Qed.

Lemma updated_keys_updated_product (old : Product.t)
  (product_data : ProductUpdate.t) (now : string) :
  holds_none product_data = false ->
  updated_keys old product_data now
    (to_dict (updated_product old (values product_data) now)).
Proof.
  unfold holds_none. intro H.
  repeat match type of H with
         | (_ || _)%bool = false =>
             apply orb_false_elim in H; let H' := fresh "H" in
                                        destruct H as [H H']
         end.
  unfold updated_keys, to_dict, updated_product, values.
  cbn [ProductDict.id ProductDict.name ProductDict.description
       ProductDict.category_id ProductDict.seller_id ProductDict.price
       ProductDict.discount_percentage ProductDict.stock_status
       ProductDict.features ProductDict.images ProductDict.created_at
       ProductDict.updated_at ProductDict.average_rating
       ProductDict.review_count
       Product.id Product.name Product.description Product.category_id
       Product.seller_id Product.price Product.discount_percentage
       Product.stock_status Product.features Product.images
       Product.created_at Product.updated_at Product.average_rating
       Product.review_count
       ProductChanges.name ProductChanges.description
       ProductChanges.category_id ProductChanges.price
       ProductChanges.discount_percentage ProductChanges.stock_status
       ProductChanges.features ProductChanges.images].
  rewrite !assigned_merged by assumption.
  repeat match goal with |- _ /\ _ => split end; reflexivity.
Qed.

Lemma updated_keys_dict_update (old : Product.t)
  (product_data : ProductUpdate.t) (now : string) (final_price : Q) :
  updated_keys old product_data now (dict_update old product_data now)
  /\ updated_keys old product_data now
       (set_final_price (dict_update old product_data now) final_price).
Proof.
  split; unfold updated_keys;
    repeat match goal with |- _ /\ _ => split end; reflexivity.
Qed.

(** X4. [update_product] on an identifier that is not in the store
    returns [None] and changes nothing.  On a stored product whose
    update dict has no [None] it returns the stored record after the
    update: the keys of the update hold the values of the update,
    [updated_at] is the new reading of the clock, the final price is
    computed from the price and the discount, and [id], [seller_id],
    [created_at], [average_rating] and [review_count] are as before; the
    product keeps its place in the listing, and no other product, no
    review and no counter changes.  When the update dict has a [None]
    the keys of the stored dict are written in the same way, [None]
    included: with both a price and a discount left, the final price is
    computed from them and the dict is returned; with [None] as price
    or discount, [TypeError] is raised and the final price stays the one
    of before the call. *)
Theorem update_product_frame (db : database) (product_id : Z)
  (product_data : ProductUpdate.t) (now : string) :
  match get_product db product_id with
  | None => update_product product_id product_data now db = Returns db None
  | Some old =>
      match update_product product_id product_data now db with
      | Returns db' result =>
          holds_none product_data = false
          /\ exists p,
               result = Some p
               /\ get_product db' product_id = Some p
               /\ updated_keys old product_data now (to_dict p)
               /\ Product.final_price p
                  = compute_final_price (Product.price p)
                      (Product.discount_percentage p)
               /\ map fst (_products db') = map fst (_products db)
               /\ (forall k, k <> product_id ->
                     get_product db' k = get_product db k)
               /\ _reviews db' = _reviews db
               /\ _product_counter db' = _product_counter db
               /\ _review_counter db' = _review_counter db
      | ReturnsDict stored =>
          holds_none product_data = true
          /\ updated_keys old product_data now stored
          /\ exists price discount,
               ProductDict.price stored = Some price
               /\ ProductDict.discount_percentage stored = Some discount
               /\ ProductDict.final_price stored
                  = compute_final_price price discount
      | RaisesTypeError stored =>
          (ProductUpdate.price product_data = Null
           \/ ProductUpdate.discount_percentage product_data = Null)
          /\ updated_keys old product_data now stored
          /\ ProductDict.final_price stored = Product.final_price old
      end
  end.
Proof.
  pose proof (update_product_cases product_id product_data now db) as H.
  destruct (get_product db product_id) as [old|] eqn:E.
  2:{ unfold update_product. unfold get_product in E. now rewrite E. }
  destruct (update_product product_id product_data now db)
    as [db' [p|]|stored|stored].
  - destruct H as (Hn & old' & [= <-] & -> & ->).
    split; [exact Hn|].
    destruct (@change_product_frame db product_id (values product_data)
                now old E) as (_ & Hget & Hrest).
    eexists. split; [reflexivity|]. split; [exact Hget|].
    split; [now apply updated_keys_updated_product|].
    split; [reflexivity|exact Hrest].
  - destruct H as [H _]. discriminate.
  - destruct H as (Hn & old' & price & discount & [= <-] & Hp & Hd & ->).
    split; [exact Hn|].
    split; [apply updated_keys_dict_update|].
    exists price, discount.
    cbn [set_final_price dict_update ProductDict.price
         ProductDict.discount_percentage ProductDict.final_price].
    repeat split; assumption.
  - destruct H as (Hnull & old' & [= <-] & ->).
    split; [exact Hnull|].
    split; [apply (updated_keys_dict_update old product_data now 0)|].
    reflexivity.
Qed.

(** X5. In a store whose review counter is not behind its reviews and
    whose aggregates agree with its reviews, [create_review] stores the
    review last, under the next identifier, with no helpful vote.  Of the
    product it names, the review count grows by one and the rating
    becomes the mean of its ratings with the new one, as
    [round(sum / len, 2)] gives it in float arithmetic; its prices
    stay.  No other product changes.  When the product is not in the
    store the review is stored all the same and no product changes. *)
Theorem create_review_effect (db : database) (review_data : ReviewData.t)
  (now : string) :
  review_ids_fresh db -> ratings_in_sync db ->
  let db' := fst (create_review review_data now db) in
  let r := snd (create_review review_data now db) in
  let pid := ReviewData.product_id review_data in
  get_all_reviews db' = get_all_reviews db ++ [r]
  /\ get_review db' (Review.id r) = Some r
  /\ Review.id r = (_review_counter db + 1)%Z
  /\ Review.helpful_count r = 0%Z
  /\ Review.product_id r = pid
  /\ Review.rating r = ReviewData.rating review_data
  /\ Review.created_at r = now
  /\ (forall k, k <> pid -> get_product db' k = get_product db k)
  /\ match get_product db pid with
     | None => _products db' = _products db
     | Some p =>
         exists p',
           get_product db' pid = Some p'
           /\ Product.review_count p' = (Product.review_count p + 1)%Z
           /\ (Product.average_rating p'
               == mean_rating (ratings_of db pid
                               ++ [ReviewData.rating review_data]))%Q
           /\ prices db' pid = prices db pid
     end.
Proof.
  intros Hfresh Hsync. cbn zeta. unfold create_review. cbn [fst snd].
  set (r := {| Review.id := (_review_counter db + 1)%Z;
               Review.product_id := ReviewData.product_id review_data;
               Review.user_id := ReviewData.user_id review_data;
               Review.rating := ReviewData.rating review_data;
               Review.title := ReviewData.title review_data;
               Review.comment := ReviewData.comment review_data;
               Review.pros := ReviewData.pros review_data;
               Review.cons := ReviewData.cons review_data;
               Review.created_at := now;
               Review.helpful_count := 0 |}).
  set (db1 := {| _products := _products db;
                 _reviews := Dict.set (_reviews db) (_review_counter db + 1) r;
                 _product_counter := _product_counter db;
                 _review_counter := (_review_counter db + 1)%Z |}).
  set (pid := ReviewData.product_id review_data).
  assert (Hset : _reviews db1 = _reviews db ++ [((_review_counter db + 1)%Z, r)]).
  { unfold db1. cbn [_reviews]. apply set_fresh.
    intros k' v' Hin. apply Hfresh in Hin. lia. }
  assert (Hrat : ratings_of db1 pid
                 = ratings_of db pid ++ [ReviewData.rating review_data]).
  { unfold ratings_of. rewrite Hset, values_app, filter_app, map_app.
    cbn [Dict.values map snd filter]. unfold r at 1. cbn [Review.product_id].
    fold pid. rewrite Z.eqb_refl. reflexivity. }
  destruct (update_product_rating_reviews pid db1) as [Hrev Hcnt].
  unfold get_all_reviews, get_review. rewrite Hrev.
  split; [now rewrite Hset, values_app|].
  split.
  { unfold db1. cbn [_reviews Review.id r]. now rewrite get_set, Z.eqb_refl. }
  do 5 (split; [reflexivity|]).
  split.
  { intros k Hk. now rewrite update_product_rating_other. }
  destruct (get_product db pid) as [p|] eqn:E.
  - assert (E1 : get_product db1 pid = Some p) by exact E.
    destruct (get_product (update_product_rating pid db1) pid)
      as [p'|] eqn:E'.
    + exists p'. split; [reflexivity|].
      destruct (update_product_rating_same _ _ E') as [Havg Hn].
      rewrite Hrat in Havg, Hn. split; [|split; [exact Havg|]].
      * rewrite Hn, length_app, Nat.add_1_r, Nat2Z.inj_succ.
        destruct (Hsync pid p E) as [_ ->]. lia.
      * now rewrite update_product_rating_prices.
    + pose proof (update_product_rating_prices pid db1 pid) as Hpr.
      unfold prices in Hpr. rewrite E', E1 in Hpr. discriminate.
  - unfold update_product_rating.
    assert (Hc : Dict.contains (_products db1) pid = false).
    { unfold Dict.contains. unfold get_product in E.
      unfold db1. cbn [_products]. now rewrite E. }
    now rewrite Hc.
Qed.

Lemma create_review_effect_witness :
  review_ids_fresh sample_catalog
  /\ ratings_in_sync sample_catalog
  /\ aggregates sample_catalog 2 = Some (0, 0%Z)
  /\ aggregates (fst (create_review (sample_review 2 1 4) t0 sample_catalog))
                2
     = Some (4, 1%Z)
  /\ get_all_reviews
       (fst (create_review (sample_review 2 1 4) t0 sample_catalog))
     = get_all_reviews sample_catalog
       ++ [snd (create_review (sample_review 2 1 4) t0 sample_catalog)].
Proof.
  assert (H1 : review_ids_fresh sample_catalog)
    by (apply review_ids_fresh_b_sound; reflexivity).
  assert (H2 : ratings_in_sync sample_catalog)
    by (apply ratings_in_sync_b_sound; reflexivity).
  split; [exact H1|]. split; [exact H2|].
  split; [reflexivity|]. split; [reflexivity|].
  exact (proj1 (@create_review_effect sample_catalog (sample_review 2 1 4)
                  t0 H1 H2)).
Defined.

Lemma ratings_set_same (d : Dict.t Review.t) (k : Z) (r r' : Review.t)
  (product_id : Z) :
  Dict.get d k = Some r ->
  Review.product_id r' = Review.product_id r ->
  Review.rating r' = Review.rating r ->
  map Review.rating
      (filter (fun x => (Review.product_id x =? product_id)%Z)
              (Dict.values (Dict.set d k r')))
  = map Review.rating
        (filter (fun x => (Review.product_id x =? product_id)%Z)
                (Dict.values d)).
Proof.
  intros Hget Hp Hr. unfold Dict.values.
  induction d as [|[k0 v0] d IH]; cbn [Dict.get Dict.set] in *;
    [discriminate|].
  destruct (Z.eqb_spec k0 k) as [->|Hne]; cbn [map snd filter].
  - injection Hget as ->. rewrite Hp.
    destruct (Review.product_id r =? product_id)%Z; cbn [map];
      now rewrite ?Hr.
  - destruct (Review.product_id v0 =? product_id)%Z; cbn [map];
      now rewrite (IH Hget).
Qed.

(** X6. [increment_helpful] on an identifier that is not in the store
    returns [False] and changes nothing.  On a stored review it returns
    [True] and adds one to its [helpful_count]; the review keeps its
    place and its other fields, and no other review, no product, no
    rating of any product and no counter changes. *)
Theorem increment_helpful_effect (db : database) (review_id : Z) :
  match get_review db review_id with
  | None => increment_helpful review_id db = (db, false)
  | Some r =>
      let db' := fst (increment_helpful review_id db) in
      snd (increment_helpful review_id db) = true
      /\ (exists r',
            get_review db' review_id = Some r'
            /\ Review.helpful_count r' = (Review.helpful_count r + 1)%Z
            /\ Review.id r' = Review.id r
            /\ Review.product_id r' = Review.product_id r
            /\ Review.user_id r' = Review.user_id r
            /\ Review.rating r' = Review.rating r
            /\ Review.title r' = Review.title r
            /\ Review.comment r' = Review.comment r
            /\ Review.created_at r' = Review.created_at r)
      /\ (forall k, k <> review_id -> get_review db' k = get_review db k)
      /\ map fst (_reviews db') = map fst (_reviews db)
      /\ _products db' = _products db
      /\ (forall product_id,
            ratings_of db' product_id = ratings_of db product_id)
      /\ _product_counter db' = _product_counter db
      /\ _review_counter db' = _review_counter db
  end.
Proof.
  unfold increment_helpful, get_review, Dict.contains.
  destruct (Dict.get (_reviews db) review_id) as [r|] eqn:E;
    [|reflexivity].
  cbn zeta. cbn [fst snd _products _reviews _product_counter
                 _review_counter].
  split; [reflexivity|]. split.
  { exists (add_helpful r). rewrite get_modify, Z.eqb_refl, E.
    repeat split. }
  split.
  { intros k Hk. rewrite get_modify.
    destruct (Z.eqb_spec review_id k); [congruence|reflexivity]. }
  split; [apply keys_modify|]. split; [reflexivity|].
  split; [|split; reflexivity].
  intro product_id. unfold ratings_of. cbn [_reviews].
  unfold Dict.modify. rewrite E.
  now apply ratings_set_same with (r := r).
Qed.

(** ** The final price *)










(** ** Order of strings *)

Lemma ascii_compare_refl (a : ascii) : Ascii.compare a a = Eq.
Proof. unfold Ascii.compare. apply N.compare_refl. Qed.

Lemma ascii_compare_lt_trans (a b c : ascii) :
  Ascii.compare a b = Lt -> Ascii.compare b c = Lt ->
  Ascii.compare a c = Lt.
Proof.
  unfold Ascii.compare. rewrite !N.compare_lt_iff. apply N.lt_trans.
Qed.

Lemma string_le_trans (a b c : string) :
  String.compare a b <> Gt -> String.compare b c <> Gt ->
  String.compare a c <> Gt.
Proof.
  revert b c. induction a as [|x a IH]; intros [|y b] [|z c];
    cbn [String.compare]; try congruence.
  destruct (Ascii.compare x y) eqn:Exy; try congruence;
    destruct (Ascii.compare y z) eqn:Eyz; try congruence.
  - apply Ascii.compare_eq_iff in Exy, Eyz. subst.
    rewrite ascii_compare_refl. apply IH.
  - apply Ascii.compare_eq_iff in Exy. subst. rewrite Eyz. congruence.
  - apply Ascii.compare_eq_iff in Eyz. subst. rewrite Exy. congruence.
  - rewrite (ascii_compare_lt_trans _ _ _ Exy Eyz). congruence.
Qed.

Lemma string_ltb_leb (a b : string) :
  String.ltb a b = false <-> String.leb b a = true.
Proof.
  unfold String.ltb, String.leb. rewrite (String.compare_antisym b a).
  destruct (String.compare a b); cbn; intuition congruence.
Qed.

Lemma string_leb_le (a b : string) :
  String.leb a b = true <-> String.compare a b <> Gt.
Proof.
  unfold String.leb. destruct (String.compare a b); intuition congruence.
Qed.

Lemma string_ltb_asym (a b : string) :
  String.ltb a b = true -> String.ltb b a = false.
Proof.
  unfold String.ltb. rewrite (String.compare_antisym b a).
  destruct (String.compare a b); cbn; congruence.
Qed.

Lemma string_geb_trans (a b c : string) :
  String.ltb b a = false -> String.ltb c b = false ->
  String.ltb c a = false.
Proof.
  rewrite !string_ltb_leb, !string_leb_le. apply string_le_trans.
Qed.

(** ** Order of a sorted list, in both directions *)

Section SortedOrder.
Variables A K : Type.
Variable ltb : K -> K -> bool.
Variable key : A -> K.
Hypothesis ltb_asym : forall a b, ltb a b = true -> ltb b a = false.
Hypothesis geb_trans :
  forall a b c, ltb b a = false -> ltb c b = false -> ltb c a = false.

Lemma sorted_order (reverse : bool) (l : list A) :
  StronglySorted
    (fun a b => if reverse then ltb (key a) (key b) = false
                else ltb (key b) (key a) = false)
    (Py.sorted ltb key reverse l).
Proof.
  unfold Py.sorted. destruct reverse.
  - apply (StronglySorted_rev
             (R := fun a b => ltb (key b) (key a) = false)).
    now apply sort_asc_sorted.
  - now apply sort_asc_sorted.
Qed.

End SortedOrder.


Lemma sorted_order_Z {A : Type} (key : A -> Z) (reverse : bool)
  (l : list A) :
  StronglySorted
    (fun a b => if reverse then (key b <= key a)%Z else (key a <= key b)%Z)
    (Py.sorted Z.ltb key reverse l).
Proof.
  eapply StronglySorted_impl;
    [|apply (@sorted_order A Z Z.ltb key)].
  - intros a b H. destruct reverse; now apply Z.ltb_ge in H.
  - intros a b H. apply Z.ltb_lt in H. apply Z.ltb_ge. lia.
  - intros a b c H1 H2. apply Z.ltb_ge in H1, H2. apply Z.ltb_ge. lia.
Qed.

Lemma sorted_order_str {A : Type} (key : A -> string) (reverse : bool)
  (l : list A) :
  StronglySorted
    (fun a b => if reverse then String.leb (key b) (key a) = true
                else String.leb (key a) (key b) = true)
    (Py.sorted String.ltb key reverse l).
Proof.
  eapply StronglySorted_impl;
    [|apply (@sorted_order A string String.ltb key)].
  - intros a b H. destruct reverse; now apply string_ltb_leb in H.
  - apply string_ltb_asym.
  - apply string_geb_trans.
Qed.

Lemma same_on_int_not_lt {A : Type} (key : A -> Z) (a x y : A) :
  same_on_int key a x = true -> same_on_int key a y = true ->
  Z.ltb (key x) (key y) = false.
Proof.
  unfold same_on_int. intros Hx Hy. apply Z.eqb_eq in Hx, Hy.
  apply Z.ltb_ge. lia.
Qed.

Lemma same_on_str_not_lt {A : Type} (key : A -> string) (a x y : A) :
  same_on_str key a x = true -> same_on_str key a y = true ->
  String.ltb (key x) (key y) = false.
Proof.
  unfold same_on_str. intros Hx Hy. apply String.eqb_eq in Hx, Hy.
  rewrite <- Hx, <- Hy. apply string_ltb_irrefl.
Qed.



(** X19. [apply_review_sorting] rearranges the reviews into the order
    asked for (by date, rating or helpful votes, ascending or
    descending) and keeps reviews of equal key in the order they came
    in. *)
Theorem apply_review_sorting_spec (reviews : list Review.t)
  (sort_by : ReviewSortBy.t) (order : SortOrder) :
  let out := apply_review_sorting reviews sort_by order in
  Permutation out reviews
  /\ Ordered (review_key_le sort_by) order out
  /\ Stable (review_same_key sort_by) reviews out.
Proof.
  cbn zeta. split; [|split].
  - destruct sort_by; apply sorted_perm.
  - unfold Ordered.
    destruct sort_by; cbn [apply_review_sorting review_key_le];
      eapply StronglySorted_impl;
      try apply sorted_order_Z; try apply sorted_order_str;
      intros a b H; destruct order; exact H.
  - destruct sort_by; cbn [apply_review_sorting review_same_key];
      apply sorted_stable; intros a x y.
    + apply (same_on_str_not_lt Review.created_at).
    + apply (same_on_int_not_lt Review.rating).
    + apply (same_on_int_not_lt Review.helpful_count).
Qed.

(** ** Rankings of the recommendation service *)

Lemma scoped_result (db : database) (category_id : option Z) :
  result_of
    match category_id with
    | Some c =>
        if Py.truthy_int c then db_get_products_by_category c
        else db_get_all_products
    | None => db_get_all_products
    end db
  = category_scope db category_id.
Proof.
  unfold category_scope, price_range_scope, Py.truthy_int.
  destruct category_id as [c|]; [|reflexivity].
  now destruct (c =? 0)%Z.
Qed.

Lemma result_of_bind_ret {A B : Type} (m : DB A) (f : A -> B)
  (db : database) :
  result_of (x <- m ;; ret (f x)) db = f (result_of m db).
Proof.
  unfold result_of, bind, ret. now destruct (m db).
Qed.

Lemma ranking_of_sorted {A K : Type} (ltb : K -> K -> bool) (key : A -> K)
  (ordered : list A -> Prop) (same : A -> A -> bool)
  (eligible : list A) (limit : Z) :
  (0 <= limit)%Z ->
  ordered (Py.sorted ltb key true eligible) ->
  (forall a x y, same a x = true -> same a y = true ->
                 ltb (key x) (key y) = false) ->
  Ranking ordered same eligible
          (Py.slice_to (Py.sorted ltb key true eligible) limit) limit.
Proof.
  intros Hlimit Hord Hsame.
  exists (Py.sorted ltb key true eligible).
  split; [now apply slice_to_nonneg|].
  split; [apply sorted_perm|]. split; [exact Hord|].
  now apply sorted_stable.
Qed.

Lemma Ranking_In {A : Type} (ordered : list A -> Prop)
  (same : A -> A -> bool) (eligible returned : list A) (limit : Z) (x : A) :
  Ranking ordered same eligible returned limit ->
  In x returned -> In x eligible.
Proof.
  intros (ranked & -> & Hperm & _) Hin.
  eapply Permutation_in; [exact Hperm|]. now apply in_firstn in Hin.
Qed.

(** X8. [get_top_rated], for a limit that is not negative, returns the
    first [limit] of the products in scope (the category, when one is
    given and is not 0) that have at least [min_reviews] reviews, ranked
    by average rating, highest first, equal ratings in the order of the
    store.  No product with fewer reviews is returned. *)
Theorem get_top_rated_spec (db : database) (category_id : option Z)
  (min_reviews limit : Z) :
  (0 <= limit)%Z ->
  let returned :=
    result_of (get_top_rated category_id min_reviews limit) db in
  Ranking (Descending Product.average_rating)
          (same_on Product.average_rating)
          (filter (fun p => (min_reviews <=? Product.review_count p)%Z)
                  (category_scope db category_id))
          returned limit
  /\ forall p, In p returned ->
       (min_reviews <= Product.review_count p)%Z
       /\ In p (category_scope db category_id).
Proof.
  intro Hlimit. cbn zeta. unfold get_top_rated.
  rewrite result_of_bind_ret, scoped_result.
  assert (Hr : Ranking (Descending Product.average_rating)
                 (same_on Product.average_rating)
                 (filter (fun p => (min_reviews <=? Product.review_count p)%Z)
                         (category_scope db category_id))
                 (Py.slice_to
                    (Py.sorted Py.Qltb Product.average_rating true
                       (filter
                          (fun p =>
                             (min_reviews <=? Product.review_count p)%Z)
                          (category_scope db category_id))) limit) limit).
  { apply ranking_of_sorted; [exact Hlimit| |].
    - apply sorted_reverse_descending.
    - intros a x y. apply same_on_not_lt. }
  split; [exact Hr|]. intros p Hin.
  apply (Ranking_In p Hr) in Hin. apply filter_In in Hin.
  destruct Hin as [Hin Hp]. apply Z.leb_le in Hp. now split.
Qed.

Lemma get_top_rated_spec_witness :
  (0 <= 2)%Z
  /\ forall p, In p (result_of (get_top_rated (Some 1%Z) 1 2) sample_db) ->
       (1 <= Product.review_count p)%Z
       /\ In p (category_scope sample_db (Some 1%Z)).
Proof.
  assert (H : (0 <= 2)%Z) by lia. split; [exact H|].
  exact (proj2 (@get_top_rated_spec sample_db (Some 1%Z) 1 2 H)).
Defined.

(** X9. [get_best_deals], for a limit that is not negative, returns the
    first [limit] of the products in scope whose discount is at least
    [min_discount], ranked by discount, highest first, equal discounts in
    the order of the store.  No product with a smaller discount is
    returned. *)
Theorem get_best_deals_spec (db : database) (category_id : option Z)
  (min_discount : Q) (limit : Z) :
  (0 <= limit)%Z ->
  let returned :=
    result_of (get_best_deals category_id min_discount limit) db in
  Ranking (Descending Product.discount_percentage)
          (same_on Product.discount_percentage)
          (filter (fun p =>
                     Py.Qleb min_discount (Product.discount_percentage p))
                  (category_scope db category_id))
          returned limit
  /\ forall p, In p returned ->
       (min_discount <= Product.discount_percentage p)%Q
       /\ In p (category_scope db category_id).
Proof.
  intro Hlimit. cbn zeta. unfold get_best_deals.
  rewrite result_of_bind_ret, scoped_result.
  assert (Hr : Ranking (Descending Product.discount_percentage)
                 (same_on Product.discount_percentage)
                 (filter (fun p =>
                            Py.Qleb min_discount
                                    (Product.discount_percentage p))
                         (category_scope db category_id))
                 (Py.slice_to
                    (Py.sorted Py.Qltb Product.discount_percentage true
                       (filter
                          (fun p =>
                             Py.Qleb min_discount
                                     (Product.discount_percentage p))
                          (category_scope db category_id))) limit) limit).
  { apply ranking_of_sorted; [exact Hlimit| |].
    - apply sorted_reverse_descending.
    - intros a x y. apply same_on_not_lt. }
  split; [exact Hr|]. intros p Hin.
  apply (Ranking_In p Hr) in Hin. apply filter_In in Hin.
  destruct Hin as [Hin Hp]. apply Qleb_le in Hp. now split.
Qed.

Lemma get_best_deals_spec_witness :
  (0 <= 10)%Z
  /\ forall p, In p (result_of (get_best_deals None 20 10) sample_db) ->
       (20 <= Product.discount_percentage p)%Q
       /\ In p (category_scope sample_db None).
Proof.
  assert (H : (0 <= 10)%Z) by lia. split; [exact H|].
  exact (proj2 (@get_best_deals_spec sample_db None 20 10 H)).
Defined.

(** X10. [get_popular_products], for a limit that is not negative,
    returns the first [limit] of the products in scope ranked by number
    of reviews, highest first, equal numbers in the order of the
    store. *)
Theorem get_popular_products_spec (db : database) (category_id : option Z)
  (limit : Z) :
  (0 <= limit)%Z ->
  Ranking (Descending_int Product.review_count)
          (same_on_int Product.review_count)
          (category_scope db category_id)
          (result_of (get_popular_products category_id limit) db) limit.
Proof.
  intro Hlimit. unfold get_popular_products.
  rewrite result_of_bind_ret, scoped_result.
  apply ranking_of_sorted; [exact Hlimit| |].
  - apply (sorted_order_Z Product.review_count true).
  - intros a x y. apply same_on_int_not_lt.
Qed.

Lemma get_popular_products_spec_witness :
  (0 <= 2)%Z
  /\ Ranking (Descending_int Product.review_count)
             (same_on_int Product.review_count)
             (category_scope sample_db None)
             (result_of (get_popular_products None 2) sample_db) 2.
Proof.
  assert (H : (0 <= 2)%Z) by lia. split; [exact H|].
  exact (@get_popular_products_spec sample_db None 2 H).
Defined.

(** X11. [get_new_arrivals], for a limit that is not negative, returns
    the first [limit] of the products in scope ranked by [created_at]
    (compared as strings), latest first, equal dates in the order of the
    store. *)
Theorem get_new_arrivals_spec (db : database) (category_id : option Z)
  (limit : Z) :
  (0 <= limit)%Z ->
  Ranking (Descending_str Product.created_at)
          (same_on_str Product.created_at)
          (category_scope db category_id)
          (result_of (get_new_arrivals category_id limit) db) limit.
Proof.
  intro Hlimit. unfold get_new_arrivals.
  rewrite result_of_bind_ret, scoped_result.
  apply ranking_of_sorted; [exact Hlimit| |].
  - apply (sorted_order_str Product.created_at true).
  - intros a x y. apply same_on_str_not_lt.
Qed.

Lemma get_new_arrivals_spec_witness :
  (0 <= 2)%Z
  /\ Ranking (Descending_str Product.created_at)
             (same_on_str Product.created_at)
             (category_scope sample_db (Some 1%Z))
             (result_of (get_new_arrivals (Some 1%Z) 2) sample_db) 2.
Proof.
  assert (H : (0 <= 2)%Z) by lia. split; [exact H|].
  exact (@get_new_arrivals_spec sample_db (Some 1%Z) 2 H).
Defined.

(** The queries on the sample store: the best rated with a review, the
    deals of 20 percent and more, and the two most reviewed. *)
Example recommendation_examples :
  ids (result_of (get_top_rated None 1 2) sample_db) = [3; 2]%Z
  /\ ids (result_of (get_top_rated None 3 10) sample_db) = []
  /\ ids (result_of (get_best_deals None 20 10) sample_db) = [4]%Z
  /\ ids (result_of (get_best_deals (Some 1%Z) 5 10) sample_db) = []
  /\ ids (result_of (get_popular_products None 2) sample_db) = [2; 1]%Z
  /\ ids (result_of (get_new_arrivals (Some 0%Z) 3) sample_db)
     = [1; 2; 3]%Z.
Proof. vm_compute. repeat split; reflexivity. Qed.

(** ** The similarity score *)






(** ** Similar products in a store made by its operations *)

Lemma NoDup_firstn {A : Type} (n : nat) (l : list A) :
  NoDup l -> NoDup (firstn n l).
Proof.
  intro H. rewrite <- (firstn_skipn n l) in H.
  now apply NoDup_app_remove_r in H.
Qed.

Lemma NoDup_filter {A : Type} (f : A -> bool) (l : list A) :
  NoDup l -> NoDup (filter f l).
Proof.
  induction 1 as [|x l Hx Hl IH]; cbn [filter]; [constructor|].
  destruct (f x); [|exact IH]. constructor; [|exact IH].
  intro Hin. apply filter_In in Hin. now apply Hx.
Qed.

Lemma filter_map_comm {A B : Type} (g : A -> B) (f : B -> bool)
  (l : list A) :
  filter f (map g l) = map g (filter (fun x => f (g x)) l).
Proof.
  induction l as [|x l IH]; cbn [map filter]; [reflexivity|].
  destruct (f (g x)); cbn [map]; now rewrite IH.
Qed.

(** The products of such a store have different [id]s. *)
Lemma store_ok_ids (db : database) :
  store_ok db -> map Product.id (get_all_products db) = map fst (_products db).
Proof.
  intros [(_ & _ & Hin) _]. unfold get_all_products, Dict.values.
  rewrite map_map. apply map_ext_in. intros [k p] H. cbn [fst snd].
  now apply Hin in H.
Qed.

Lemma NoDup_ids_sublist (l all : list Product.t) :
  NoDup (map Product.id all) ->
  (exists f, Permutation l (filter f all)) ->
  NoDup (map Product.id l).
Proof.
  intros Hall (f & Hperm).
  eapply Permutation_NoDup;
    [apply Permutation_map, Permutation_sym, Hperm|].
  clear Hperm.
  induction all as [|x all IH]; cbn [filter map]; [constructor|].
  cbn [map] in Hall. apply NoDup_cons_iff in Hall. destruct Hall as [Hx Hall].
  destruct (f x); cbn [map]; [|now apply IH].
  constructor; [|now apply IH].
  intro Hin. apply Hx. apply in_map_iff in Hin.
  destruct Hin as (y & Hy & Hin). apply filter_In in Hin.
  rewrite <- Hy. apply in_map. apply Hin.
Qed.

(** X13. In a store reached from the empty one, and for a limit that is
    not negative, [get_similar_products] returns at most [limit]
    products, no product twice (no [id] twice), and never the reference
    product. *)
Theorem get_similar_products_distinct (ops : list store_op) (x limit : Z)
  (include_same_seller : bool) :
  (0 <= limit)%Z ->
  let db := run ops empty_database in
  let returned :=
    result_of (get_similar_products x limit include_same_seller) db in
  (Py.len returned <= limit)%Z
  /\ NoDup (map Product.id returned)
  /\ NoDup returned
  /\ forall ref, get_product db x = Some ref -> ~ In ref returned.
Proof.
  intro Hlimit. cbn zeta.
  set (db := run ops empty_database).
  pose proof (run_store_ok ops store_ok_empty) as Hok. fold db in Hok.
  rewrite get_similar_products_eq.
  destruct (get_product db x) as [ref|] eqn:E.
  - rewrite slice_to_nonneg by exact Hlimit.
    set (ranked := Py.sorted Py.Qltb
                     (calculate_score (Product.final_price ref)) true
                     (candidate_set db ref x include_same_seller)).
    assert (Hids : NoDup (map Product.id (firstn (Z.to_nat limit) ranked))).
    { rewrite <- firstn_map. apply NoDup_firstn.
      apply NoDup_ids_sublist with (all := get_all_products db).
      - rewrite (store_ok_ids Hok).
        apply (table_ok_NoDup (proj1 Hok)).
      - eexists. apply sorted_perm. }
    split; [|split; [exact Hids|split]].
    + unfold Py.len. rewrite length_firstn. lia.
    + now apply NoDup_map_inv in Hids.
    + intros ref' [= <-] Hin. apply in_firstn in Hin.
      apply (Permutation_in _ (sorted_perm _ _ _ _)) in Hin.
      apply filter_In in Hin. destruct Hin as [_ Hc].
      apply is_candidate_true in Hc. destruct Hc as (_ & Hid & _).
      apply Hid. apply (run_ids_are_keys ops). exact E.
  - cbn. split; [lia|]. split; [constructor|]. split; [constructor|].
    intros ref H. discriminate.
Qed.

Lemma get_similar_products_distinct_witness :
  (0 <= 1)%Z
  /\ (Py.len (result_of (get_similar_products 1 1 true)
                        (run [OpCreateProduct
                                (sample_product "a" 1 1 100 0) t0 t0;
                              OpCreateProduct
                                (sample_product "b" 1 1 110 0) t0 t0;
                              OpCreateProduct
                                (sample_product "c" 1 2 120 0) t0 t0]
                             empty_database)) <= 1)%Z.
Proof.
  assert (H : (0 <= 1)%Z) by lia. split; [exact H|].
  exact (proj1 (@get_similar_products_distinct
                  [OpCreateProduct (sample_product "a" 1 1 100 0) t0 t0;
                   OpCreateProduct (sample_product "b" 1 1 110 0) t0 t0;
                   OpCreateProduct (sample_product "c" 1 2 120 0) t0 t0]
                  1 1 true H)).
Defined.

(** ** Pages *)

Lemma total_pages_bounds (total page_size : Z) :
  (1 <= page_size)%Z -> (0 <= total)%Z ->
  let pages := ((total + page_size - 1) / page_size)%Z in
  ((pages - 1) * page_size < total <= pages * page_size)%Z
  \/ (total = 0 /\ pages = 0)%Z.
Proof.
  intros Hps Ht. cbn zeta.
  pose proof (Z.div_mod (total + page_size - 1) page_size ltac:(lia)) as Hdm.
  pose proof (Z.mod_pos_bound (total + page_size - 1) page_size ltac:(lia)).
  destruct (Z.eq_dec total 0) as [->|Hne].
  - right. split; [reflexivity|].
    rewrite Z.add_0_l. apply Z.div_small. lia.
  - left. nia.
Qed.

Lemma page_in_range (total page_size page : Z) :
  (1 <= page_size)%Z -> (0 <= total)%Z -> (1 <= page)%Z ->
  (page <= (total + page_size - 1) / page_size
   <-> (page - 1) * page_size < total)%Z.
Proof.
  intros Hps Ht Hp.
  destruct (total_pages_bounds Hps Ht) as [[H1 H2]|[-> ->]]; [|nia].
  split; intro H; nia.
Qed.

(** X15. For a page size and a page number of at least 1, the items of
    a page are the next [page_size] items after the pages before it.  A
    page up to [total_pages] is never empty, a page before the last is
    full, and a page beyond the last is empty; [has_next] tells whether
    the next page has items, and [has_previous] whether the page is not
    the first. *)
Theorem paginate_pages {A : Type} (items : list A) (page page_size : Z) :
  (1 <= page_size)%Z -> (1 <= page)%Z ->
  let r := paginate items page page_size in
  Page.items r
  = firstn (Z.to_nat page_size)
           (skipn (Z.to_nat ((page - 1) * page_size)) items)
  /\ Py.len (Page.items r)
     = Z.max 0 (Z.min page_size (Py.len items - (page - 1) * page_size))
  /\ (page <= Page.total_pages r <-> Page.items r <> [])%Z
  /\ ((page < Page.total_pages r)%Z -> Py.len (Page.items r) = page_size)
  /\ (Page.has_next r = true
      <-> Page.items (paginate items (page + 1) page_size) <> [])
  /\ (Page.has_previous r = true <-> (1 < page)%Z).
Proof.
  intros Hps Hp. cbn zeta.
  assert (Hitems : forall q, (1 <= q)%Z ->
            Page.items (paginate items q page_size)
            = firstn (Z.to_nat page_size)
                     (skipn (Z.to_nat ((q - 1) * page_size)) items)).
  { intros q Hq. unfold paginate. cbn [Page.items].
    rewrite slice_nonneg by nia. f_equal. f_equal. lia. }
  assert (Hlen : forall q, (1 <= q)%Z ->
            Py.len (Page.items (paginate items q page_size))
            = Z.max 0 (Z.min page_size
                             (Py.len items - (q - 1) * page_size))).
  { intros q Hq. rewrite (Hitems q Hq). unfold Py.len.
    rewrite length_firstn, length_skipn. nia. }
  assert (Hne : forall q, (1 <= q)%Z ->
            (Page.items (paginate items q page_size) <> []
             <-> (q - 1) * page_size < Py.len items)%Z).
  { intros q Hq. specialize (Hlen q Hq).
    destruct (Page.items (paginate items q page_size)) as [|y l].
    - unfold Py.len in Hlen at 1. cbn [List.length] in Hlen.
      split; [congruence|]. intro H. exfalso. lia.
    - unfold Py.len in Hlen at 1. cbn [List.length] in Hlen.
      split; [|congruence]. intros _. lia. }
  assert (Htp : Page.total_pages (paginate items page page_size)
                = ((Py.len items + page_size - 1) / page_size)%Z).
  { unfold paginate. cbn [Page.total_pages].
    destruct (Z.gtb_spec page_size 0); [reflexivity|lia]. }
  assert (Hnn : (0 <= Py.len items)%Z) by (unfold Py.len; lia).
  split; [now apply Hitems|]. split; [now apply Hlen|].
  split; [rewrite Htp, (Hne page Hp); now apply page_in_range|].
  split.
  { rewrite Htp, (Hlen page Hp). intro Hlt.
    destruct (total_pages_bounds Hps Hnn) as [[H1 H2]|[H1 H2]]; nia. }
  split.
  { rewrite (Hne (page + 1)%Z) by lia.
    unfold paginate. cbn [Page.has_next].
    destruct (Z.gtb_spec page_size 0); [|lia].
    rewrite Z.ltb_lt.
    rewrite <- (page_in_range (page := page + 1) Hps Hnn) by lia. lia. }
  unfold paginate. cbn [Page.has_previous]. rewrite Z.gtb_lt. lia.
Qed.

Lemma paginate_pages_witness :
  (1 <= 2)%Z /\ (1 <= 3)%Z
  /\ Page.items (paginate [10; 20; 30; 40; 50]%Z 3 2)
     = firstn (Z.to_nat 2)
              (skipn (Z.to_nat ((3 - 1) * 2)) [10; 20; 30; 40; 50]%Z)
  /\ (Page.has_previous (paginate [10; 20; 30; 40; 50]%Z 3 2) = true
      <-> (1 < 3)%Z).
Proof.
  assert (H1 : (1 <= 2)%Z) by lia. assert (H2 : (1 <= 3)%Z) by lia.
  split; [exact H1|]. split; [exact H2|].
  pose proof (@paginate_pages Z [10; 20; 30; 40; 50]%Z 3 2 H1 H2)
    as (Hi & _ & _ & _ & _ & Hp).
  split; [exact Hi|exact Hp].
Defined.

(** X16. Outside these bounds: an empty list has no page at all
    ([total_pages] is 0, so that page 1 is already beyond the last); a
    page size of 0 gives one page without items; and a negative page
    size also gives one page, whose "first page" holds all items but the
    last [-page_size]. *)
Theorem paginate_edge_cases {A : Type} :
  (forall page page_size,
      (1 <= page_size)%Z ->
      let r := paginate (@nil A) page page_size in
      Page.items r = [] /\ Page.total r = 0%Z /\ Page.total_pages r = 0%Z
      /\ Page.has_next r = (page <? 0)%Z)
  /\ (forall (items : list A) page,
        let r := paginate items page 0 in
        Page.items r = [] /\ Page.total r = Py.len items
        /\ Page.total_pages r = 1%Z)
  /\ (forall (items : list A) page_size,
        (page_size < 0)%Z ->
        let r := paginate items 1 page_size in
        Page.items r
        = firstn (Z.to_nat (Py.len items + page_size)) items
        /\ Page.total_pages r = 1%Z
        /\ Page.has_next r = false /\ Page.has_previous r = false).
Proof.
  split; [|split].
  - intros page ps Hps. cbn zeta. unfold paginate.
    cbn [Page.items Page.total Page.total_pages Page.has_next].
    destruct (Z.gtb_spec ps 0); [|lia].
    assert (Htp : ((Py.len (@nil A) + ps - 1) / ps = 0)%Z).
    { apply Z.div_small. unfold Py.len. cbn. lia. }
    rewrite Htp. repeat split.
    unfold Py.slice. now rewrite skipn_nil, firstn_nil.
  - intros items page. cbn zeta. unfold paginate.
    cbn [Page.items Page.total Page.total_pages]. repeat split.
    unfold Py.slice. rewrite Z.mul_0_r, Z.add_0_r, Z.sub_diag. reflexivity.
  - intros items ps Hps. cbn zeta. unfold paginate.
    cbn [Page.items Page.total_pages Page.has_next Page.has_previous].
    destruct (Z.gtb_spec ps 0); [lia|]. repeat split.
    unfold Py.slice, Py.clamp.
    replace ((1 - 1) * ps)%Z with 0%Z by lia. rewrite Z.add_0_l.
    change (0 <? 0)%Z with false. cbv iota.
    destruct (Z.ltb_spec ps 0); [|lia].
    assert (Hl : (0 <= Py.len items)%Z) by (unfold Py.len; lia).
    rewrite (Z.min_l 0) by lia. cbn [Z.to_nat skipn].
    f_equal. lia.
Qed.

Lemma paginate_edge_cases_witness :
  (1 <= 10)%Z /\ (-2 < 0)%Z
  /\ Page.total_pages (paginate (@nil Z) 1 10) = 0%Z
  /\ Page.items (paginate [10; 20; 30; 40; 50]%Z 1 (-2))
     = [10; 20; 30]%Z.
Proof.
  assert (H1 : (1 <= 10)%Z) by lia. assert (H2 : (-2 < 0)%Z) by lia.
  split; [exact H1|]. split; [exact H2|]. split.
  - exact (proj1 (proj2 (proj2 (proj1 (@paginate_edge_cases Z) 1%Z 10%Z H1)))).
  - exact (proj1 (proj2 (proj2 (@paginate_edge_cases Z))
                    [10; 20; 30; 40; 50]%Z (-2)%Z H2)).
Defined.

(** ** The product listing, from the store to the page *)

Lemma apply_sorting_perm {L : Py.Lower} (products : list Product.t)
  (sort_by : ProductSortBy) (order : SortOrder) :
  Permutation (apply_sorting products sort_by order) products.
Proof. destruct sort_by; apply sorted_perm. Qed.






Example list_products_example :
  let served page :=
    result_of (list_products (L := ascii_lower) (single (CategoryId 1))
                 PRICE DESC page 2) sample_db in
  ids (Page.items (served 1%Z)) = [3; 2]%Z
  /\ ids (Page.items (served 2%Z)) = [1]%Z
  /\ Page.total_pages (served 2%Z) = 2%Z.
Proof. vm_compute. repeat split; reflexivity. Qed.

(** ** Search *)

Lemma starts_with_spec (prefix s : string) :
  Str.starts_with prefix s = true
  <-> exists rest, s = (prefix ++ rest)%string.
Proof.
  revert s. induction prefix as [|a prefix IH]; intro s.
  - cbn. split; [intros _; now exists s|reflexivity].
  - destruct s as [|b s]; cbn [Str.starts_with String.append].
    + split; [discriminate|intros [rest H]; discriminate].
    + rewrite andb_true_iff, Ascii.eqb_eq, IH. split.
      * intros [-> [rest ->]]. now exists rest.
      * intros [rest [= -> ->]]. split; [reflexivity|now exists rest].
Qed.

Lemma contains_spec (needle hay : string) :
  Str.contains needle hay = true <-> occurs_in needle hay.
Proof.
  unfold occurs_in. induction hay as [|b hay IH]; cbn [Str.contains].
  - rewrite orb_false_r, starts_with_spec. split.
    + intros [rest H]. now exists EmptyString, rest.
    + intros ([|c before] & after & H); cbn [String.append] in H.
      * now exists after.
      * discriminate.
  - rewrite orb_true_iff, starts_with_spec, IH. split.
    + intros [[rest H]|(before & after & ->)].
      * now exists EmptyString, rest.
      * now exists (String b before), after.
    + intros ([|c before] & after & H); cbn [String.append] in H.
      * left. now exists after.
      * injection H as -> ->. right. now exists before, after.
Qed.

Lemma lower_ascii_idempotent (c : ascii) :
  Py.lower_ascii (Py.lower_ascii c) = Py.lower_ascii c.
Proof. destruct c as [[] [] [] [] [] [] [] []]; reflexivity. Qed.

Lemma lower_ascii_str_idempotent (s : string) :
  Py.lower_ascii_str (Py.lower_ascii_str s) = Py.lower_ascii_str s.
Proof.
  induction s as [|c s IH]; [reflexivity|].
  cbn [Py.lower_ascii_str]. now rewrite lower_ascii_idempotent, IH.
Qed.

(** X18. Whatever function [str.lower] is, [search_products] returns, in
    the order of the store, exactly the products for which the lowered
    query occurs in the lowered name or in the lowered description.
    Two queries with the same lowered form give the same result; a query
    whose lowered form is left unchanged by lowering gives the result of
    its lowered form; and, the empty string being its own lowered form,
    the empty query gives every product. *)
Theorem search_products_spec {L : Py.Lower} (db : database)
  (query : string) :
  Subseq (search_products db query) (get_all_products db)
  /\ (forall p,
        In p (search_products db query)
        <-> In p (get_all_products db)
            /\ (occurs_in (Py.lower query) (Py.lower (Product.name p))
                \/ occurs_in (Py.lower query)
                             (Py.lower (Product.description p))))
  /\ (forall query',
        Py.lower query' = Py.lower query ->
        search_products db query' = search_products db query)
  /\ (Py.lower (Py.lower query) = Py.lower query ->
      search_products db (Py.lower query) = search_products db query)
  /\ (Py.lower "" = "" ->
      search_products db "" = get_all_products db).
Proof.
  unfold search_products, get_all_products. cbn zeta.
  split; [apply filter_Subseq|]. split; [|split; [|split]].
  - intro p. rewrite filter_In, orb_true_iff, !contains_spec. reflexivity.
  - intros q' Hq. now rewrite Hq.
  - intros Hq. now rewrite Hq.
  - intros Hq. rewrite Hq. rewrite (filter_ext _ (fun _ => true)).
    + apply filter_true.
    + intro p. now destruct (Py.lower (Product.name p)).
Qed.

Lemma search_products_spec_witness :
  let search := search_products (L := ascii_lower) sample_db in
  ascii_lower "ALPHA" = ascii_lower "alpha"
  /\ ascii_lower (ascii_lower "alpha") = ascii_lower "alpha"
  /\ ascii_lower "" = ""
  /\ search "ALPHA" = search "alpha"
  /\ search (ascii_lower "alpha") = search "alpha"
  /\ search "" = get_all_products sample_db
  /\ ids (search "ALPHA") = [1]%Z
  /\ ids (search "Ta") = [2; 4]%Z.
Proof.
  cbv zeta.
  assert (H : ascii_lower "ALPHA" = ascii_lower "alpha") by reflexivity.
  assert (Hi : ascii_lower (ascii_lower "alpha") = ascii_lower "alpha")
    by apply lower_ascii_str_idempotent.
  assert (He : ascii_lower "" = "") by reflexivity.
  destruct (@search_products_spec ascii_lower sample_db "alpha")
    as (_ & _ & Hsame & Hidem & Hempty).
  split; [exact H|]. split; [exact Hi|]. split; [exact He|].
  split; [exact (Hsame "ALPHA" H)|]. split; [exact (Hidem Hi)|].
  split; [exact (Hempty He)|]. split; reflexivity.
Defined.

(** ** The store behind the handlers *)

Section StrDictFacts.
Variable V : Type.
Implicit Types (d : StrDict.t V) (k : string) (v : V).

Lemma str_get_set d k v k' :
  StrDict.get (StrDict.set d k v) k'
  = if String.eqb k k' then Some v else StrDict.get d k'.
Proof.
  induction d as [|[k0 v0] d IH]; cbn [StrDict.get StrDict.set];
    [reflexivity|].
  destruct (String.eqb_spec k0 k) as [->|Hne]; cbn [StrDict.get].
  - destruct (String.eqb k k'); reflexivity.
  - rewrite IH. destruct (String.eqb_spec k0 k') as [->|]; [|reflexivity].
    destruct (String.eqb_spec k k'); [congruence|reflexivity].
Qed.

End StrDictFacts.

Lemma same_listing_refl (p : Product.t) : same_listing p p.
Proof. repeat split. Qed.

Lemma same_listing_trans (p q r : Product.t) :
  same_listing p q -> same_listing q r -> same_listing p r.
Proof.
  unfold same_listing. intros H1 H2.
  repeat match goal with H : _ /\ _ |- _ => destruct H end.
  repeat split; congruence.
Qed.

(** [update_product_rating] writes the rating and the number of reviews
    of a product and nothing else. *)
Lemma update_product_rating_in (i : Z) (db : database) (k : Z)
  (q : Product.t) :
  In (k, q) (_products (update_product_rating i db)) ->
  exists p, In (k, p) (_products db) /\ same_listing p q.
Proof.
  unfold update_product_rating.
  destruct (negb (Dict.contains (_products db) i)).
  - intro H. exists q. split; [exact H|apply same_listing_refl].
  - cbn [_products].
    destruct (product_reviews db i); intro H; apply in_modify in H;
      (destruct H as [H|(p0 & H & ->)];
       [exists q; split; [exact H|apply same_listing_refl]
       |exists p0; split; [exact H|repeat split]]).
Qed.

Lemma update_product_rating_listing (i : Z) (db : database) (k : Z)
  (p : Product.t) :
  get_product db k = Some p ->
  exists q, get_product (update_product_rating i db) k = Some q
            /\ same_listing p q.
Proof.
  unfold update_product_rating, get_product. intro Hget.
  destruct (negb (Dict.contains (_products db) i)).
  - exists p. split; [exact Hget|apply same_listing_refl].
  - cbn [_products].
    destruct (product_reviews db i); rewrite get_modify;
      (destruct (Z.eqb_spec i k) as [->|];
       [rewrite Hget; cbn [option_map]; eexists; split;
          [reflexivity|repeat split]
       |exists p; split; [exact Hget|apply same_listing_refl]]).
Qed.

(** ** Authentication *)

Lemma seller_of_key (s : in_memory_database) (key : string)
  (seller : Seller.t) :
  table_ok Seller.id (_sellers s) (_seller_counter s) ->
  get_seller_by_api_key s key = Some seller ->
  StrDict.get (_api_keys s) key = Some (Seller.id seller)
  /\ get_seller s (Seller.id seller) = Some seller.
Proof.
  intros Hs. unfold get_seller_by_api_key, get_seller.
  destruct (StrDict.get (_api_keys s) key) as [sid|]; [|discriminate].
  destruct (Py.truthy_int sid); [|discriminate].
  intro Hget. pose proof (get_In _ _ Hget) as Hin.
  destruct Hs as (_ & _ & Hid). destruct (Hid _ _ Hin) as [_ ->].
  split; [reflexivity|exact Hget].
Qed.

Lemma get_current_seller_inv (x_api_key : option string)
  (s : in_memory_database) (seller : Seller.t) :
  Auth.get_current_seller x_api_key s = Ok seller ->
  exists key, x_api_key = Some key
              /\ db_verify_api_key s key = true
              /\ get_seller_by_api_key s key = Some seller.
Proof.
  unfold Auth.get_current_seller, Auth.verify_api_key.
  destruct x_api_key as [key|]; [|discriminate].
  destruct (db_verify_api_key s key) eqn:Ev; cbn [negb]; [|discriminate].
  destruct (get_seller_by_api_key s key) as [x|] eqn:Eg; [|discriminate].
  intros [= ->]. exists key. repeat split; assumption.
Qed.

Lemma verify_product_owner_inv (product_id : Z) (x_api_key : option string)
  (s : in_memory_database) (product : Product.t) (seller : Seller.t) :
  Auth.verify_product_owner product_id x_api_key s = Ok (product, seller) ->
  Auth.get_current_seller x_api_key s = Ok seller
  /\ get_product (tables s) product_id = Some product
  /\ Product.seller_id product = Seller.id seller.
Proof.
  unfold Auth.verify_product_owner, Auth.check_product_ownership.
  destruct (Auth.get_current_seller x_api_key s) as [x|]; [|discriminate].
  destruct (get_product (tables s) product_id) as [p|]; [|discriminate].
  destruct (Z.eqb_spec (Product.seller_id p) (Seller.id x));
    cbn [negb]; [|discriminate].
  intros [= -> ->]. repeat split. assumption.
Qed.

(** ** Consistency *)

Lemma store_ok_fresh (db : database) : store_ok db -> review_ids_fresh db.
Proof.
  intros [_ (_ & _ & Hin)] k v H. apply Hin in H. lia.
Qed.

Lemma consistent_references (s : in_memory_database) :
  store_ok (tables s) -> references_resolve s ->
  references_created (tables s).
Proof.
  intros [(_ & _ & Hp) _] (Hr & _). split.
  - intros k p H. apply get_In in H. apply Hp in H. lia.
  - intros k r H. destruct (Hr _ _ H) as [[p Hget] _].
    apply get_In in Hget. apply Hp in Hget. lia.
Qed.

Lemma apply_op_tables (op : store_op) (db : database) :
  store_ok db -> references_created db ->
  final_price_in_sync db -> ratings_in_sync db ->
  store_ok (apply_op op db) /\ final_price_in_sync (apply_op op db)
  /\ ratings_in_sync (apply_op op db).
Proof.
  intros Hok Href Hfp Hsync.
  split; [now apply apply_op_store_ok|].
  split; [now apply apply_op_final_price|].
  apply apply_op_sync_any; [exact Href|now apply store_ok_fresh|exact Hsync].
Qed.

Lemma increment_helpful_tables (i : Z) (db : database) :
  store_ok db -> final_price_in_sync db -> ratings_in_sync db ->
  let db' := fst (increment_helpful i db) in
  store_ok db' /\ final_price_in_sync db' /\ ratings_in_sync db'.
Proof.
  intros Hok Hfp Hsync. cbv zeta. unfold increment_helpful, Dict.contains.
  destruct (Dict.get (_reviews db) i) as [r|] eqn:E; cbn [fst];
    [|split; [exact Hok|split; assumption]].
  split.
  { destruct Hok as [Hp Hr]. split; [exact Hp|].
    cbn [_reviews _review_counter].
    apply table_ok_modify; [intro v; reflexivity|exact Hr]. }
  split; [exact Hfp|].
  intros k p Hget.
  assert (Hsame : forall j,
            ratings_of
              {| _products := _products db;
                 _reviews := Dict.modify (_reviews db) i add_helpful;
                 _product_counter := _product_counter db;
                 _review_counter := _review_counter db |} j
            = ratings_of db j).
  { intro j. unfold ratings_of. cbn [_reviews]. unfold Dict.modify.
    rewrite E. now apply ratings_set_same with (r := r). }
  rewrite Hsame. now apply Hsync.
Qed.

Lemma references_resolve_tables (s : in_memory_database) (db' : database) :
  references_resolve s ->
  (forall k r, In (k, r) (_reviews db') ->
     (exists p, get_product db' (Review.product_id r) = Some p)
     /\ (exists u, get_user s (Review.user_id r) = Some u)) ->
  (forall k p, In (k, p) (_products db') ->
     (exists x, get_seller s (Product.seller_id p) = Some x)
     /\ (exists c, get_category s (Product.category_id p) = Some c)) ->
  references_resolve
    {| tables := db'; _users := _users s; _sellers := _sellers s;
       _categories := _categories s; _api_keys := _api_keys s;
       _user_counter := _user_counter s;
       _seller_counter := _seller_counter s;
       _category_counter := _category_counter s |}.
Proof.
  intros (_ & _ & Hk) Hr Hp. split; [exact Hr|]. split; [exact Hp|exact Hk].
Qed.

Lemma references_create_product (s : in_memory_database)
  (d : ProductData.t) (n1 n2 : string) :
  references_resolve s ->
  (exists x, get_seller s (ProductData.seller_id d) = Some x) ->
  (exists c, get_category s (ProductData.category_id d) = Some c) ->
  references_resolve (fst (on_tables (create_product d n1 n2) s)).
Proof.
  intros Href Hx Hc. pose proof Href as (Hr & Hp & _).
  unfold on_tables. cbn [fst]. apply references_resolve_tables;
    [exact Href| |]; unfold create_product; cbn [fst _reviews _products].
  - intros k r Hin. destruct (Hr _ _ Hin) as [[p Hget] Hu].
    split; [|exact Hu]. unfold get_product in *. cbn [_products].
    rewrite get_set.
    destruct (_product_counter (tables s) + 1 =? Review.product_id r)%Z;
      eauto.
  - intros k p Hin. apply in_set in Hin.
    destruct Hin as [[= _ ->]|Hin]; [|now apply Hp with (k := k)].
    cbn [Product.seller_id Product.category_id]. now split.
Qed.

Lemma references_update_product (s : in_memory_database) (i : Z)
  (u : ProductChanges.t) (n : string) :
  references_resolve s ->
  (forall c, ProductChanges.category_id u = Some c ->
             exists x, get_category s c = Some x) ->
  references_resolve (fst (on_tables (change_product i u n) s)).
Proof.
  intros Href Hc. pose proof Href as (Hr & Hp & Hk).
  unfold on_tables. cbn [fst]. unfold change_product.
  destruct (Dict.get (_products (tables s)) i) as [p0|] eqn:E; cbn [fst].
  2:{ apply references_resolve_tables; [exact Href| |]; assumption. }
  apply references_resolve_tables; [exact Href| |]; cbn [_reviews _products].
  - intros k r Hin. destruct (Hr _ _ Hin) as [[p Hget] Hu].
    split; [|exact Hu]. unfold get_product in *. cbn [_products].
    rewrite get_set. destruct (i =? Review.product_id r)%Z; eauto.
  - intros k p Hin. apply in_set in Hin.
    destruct Hin as [[= _ ->]|Hin]; [|now apply Hp with (k := k)].
    apply get_In in E. destruct (Hp _ _ E) as [Hx Hcat].
    cbn [updated_product Product.seller_id Product.category_id].
    split; [exact Hx|].
    destruct (ProductChanges.category_id u) as [c|]; cbn [merged];
      [now apply Hc|exact Hcat].
Qed.

Lemma references_delete_product (s : in_memory_database) (i : Z) :
  references_resolve s ->
  references_resolve (fst (on_tables (delete_product i) s)).
Proof.
  intros Href. pose proof Href as (Hr & Hp & Hk).
  unfold on_tables. cbn [fst]. unfold delete_product.
  destruct (Dict.contains (_products (tables s)) i); cbn [fst].
  2:{ apply references_resolve_tables; [exact Href| |]; assumption. }
  apply references_resolve_tables; [exact Href| |]; cbn [_reviews _products].
  - intros k r Hin. unfold Dict.filter_values in Hin.
    apply filter_In in Hin. destruct Hin as [Hin Hne]. cbn [snd] in Hne.
    destruct (Hr _ _ Hin) as [[p Hget] Hu].
    split; [|exact Hu]. unfold get_product in *. cbn [_products].
    rewrite get_del.
    destruct (Z.eqb_spec i (Review.product_id r)) as [->|]; [|eauto].
    rewrite Z.eqb_refl in Hne. discriminate.
  - intros k p Hin. unfold Dict.del in Hin. apply filter_In in Hin.
    now apply Hp with (k := k).
Qed.

Lemma references_update_product_rating (s : in_memory_database) (i : Z)
  (db : database) :
  references_resolve s ->
  (forall k r, In (k, r) (_reviews db) ->
     (exists p, get_product db (Review.product_id r) = Some p)
     /\ (exists u, get_user s (Review.user_id r) = Some u)) ->
  (forall k p, In (k, p) (_products db) ->
     (exists x, get_seller s (Product.seller_id p) = Some x)
     /\ (exists c, get_category s (Product.category_id p) = Some c)) ->
  references_resolve
    {| tables := update_product_rating i db;
       _users := _users s; _sellers := _sellers s;
       _categories := _categories s; _api_keys := _api_keys s;
       _user_counter := _user_counter s;
       _seller_counter := _seller_counter s;
       _category_counter := _category_counter s |}.
Proof.
  intros Href Hr Hp. apply references_resolve_tables; [exact Href| |].
  - intros k r Hin.
    rewrite (proj1 (update_product_rating_reviews i db)) in Hin.
    destruct (Hr _ _ Hin) as [[p Hget] Hu]. split; [|exact Hu].
    destruct (update_product_rating_listing i db _ Hget) as (q & Hq & _).
    eauto.
  - intros k q Hin. apply update_product_rating_in in Hin.
    destruct Hin as (p & Hin & Hsame). destruct (Hp _ _ Hin) as [Hx Hc].
    unfold same_listing in Hsame.
    destruct Hsame as (_ & _ & _ & -> & -> & _). now split.
Qed.

Lemma references_create_review (s : in_memory_database) (d : ReviewData.t)
  (n : string) :
  references_resolve s ->
  (exists p, get_product (tables s) (ReviewData.product_id d) = Some p) ->
  (exists u, get_user s (ReviewData.user_id d) = Some u) ->
  references_resolve (fst (on_tables (create_review d n) s)).
Proof.
  intros Href Hprod Hu. pose proof Href as (Hr & Hp & Hk).
  unfold on_tables. cbn [fst]. unfold create_review. cbn [fst].
  apply references_update_product_rating; [exact Href| |];
    cbn [_reviews _products]; [|exact Hp].
  intros k r Hin. unfold get_product. cbn [_products].
  apply in_set in Hin. destruct Hin as [[= _ ->]|Hin].
  - cbn [Review.product_id Review.user_id]. now split.
  - now apply Hr with (k := k).
Qed.

Lemma references_increment_helpful (s : in_memory_database) (i : Z) :
  references_resolve s ->
  references_resolve (fst (on_tables (increment_helpful i) s)).
Proof.
  intros Href. pose proof Href as (Hr & Hp & Hk).
  unfold on_tables. cbn [fst]. unfold increment_helpful.
  destruct (Dict.contains (_reviews (tables s)) i); cbn [fst].
  2:{ apply references_resolve_tables; [exact Href| |]; assumption. }
  apply references_resolve_tables; [exact Href| |];
    cbn [_reviews _products]; [|exact Hp].
  intros k r Hin. unfold get_product. cbn [_products].
  apply in_modify in Hin. destruct Hin as [Hin|(r0 & Hin & ->)];
    [|cbn [add_helpful Review.product_id Review.user_id]];
    now apply Hr with (k := k).
Qed.

Lemma references_create_seller (s : in_memory_database) (d : SellerData.t)
  (key now : string) :
  table_ok Seller.id (_sellers s) (_seller_counter s) ->
  references_resolve s ->
  references_resolve (fst (create_seller d key now s)).
Proof.
  intros Hs (Hr & Hp & Hk). pose proof Hs as (Hc & _ & Hid).
  unfold create_seller. cbn [fst]. split; [exact Hr|]. split.
  - intros k p Hin. destruct (Hp _ _ Hin) as [[x Hx] Hcat].
    split; [|exact Hcat]. unfold get_seller in *. cbn [_sellers].
    rewrite get_set.
    destruct (_seller_counter s + 1 =? Product.seller_id p)%Z; eauto.
  - intros key' sid. unfold get_seller_by_api_key.
    cbn [_api_keys _sellers]. rewrite str_get_set.
    destruct (String.eqb key key').
    + intros [= <-]. unfold Py.truthy_int.
      destruct (Z.eqb_spec (_seller_counter s + 1) 0) as [E|_]; [lia|].
      cbn [negb]. rewrite get_set, Z.eqb_refl. eexists. split; reflexivity.
    + intro Hget. destruct (Hk _ _ Hget) as (x & Hx & Hsid).
      unfold get_seller_by_api_key in Hx. rewrite Hget in Hx.
      rewrite Hget. destruct (Py.truthy_int sid); [|discriminate].
      rewrite get_set. apply get_In in Hx as Hin. apply Hid in Hin.
      destruct (Z.eqb_spec (_seller_counter s + 1) sid); [lia|].
      exists x. now split.
Qed.

Lemma references_create_category (s : in_memory_database)
  (d : CategoryData.t) :
  references_resolve s -> references_resolve (fst (create_category d s)).
Proof.
  intros (Hr & Hp & Hk). unfold create_category. cbn [fst].
  split; [exact Hr|]. split; [|exact Hk].
  intros k p Hin. destruct (Hp _ _ Hin) as [Hx [c Hc]].
  split; [exact Hx|]. unfold get_category in *. cbn [_categories].
  rewrite get_set.
  destruct (_category_counter s + 1 =? Product.category_id p)%Z; eauto.
Qed.

Lemma references_create_user (s : in_memory_database) (d : UserData.t)
  (now : string) :
  references_resolve s -> references_resolve (fst (create_user d now s)).
Proof.
  intros (Hr & Hp & Hk). unfold create_user. cbn [fst].
  split; [|split; [exact Hp|exact Hk]].
  intros k r Hin. destruct (Hr _ _ Hin) as [Hprod [u Hu]].
  split; [exact Hprod|]. unfold get_user in *. cbn [_users].
  rewrite get_set.
  destruct (_user_counter s + 1 =? Review.user_id r)%Z; eauto.
Qed.

Lemma consistent_apply_op (s : in_memory_database) (op : store_op) :
  consistent s ->
  references_resolve
    {| tables := apply_op op (tables s);
       _users := _users s; _sellers := _sellers s;
       _categories := _categories s; _api_keys := _api_keys s;
       _user_counter := _user_counter s;
       _seller_counter := _seller_counter s;
       _category_counter := _category_counter s |} ->
  consistent
    {| tables := apply_op op (tables s);
       _users := _users s; _sellers := _sellers s;
       _categories := _categories s; _api_keys := _api_keys s;
       _user_counter := _user_counter s;
       _seller_counter := _seller_counter s;
       _category_counter := _category_counter s |}.
Proof.
  intros (Hok & Hacc & Hfp & Hsync & Href) Href'.
  destruct (@apply_op_tables op (tables s) Hok
              (consistent_references Hok Href) Hfp Hsync)
    as (H1 & H2 & H3).
  split; [exact H1|]. split; [exact Hacc|]. split; [exact H2|].
  split; [exact H3|exact Href'].
Qed.

Lemma consistent_empty : consistent empty_store.
Proof.
  split; [apply store_ok_empty|]. split.
  { unfold accounts_ok, table_ok. cbn.
    repeat match goal with |- _ /\ _ => split end;
      try apply SSorted_nil; try lia; intros k v []. }
  split; [intros k p H; discriminate|].
  split; [intros k p H; discriminate|].
  split; [intros k r []|]. split; [intros k p []|].
  intros key sid H. discriminate.
Qed.

Lemma serve_consistent (r : request) (s : in_memory_database) :
  consistent s -> consistent (serve r s).
Proof.
  intros Hs. pose proof Hs as (Hok & Hacc & Hfp & Hsync & Href).
  pose proof Hacc as (Hu & Hsel & Hcat).
  destruct r as [d key n|d|d n|product k n1 n2|i u k n|i k|i review n|i];
    cbn [serve].
  - split; [exact Hok|]. split.
    { split; [exact Hu|]. split; [|exact Hcat].
      unfold create_seller. cbn [fst _sellers _seller_counter].
      apply table_ok_set_new; [exact Hsel|reflexivity]. }
    split; [exact Hfp|]. split; [exact Hsync|].
    now apply references_create_seller.
  - split; [exact Hok|]. split.
    { split; [exact Hu|]. split; [exact Hsel|].
      unfold create_category. cbn [fst _categories _category_counter].
      apply table_ok_set_new; [exact Hcat|reflexivity]. }
    split; [exact Hfp|]. split; [exact Hsync|].
    now apply references_create_category.
  - split; [exact Hok|]. split.
    { split; [|split; [exact Hsel|exact Hcat]].
      unfold create_user. cbn [fst _users _user_counter].
      apply table_ok_set_new; [exact Hu|reflexivity]. }
    split; [exact Hfp|]. split; [exact Hsync|].
    now apply references_create_user.
  - unfold ProductsRouter.create_product.
    destruct (Auth.get_current_seller k s) as [seller|] eqn:E;
      [|exact Hs].
    destruct (get_category s (ProductCreate.category_id product))
      as [c|] eqn:Ec; [|exact Hs].
    unfold on_tables. cbn [snd].
    match goal with
    | |- context [create_product ?d n1 n2 (tables s)] =>
        apply (@consistent_apply_op s (OpCreateProduct d n1 n2) Hs);
        apply (@references_create_product s d n1 n2 Href)
    end; cbn [ProductData.seller_id ProductData.category_id]; [|eauto].
    apply get_current_seller_inv in E. destruct E as (key & _ & _ & E).
    destruct (seller_of_key _ _ Hsel E) as [_ Hget]. eauto.
  - unfold ProductsRouter.change_product.
    destruct (Auth.verify_product_owner i k s) as [own|]; [|exact Hs].
    destruct (ProductsRouter.no_field u); [exact Hs|].
    destruct (ProductChanges.category_id u) as [c|] eqn:Eu.
    + destruct (get_category s c) as [x|] eqn:Ec; [|exact Hs].
      unfold on_tables. cbn [snd].
      apply (@consistent_apply_op s (OpUpdateProduct i u n) Hs).
      apply (@references_update_product s i u n Href).
      intros c' Hc'. rewrite Eu in Hc'. injection Hc' as <-. eauto.
    + unfold on_tables. cbn [snd].
      apply (@consistent_apply_op s (OpUpdateProduct i u n) Hs).
      apply (@references_update_product s i u n Href).
      intros c' Hc'. rewrite Eu in Hc'. discriminate.
  - unfold ProductsRouter.delete_product.
    destruct (Auth.verify_product_owner i k s) as [own|]; [|exact Hs].
    unfold on_tables. cbn [snd].
    apply (@consistent_apply_op s (OpDeleteProduct i) Hs).
    apply (@references_delete_product s i Href).
  - unfold ReviewsRouter.create_review.
    destruct (get_product (tables s) i) as [p|] eqn:Ep; [|exact Hs].
    destruct (get_user s (ReviewCreate.user_id review)) as [usr|] eqn:Eu;
      [|exact Hs].
    unfold on_tables. cbn [snd].
    match goal with
    | |- context [create_review ?d n (tables s)] =>
        apply (@consistent_apply_op s (OpCreateReview d n) Hs);
        apply (@references_create_review s d n Href)
    end; cbn [ReviewData.product_id ReviewData.user_id]; eauto.
  - unfold ReviewsRouter.mark_review_helpful, on_tables.
    assert (Hs' : consistent
                    {| tables := fst (increment_helpful i (tables s));
                       _users := _users s; _sellers := _sellers s;
                       _categories := _categories s;
                       _api_keys := _api_keys s;
                       _user_counter := _user_counter s;
                       _seller_counter := _seller_counter s;
                       _category_counter := _category_counter s |}).
    { destruct (@increment_helpful_tables i (tables s) Hok Hfp Hsync)
        as (H1 & H2 & H3).
      split; [exact H1|]. split; [exact Hacc|]. split; [exact H2|].
      split; [exact H3|]. apply (@references_increment_helpful s i Href). }
    destruct (negb (snd (increment_helpful i (tables s)))); [exact Hs'|].
    match goal with
    | |- context [match ?g with Some _ => _ | None => _ end] => destruct g
    end; exact Hs'.
Qed.

Lemma serve_all_consistent (rs : list request) (s : in_memory_database) :
  consistent s -> consistent (serve_all rs s).
Proof.
  unfold serve_all. revert s.
  induction rs as [|r rs IH]; intros s Hs; cbn [fold_left]; [exact Hs|].
  apply IH, serve_consistent, Hs.
Qed.

Lemma no_key_to_update (c : ProductChanges.t) :
  ProductsRouter.no_key (to_update c) = ProductsRouter.no_field c.
Proof.
  destruct c as [a1 a2 a3 a4 a5 a6 a7 a8].
  now destruct a1, a2, a3, a4, a5, a6, a7, a8.
Qed.

(** On a body that sets no field to [null], the handler of [PUT] is
    [ProductsRouter.change_product]. *)
Lemma update_product_handler_without_none (product_id : Z)
  (c : ProductChanges.t) (x_api_key : option string) (now : string)
  (s : in_memory_database) :
  ProductsRouter.update_product product_id (to_update c) x_api_key now s
  = Responds
      (fst (ProductsRouter.change_product product_id c x_api_key now s))
      (snd (ProductsRouter.change_product product_id c x_api_key now s)).
Proof.
  unfold ProductsRouter.update_product, ProductsRouter.change_product.
  destruct (Auth.verify_product_owner product_id x_api_key s);
    [|reflexivity].
  rewrite no_key_to_update.
  destruct (ProductsRouter.no_field c); [reflexivity|].
  rewrite update_product_without_none.
  unfold to_update. cbn [ProductUpdate.category_id].
  destruct (ProductChanges.category_id c) as [k|]; cbn [of_option];
    [destruct (get_category s k)|]; reflexivity.
Qed.

(** The status of the answer when [verify_product_owner] raises. *)
Lemma verify_product_owner_status (product_id : Z)
  (x_api_key : option string) (s : in_memory_database) (code : Z)
  (detail : string) :
  Auth.verify_product_owner product_id x_api_key s
  = HTTPException code detail ->
  In code [HTTP_401_UNAUTHORIZED; HTTP_403_FORBIDDEN; HTTP_404_NOT_FOUND].
Proof.
  unfold Auth.verify_product_owner, Auth.get_current_seller,
    Auth.verify_api_key.
  destruct x_api_key as [key|]; [|intros [= <- _]; now left].
  destruct (negb (db_verify_api_key s key));
    [intros [= <- _]; right; now left|].
  destruct (get_seller_by_api_key s key) as [x|];
    [|intros [= <- _]; right; now left].
  destruct (get_product (tables s) product_id) as [q|];
    [|intros [= <- _]; right; right; now left].
  destruct (negb (Auth.check_product_ownership q x));
    [intros [= <- _]; right; now left|discriminate].
Qed.

(** Where the handler of [PUT] changes the store, it changes it as
    [ProductsRouter.change_product] does for the values of the body,
    and the body then sets no field to [null]. *)
Lemma update_product_handler_store (product_id : Z)
  (product_update : ProductUpdate.t) (x_api_key : option string)
  (now : string) (s : in_memory_database) :
  match ProductsRouter.update_product product_id product_update x_api_key
          now s with
  | Responds answer s' =>
      s' = s
      \/ holds_none product_update = false
         /\ ProductsRouter.change_product product_id (values product_update)
              x_api_key now s = (answer, s')
  | HandlerReturnsDict _ | HandlerRaisesTypeError _ =>
      holds_none product_update = true
  end.
Proof.
  destruct (holds_none product_update) eqn:Hn.
  - unfold ProductsRouter.update_product.
    destruct (Auth.verify_product_owner product_id x_api_key s);
      [|now left].
    destruct (ProductsRouter.no_key product_update); [now left|].
    destruct (match ProductUpdate.category_id product_update with
              | Unset => None
              | Null => Some "Category with ID: None not found."
              | Given c =>
                  match get_category s c with
                  | Some _ => None
                  | None => Some (category_not_found c)
                  end
              end); [now left|].
    pose proof (update_product_cases product_id product_update now
                  (tables s)) as H.
    destruct (update_product product_id product_update now (tables s))
      as [db' [q|]|stored|stored]; try reflexivity.
    + destruct H as [H _]. congruence.
    + destruct H as [_ ->]. left. now destruct s.
  - pose proof (update_product_handler_without_none product_id
                  (values product_update) x_api_key now s) as H.
    rewrite (to_update_values _ Hn) in H. rewrite H. right.
    split; [reflexivity|]. now destruct (ProductsRouter.change_product _ _ _ _ _).
Qed.

(** X20. Whatever requests are served from the empty store (the seeding
    of sellers, categories and users, the creation, the update and the
    deletion of products, the creation of reviews and the votes on
    them, each with any key and any body, the bodies of [PUT] setting no
    field to [null]), the store stays consistent: the identifiers of
    every table are the keys, in increasing order and within the
    counter; every final price is the rounded discounted price, in float
    arithmetic; the rating and the number of reviews of every product
    agree with its stored reviews; every review refers to a stored
    product and a stored user, every product to a stored seller and a
    stored category, and every API key to a stored seller.  A [PUT] on
    such a store with any body that schema [ProductUpdate] admits either
    is answered, and then leaves the store consistent, or sets a field
    to [null] and leaves a product dict with a [None], for which see
    [ProductsRouter.update_product]: the store is consistent up to
    the first such request. *)
Theorem handlers_keep_the_store_consistent (rs : list request) :
  let s := serve_all rs empty_store in
  store_ok (tables s) /\ accounts_ok s
  /\ final_price_in_sync (tables s) /\ ratings_in_sync (tables s)
  /\ references_resolve s
  /\ forall product_id product_update x_api_key now,
       match ProductsRouter.update_product product_id product_update
               x_api_key now s with
       | Responds _ s' =>
           store_ok (tables s') /\ accounts_ok s'
           /\ final_price_in_sync (tables s') /\ ratings_in_sync (tables s')
           /\ references_resolve s'
       | HandlerReturnsDict _ | HandlerRaisesTypeError _ =>
           holds_none product_update = true
       end.
Proof.
  cbv zeta.
  pose proof (serve_all_consistent rs consistent_empty) as Hs.
  set (s := serve_all rs empty_store) in *.
  pose proof Hs as (H1 & H2 & H3 & H4 & H5).
  split; [exact H1|]. split; [exact H2|]. split; [exact H3|].
  split; [exact H4|]. split; [exact H5|].
  intros i u k n.
  pose proof (update_product_handler_store i u k n s) as H.
  destruct (ProductsRouter.update_product i u k n s)
    as [answer s'|stored|stored]; [|exact H|exact H].
  destruct H as [->|[_ H]]; [exact Hs|].
  pose proof (serve_consistent (PutProduct i (values u) k n) Hs) as Hc.
  cbn [serve] in Hc. rewrite H in Hc. exact Hc.
Qed.

(** X21. In a store reached by requests, [get_current_seller] answers
    401 when no key is sent and 403 when the key is not registered, and
    otherwise gives the seller the key was registered for, a seller
    stored under its identifier; the third error, a registered key
    without seller, does not occur.  [get_optional_seller] gives the same seller,
    and [None] where [get_current_seller] raises. *)
Theorem get_current_seller_spec (rs : list request)
  (x_api_key : option string) :
  let s := serve_all rs empty_store in
  match Auth.get_current_seller x_api_key s with
  | Ok seller =>
      (exists key, x_api_key = Some key
                   /\ StrDict.get (_api_keys s) key
                      = Some (Seller.id seller))
      /\ get_seller s (Seller.id seller) = Some seller
      /\ Auth.get_optional_seller x_api_key s = Some seller
  | HTTPException code _ =>
      Auth.get_optional_seller x_api_key s = None
      /\ match x_api_key with
         | None => code = HTTP_401_UNAUTHORIZED
         | Some key =>
             code = HTTP_403_FORBIDDEN
             /\ StrDict.get (_api_keys s) key = None
         end
  end.
Proof.
  cbv zeta.
  destruct (serve_all_consistent rs consistent_empty)
    as (_ & (_ & Hsel & _) & _ & _ & (_ & _ & Hk)).
  set (s := serve_all rs empty_store) in *.
  destruct x_api_key as [key|]; [|split; reflexivity].
  unfold Auth.get_current_seller, Auth.verify_api_key,
    Auth.get_optional_seller, db_verify_api_key, StrDict.contains.
  destruct (StrDict.get (_api_keys s) key) as [sid|] eqn:E; cbn [negb].
  - destruct (Hk _ _ E) as (x & Hx & Hsid). rewrite Hx.
    destruct (seller_of_key _ _ Hsel Hx) as [H1 H2].
    split; [|split; [exact H2|reflexivity]].
    exists key. split; [reflexivity|]. now rewrite Hsid.
  - split; [reflexivity|]. split; reflexivity.
Qed.

(** X22. [create_seller] in a store reached by requests gives the seller
    the next identifier, which no stored seller has, and stores the
    seller under it; from then on the API key authenticates as this
    seller, also when the key was registered for another seller before.
    The other sellers stay as they are, and every other key
    authenticates as before. *)
Theorem create_seller_registers_the_key (rs : list request)
  (seller_data : SellerData.t) (api_key now : string) :
  let s := serve_all rs empty_store in
  let s' := fst (create_seller seller_data api_key now s) in
  let seller := snd (create_seller seller_data api_key now s) in
  Seller.id seller = (_seller_counter s + 1)%Z
  /\ Seller.name seller = SellerData.name seller_data
  /\ get_seller s (Seller.id seller) = None
  /\ get_seller s' (Seller.id seller) = Some seller
  /\ Auth.get_current_seller (Some api_key) s' = Ok seller
  /\ (forall seller_id, seller_id <> Seller.id seller ->
        get_seller s' seller_id = get_seller s seller_id)
  /\ (forall key, key <> api_key ->
        Auth.get_current_seller (Some key) s'
        = Auth.get_current_seller (Some key) s).
Proof.
  cbv zeta.
  destruct (serve_all_consistent rs consistent_empty)
    as (_ & (_ & Hsel & _) & _ & _ & (_ & _ & Hk)).
  set (s := serve_all rs empty_store) in *.
  pose proof Hsel as (Hc & _ & Hid).
  unfold create_seller. cbn [fst snd Seller.id Seller.name].
  split; [reflexivity|]. split; [reflexivity|]. split.
  { unfold get_seller.
    destruct (Dict.get (_sellers s) (_seller_counter s + 1)) as [x|] eqn:E;
      [|reflexivity].
    apply get_In in E. apply Hid in E. lia. }
  split.
  { unfold get_seller. cbn [_sellers]. now rewrite get_set, Z.eqb_refl. }
  split.
  { unfold Auth.get_current_seller, Auth.verify_api_key, db_verify_api_key,
      StrDict.contains, get_seller_by_api_key.
    cbn [_api_keys _sellers]. rewrite !str_get_set, !String.eqb_refl.
    cbn [negb]. rewrite !str_get_set, !String.eqb_refl.
    unfold Py.truthy_int.
    destruct (Z.eqb_spec (_seller_counter s + 1) 0); [lia|]. cbn [negb].
    now rewrite get_set, Z.eqb_refl. }
  split.
  { intros seller_id Hne. unfold get_seller. cbn [_sellers].
    rewrite get_set.
    destruct (Z.eqb_spec (_seller_counter s + 1) seller_id);
      [congruence|reflexivity]. }
  intros key Hne.
  unfold Auth.get_current_seller, Auth.verify_api_key, db_verify_api_key,
    StrDict.contains, get_seller_by_api_key.
  cbn [_api_keys _sellers]. rewrite str_get_set.
  destruct (String.eqb_spec api_key key); [congruence|].
  destruct (StrDict.get (_api_keys s) key) as [sid|] eqn:E; [|reflexivity].
  cbn [negb]. rewrite str_get_set.
  destruct (String.eqb_spec api_key key); [congruence|]. rewrite E.
  destruct (Hk _ _ E) as (x & Hx & Hsid).
  destruct (seller_of_key _ _ Hsel Hx) as [_ Hget].
  unfold get_seller in Hget. apply get_In in Hget. apply Hid in Hget.
  rewrite get_set.
  destruct (Z.eqb_spec (_seller_counter s + 1) sid); [lia|reflexivity].
Qed.

(** ** Ownership *)

(** X23. In a store reached by requests, a request that does not come
    with an API key of the seller of a stored product leaves that
    product in the store with the same listing: name, description,
    category, seller, prices, stock status, features, images and dates.
    Only a review changes anything of it, namely the rating and the
    number of reviews. *)
Theorem products_change_only_for_their_seller (rs : list request)
  (r : request) (product_id : Z) (p : Product.t) :
  let s := serve_all rs empty_store in
  get_product (tables s) product_id = Some p ->
  (forall seller, Auth.get_current_seller (credential r) s = Ok seller ->
                  Seller.id seller <> Product.seller_id p) ->
  exists q, get_product (tables (serve r s)) product_id = Some q
            /\ same_listing p q
            /\ match r with PostReview _ _ _ => True | _ => q = p end.
Proof.
  cbv zeta.
  destruct (serve_all_consistent rs consistent_empty)
    as (((_ & _ & Hp) & _) & _).
  set (s := serve_all rs empty_store) in *.
  intros Hget Hcred.
  assert (Hle : (product_id <= _product_counter (tables s))%Z)
    by (apply get_In in Hget; apply Hp in Hget; lia).
  assert (Hsame : exists q, get_product (tables s) product_id = Some q
                            /\ same_listing p q /\ q = p)
    by (exists p; split; [exact Hget|split;
                          [apply same_listing_refl|reflexivity]]).
  destruct r as [d key n|d|d n|product k n1 n2|i u k n|i k|i review n|i];
    cbn [serve credential] in *.
  - exact Hsame.
  - exact Hsame.
  - exact Hsame.
  - unfold ProductsRouter.create_product.
    destruct (Auth.get_current_seller k s) as [seller|]; [|exact Hsame].
    destruct (get_category s (ProductCreate.category_id product));
      [|exact Hsame].
    unfold on_tables, create_product, get_product.
    cbn [snd fst tables _products]. rewrite get_set.
    destruct (Z.eqb_spec (_product_counter (tables s) + 1) product_id);
      [lia|exact Hsame].
  - unfold ProductsRouter.change_product.
    destruct (Auth.verify_product_owner i k s) as [[p0 x]|] eqn:Ev;
      [|exact Hsame].
    apply verify_product_owner_inv in Ev. destruct Ev as (Hcur & Hp0 & Hown).
    destruct (ProductsRouter.no_field u); [exact Hsame|].
    assert (Hgoal :
              exists q,
                get_product (fst (change_product i u n (tables s)))
                            product_id = Some q
                /\ same_listing p q /\ q = p).
    { unfold change_product. unfold get_product in Hp0. rewrite Hp0.
      unfold get_product. cbn [fst _products]. rewrite get_set.
      destruct (Z.eqb_spec i product_id) as [->|]; [|exact Hsame].
      unfold get_product in Hget. rewrite Hget in Hp0.
      injection Hp0 as <-. now destruct (Hcred x Hcur). }
    destruct (ProductChanges.category_id u) as [c|];
      [destruct (get_category s c); [|exact Hsame]|]; exact Hgoal.
  - unfold ProductsRouter.delete_product.
    destruct (Auth.verify_product_owner i k s) as [[p0 x]|] eqn:Ev;
      [|exact Hsame].
    apply verify_product_owner_inv in Ev. destruct Ev as (Hcur & Hp0 & Hown).
    unfold on_tables, delete_product, Dict.contains.
    unfold get_product in Hp0. rewrite Hp0.
    unfold get_product. cbn [snd fst tables _products]. rewrite get_del.
    destruct (Z.eqb_spec i product_id) as [->|]; [|exact Hsame].
    unfold get_product in Hget. rewrite Hget in Hp0.
    injection Hp0 as <-. now destruct (Hcred x Hcur).
  - unfold ReviewsRouter.create_review.
    destruct Hsame as (q & Hq & Hs & _).
    assert (Hsame : exists q, get_product (tables s) product_id = Some q
                              /\ same_listing p q /\ True) by eauto.
    destruct (get_product (tables s) i); [|exact Hsame].
    destruct (get_user s (ReviewCreate.user_id review)); [|exact Hsame].
    unfold on_tables, create_review. cbn [snd fst tables].
    match goal with
    | |- context [update_product_rating ?j ?db] =>
        destruct (@update_product_rating_listing j db product_id p Hget)
          as (q' & Hq' & Hs')
    end.
    exists q'. split; [exact Hq'|]. split; [exact Hs'|exact I].
  - unfold ReviewsRouter.mark_review_helpful, on_tables.
    assert (Hgoal :
              exists q,
                get_product (fst (increment_helpful i (tables s)))
                            product_id = Some q
                /\ same_listing p q /\ q = p).
    { unfold increment_helpful.
      destruct (Dict.contains (_reviews (tables s)) i); exact Hsame. }
    destruct (negb (snd (increment_helpful i (tables s)))); [exact Hgoal|].
    match goal with
    | |- context [match ?g with Some _ => _ | None => _ end] => destruct g
    end; exact Hgoal.
Qed.

Lemma products_change_only_for_their_seller_witness :
  exists p seller,
    get_product (tables sample_store) 1 = Some p
    /\ Auth.get_current_seller (Some "seller_key_002") sample_store
       = Ok seller
    /\ Seller.id seller <> Product.seller_id p
    /\ exists q,
         get_product
           (tables (serve (PutProduct 1 (new_price 1) (Some "seller_key_002")
                                      t0) sample_store)) 1 = Some q
         /\ same_listing p q /\ q = p.
Proof.
  do 2 eexists. split; [vm_compute; reflexivity|].
  split; [vm_compute; reflexivity|]. split; [vm_compute; discriminate|].
  apply (@products_change_only_for_their_seller sample_requests
           (PutProduct 1 (new_price 1) (Some "seller_key_002") t0) 1).
  - vm_compute. reflexivity.
  - intros seller H. vm_compute in H. injection H as <-.
    vm_compute. discriminate.
Defined.

(** ** The handlers that write *)

(** The users, the sellers, the categories and the keys are where a
    method of the product and review tables leaves them. *)
Lemma get_current_seller_on_tables {A : Type}
  (f : database -> database * A) (s : in_memory_database)
  (x_api_key : option string) :
  Auth.get_current_seller x_api_key (fst (on_tables f s))
  = Auth.get_current_seller x_api_key s.
Proof. reflexivity. Qed.

(** X24. [POST /products] in a store reached by requests.  Without key
    the answer is 401, with a key that is not registered 403, with an
    unknown category 400, and the store is as before.  Otherwise the
    product is created under the next identifier for the seller of the
    key, with the fields of the body, no rating and the final price
    [round(price * (1 - discount_percentage / 100), 2)] of float
    arithmetic; it is found under its identifier, and the same key
    passes [verify_product_owner] for it.  (The requests that lead to
    the store are those of [request]: the bodies of [PUT] among them set
    no field to [null].) *)
Theorem create_product_handler_spec (rs : list request)
  (product : ProductCreate.t) (x_api_key : option string)
  (now1 now2 : string) :
  let s := serve_all rs empty_store in
  match ProductsRouter.create_product product x_api_key now1 now2 s with
  | (Ok created, s') =>
      (exists seller,
         Auth.get_current_seller x_api_key s = Ok seller
         /\ Product.seller_id created = Seller.id seller
         /\ Auth.verify_product_owner (Product.id created) x_api_key s'
            = Ok (created, seller))
      /\ (exists c,
            get_category s (ProductCreate.category_id product) = Some c)
      /\ Product.id created = (_product_counter (tables s) + 1)%Z
      /\ get_product (tables s) (Product.id created) = None
      /\ get_product (tables s') (Product.id created) = Some created
      /\ Product.name created = ProductCreate.name product
      /\ Product.category_id created = ProductCreate.category_id product
      /\ Product.price created = ProductCreate.price product
      /\ Product.discount_percentage created
         = ProductCreate.discount_percentage product
      /\ Product.final_price created
         = compute_final_price (ProductCreate.price product)
             (ProductCreate.discount_percentage product)
      /\ Product.average_rating created = 0%Q
      /\ Product.review_count created = 0%Z
  | (HTTPException code _, s') =>
      s' = s
      /\ (code = HTTP_401_UNAUTHORIZED /\ x_api_key = None
          \/ code = HTTP_403_FORBIDDEN
             /\ (exists key, x_api_key = Some key
                             /\ db_verify_api_key s key = false)
          \/ code = HTTP_400_BAD_REQUEST
             /\ get_category s (ProductCreate.category_id product) = None)
  end.
Proof.
  cbv zeta.
  destruct (serve_all_consistent rs consistent_empty)
    as (((_ & _ & Hp) & _) & (_ & Hsel & _) & _ & _ & (_ & _ & Hk)).
  set (s := serve_all rs empty_store) in *.
  unfold ProductsRouter.create_product.
  destruct (Auth.get_current_seller x_api_key s) as [seller|code detail]
    eqn:E.
  2:{ split; [reflexivity|]. revert E.
      unfold Auth.get_current_seller, Auth.verify_api_key.
      destruct x_api_key as [key|]; [|intros [= <- _]; now left].
      destruct (db_verify_api_key s key) eqn:Ev; cbn [negb].
      - unfold db_verify_api_key, StrDict.contains in Ev.
        destruct (StrDict.get (_api_keys s) key) as [sid|] eqn:Eg;
          [|discriminate].
        destruct (Hk _ _ Eg) as (x & -> & _). discriminate.
      - intros [= <- _]. right. left. split; [reflexivity|]. now exists key. }
  destruct (get_category s (ProductCreate.category_id product)) as [c|]
    eqn:Ec.
  2:{ split; [reflexivity|]. right. right. now split. }
  unfold on_tables, create_product.
  cbn [fst snd Product.id Product.seller_id Product.name
       Product.category_id Product.price Product.discount_percentage
       Product.final_price Product.average_rating Product.review_count
       ProductData.seller_id ProductData.name ProductData.category_id
       ProductData.price ProductData.discount_percentage tables].
  split.
  { exists seller. split; [reflexivity|]. split; [reflexivity|].
    unfold Auth.verify_product_owner.
    match goal with
    | |- context [Auth.get_current_seller x_api_key ?s'] =>
        change (Auth.get_current_seller x_api_key s')
          with (Auth.get_current_seller x_api_key s)
    end.
    rewrite E. unfold get_product. cbn [tables _products].
    rewrite get_set, Z.eqb_refl. unfold Auth.check_product_ownership.
    cbn [Product.seller_id]. now rewrite Z.eqb_refl. }
  split; [now exists c|]. split; [reflexivity|]. split.
  { unfold get_product.
    destruct (Dict.get (_products (tables s))
                       (_product_counter (tables s) + 1)) as [q|] eqn:Eq;
      [|reflexivity].
    apply get_In in Eq. apply Hp in Eq. lia. }
  split.
  { unfold get_product. cbn [_products]. now rewrite get_set, Z.eqb_refl. }
  repeat split.
Qed.

(** The handler of [PUT] for a body that sets no field to [null]. *)
Lemma change_product_handler_spec (s : in_memory_database)
  (product_id : Z) (product_update : ProductChanges.t)
  (x_api_key : option string) (now : string) :
  match ProductsRouter.change_product product_id product_update x_api_key
          now s with
  | (Ok updated, s') =>
      exists p seller,
        Auth.verify_product_owner product_id x_api_key s = Ok (p, seller)
        /\ ProductsRouter.no_field product_update = false
        /\ (forall c, ProductChanges.category_id product_update = Some c ->
                      exists x, get_category s c = Some x)
        /\ updated = Some (updated_product p product_update now)
        /\ get_product (tables s') product_id
           = Some (updated_product p product_update now)
        /\ Auth.verify_product_owner product_id x_api_key s'
           = Ok (updated_product p product_update now, seller)
        /\ (forall k, k <> product_id ->
              get_product (tables s') k = get_product (tables s) k)
        /\ _reviews (tables s') = _reviews (tables s)
  | (HTTPException code _, s') =>
      s' = s
      /\ (code = status_of (Auth.verify_product_owner product_id x_api_key s)
          /\ In code [HTTP_401_UNAUTHORIZED; HTTP_403_FORBIDDEN;
                      HTTP_404_NOT_FOUND]
          \/ code = HTTP_400_BAD_REQUEST
             /\ (ProductsRouter.no_field product_update = true
                 \/ exists c,
                      ProductChanges.category_id product_update = Some c
                      /\ get_category s c = None))
  end.
Proof.
  unfold ProductsRouter.change_product.
  destruct (Auth.verify_product_owner product_id x_api_key s)
    as [[p seller]|code detail] eqn:Ev.
  2:{ split; [reflexivity|]. left. split; [reflexivity|]. revert Ev.
      unfold Auth.verify_product_owner, Auth.get_current_seller,
        Auth.verify_api_key.
      destruct x_api_key as [key|]; [|intros [= <- _]; now left].
      destruct (negb (db_verify_api_key s key));
        [intros [= <- _]; right; now left|].
      destruct (get_seller_by_api_key s key) as [x|];
        [|intros [= <- _]; right; now left].
      destruct (get_product (tables s) product_id) as [q|];
        [|intros [= <- _]; right; right; now left].
      destruct (negb (Auth.check_product_ownership q x));
        [intros [= <- _]; right; now left|discriminate]. }
  destruct (ProductsRouter.no_field product_update) eqn:En.
  { split; [reflexivity|]. right. split; [reflexivity|now left]. }
  assert (Hok :
            forall s',
              s' = fst (on_tables (change_product product_id product_update
                                                  now) s) ->
              (forall c, ProductChanges.category_id product_update = Some c ->
                         exists x, get_category s c = Some x) ->
              exists p0 seller0,
                Ok (p, seller) = Ok (p0, seller0)
                /\ false = false
                /\ (forall c,
                      ProductChanges.category_id product_update = Some c ->
                      exists x, get_category s c = Some x)
                /\ snd (change_product product_id product_update now
                          (tables s))
                   = Some (updated_product p0 product_update now)
                /\ get_product (tables s') product_id
                   = Some (updated_product p0 product_update now)
                /\ Auth.verify_product_owner product_id x_api_key s'
                   = Ok (updated_product p0 product_update now, seller0)
                /\ (forall k, k <> product_id ->
                      get_product (tables s') k = get_product (tables s) k)
                /\ _reviews (tables s') = _reviews (tables s)).
  { intros s' -> Hcat. exists p, seller.
    apply verify_product_owner_inv in Ev. destruct Ev as (Hcur & Hp & Hown).
    unfold get_product in Hp.
    split; [reflexivity|]. split; [reflexivity|]. split; [exact Hcat|].
    unfold on_tables, change_product. rewrite Hp.
    cbn [fst snd tables _reviews].
    split; [reflexivity|]. split.
    { unfold get_product. cbn [_products].
      now rewrite get_set, Z.eqb_refl. }
    split.
    { unfold Auth.verify_product_owner.
      match goal with
      | |- context [Auth.get_current_seller x_api_key ?s'] =>
          change (Auth.get_current_seller x_api_key s')
            with (Auth.get_current_seller x_api_key s)
      end.
      rewrite Hcur. unfold get_product. cbn [tables _products].
      rewrite get_set, Z.eqb_refl. unfold Auth.check_product_ownership.
      cbn [updated_product Product.seller_id]. rewrite Hown.
      now rewrite Z.eqb_refl. }
    split; [|reflexivity].
    intros k Hne. unfold get_product. cbn [_products]. rewrite get_set.
    destruct (Z.eqb_spec product_id k); [congruence|reflexivity]. }
  destruct (ProductChanges.category_id product_update) as [c|] eqn:Ec.
  - destruct (get_category s c) as [x|] eqn:Ex.
    + apply Hok; [reflexivity|]. intros c' [= <-]. now exists x.
    + split; [reflexivity|]. right. split; [reflexivity|]. right.
      exists c. now split.
  - apply Hok; [reflexivity|]. intros c' H. discriminate.
Qed.

(** X25. [PUT /products/{product_id}], for every body that schema
    [ProductUpdate] admits.  The handler answers 401, 403 or 404 as
    [verify_product_owner] does, and 400 when the body sets no field,
    when it names a category that is not stored, and when its category
    is [null]; the store is then as before.  Otherwise the dict of the
    product is updated.  When the body sets no field to [null], the
    answer is the stored product after the update, never [None]; the
    seller is the same, so that the same key passes
    [verify_product_owner] again, and the other products and all reviews
    are untouched.  When the body sets a field to [null], the stored
    dict gets that [None] and is no product any more: with [null] as
    price or discount, [TypeError] is raised and the final price is the
    one of before the request; with [null] elsewhere, the final price is
    computed and the dict with the [None] is returned. *)
Theorem update_product_handler_spec (s : in_memory_database)
  (product_id : Z) (product_update : ProductUpdate.t)
  (x_api_key : option string) (now : string) :
  match ProductsRouter.update_product product_id product_update x_api_key
          now s with
  | Responds (Ok updated) s' =>
      exists p seller,
        Auth.verify_product_owner product_id x_api_key s = Ok (p, seller)
        /\ ProductsRouter.no_key product_update = false
        /\ holds_none product_update = false
        /\ (forall c, ProductUpdate.category_id product_update = Given c ->
                      exists x, get_category s c = Some x)
        /\ updated = Some (updated_product p (values product_update) now)
        /\ updated_keys p product_update now
             (to_dict (updated_product p (values product_update) now))
        /\ get_product (tables s') product_id
           = Some (updated_product p (values product_update) now)
        /\ Auth.verify_product_owner product_id x_api_key s'
           = Ok (updated_product p (values product_update) now, seller)
        /\ (forall k, k <> product_id ->
              get_product (tables s') k = get_product (tables s) k)
        /\ _reviews (tables s') = _reviews (tables s)
  | Responds (HTTPException code _) s' =>
      s' = s
      /\ (code = status_of (Auth.verify_product_owner product_id x_api_key s)
          /\ In code [HTTP_401_UNAUTHORIZED; HTTP_403_FORBIDDEN;
                      HTTP_404_NOT_FOUND]
          \/ code = HTTP_400_BAD_REQUEST
             /\ (ProductsRouter.no_key product_update = true
                 \/ ProductUpdate.category_id product_update = Null
                 \/ exists c,
                      ProductUpdate.category_id product_update = Given c
                      /\ get_category s c = None))
  | HandlerReturnsDict stored =>
      exists p seller,
        Auth.verify_product_owner product_id x_api_key s = Ok (p, seller)
        /\ holds_none product_update = true
        /\ updated_keys p product_update now stored
        /\ to_product stored = None
        /\ exists price discount,
             ProductDict.price stored = Some price
             /\ ProductDict.discount_percentage stored = Some discount
             /\ ProductDict.final_price stored
                = compute_final_price price discount
  | HandlerRaisesTypeError stored =>
      exists p seller,
        Auth.verify_product_owner product_id x_api_key s = Ok (p, seller)
        /\ (ProductUpdate.price product_update = Null
            \/ ProductUpdate.discount_percentage product_update = Null)
        /\ updated_keys p product_update now stored
        /\ to_product stored = None
        /\ ProductDict.final_price stored = Product.final_price p
  end.
Proof.
  destruct (holds_none product_update) eqn:Hn.
  - unfold ProductsRouter.update_product.
    destruct (Auth.verify_product_owner product_id x_api_key s)
      as [[p seller]|code detail] eqn:Ev.
    2:{ split; [reflexivity|]. left. split; [reflexivity|].
        exact (verify_product_owner_status _ _ _ Ev). }
    destruct (ProductsRouter.no_key product_update) eqn:En.
    { split; [reflexivity|]. right. split; [reflexivity|now left]. }
    destruct (match ProductUpdate.category_id product_update with
              | Unset => None
              | Null => Some "Category with ID: None not found."
              | Given c =>
                  match get_category s c with
                  | Some _ => None
                  | None => Some (category_not_found c)
                  end
              end) as [detail|] eqn:Ec.
    { split; [reflexivity|]. right. split; [reflexivity|]. right.
      destruct (ProductUpdate.category_id product_update) as [| |c];
        [discriminate|now left|].
      right. exists c. split; [reflexivity|].
      now destruct (get_category s c). }
    apply verify_product_owner_inv in Ev. destruct Ev as (Hcur & Hp & Hown).
    pose proof (update_product_cases product_id product_update now
                  (tables s)) as H.
    destruct (update_product product_id product_update now (tables s))
      as [db' [q|]|stored|stored].
    + destruct H as [H _]. congruence.
    + destruct H as [H _]. congruence.
    + destruct H as (_ & old & price & discount & Hold & Hpr & Hd & ->).
      rewrite Hp in Hold. injection Hold as <-.
      exists p, seller. split; [reflexivity|]. split; [reflexivity|].
      split; [apply updated_keys_dict_update|]. split.
      { destruct (to_product _) as [q|] eqn:Et; [|reflexivity].
        exfalso. apply to_product_some in Et.
        cbn [set_final_price dict_update ProductDict.name
             ProductDict.description ProductDict.category_id
             ProductDict.stock_status ProductDict.features
             ProductDict.images] in Et.
        destruct Et as (H1 & H2 & H3 & H6 & H7 & H8).
        unfold holds_none in Hn.
        rewrite (assigned_some _ _ H1), (assigned_some _ _ H2),
          (assigned_some _ _ H3), (assigned_some _ _ Hpr),
          (assigned_some _ _ Hd), (assigned_some _ _ H6),
          (assigned_some _ _ H7), (assigned_some _ _ H8) in Hn.
        discriminate. }
      exists price, discount.
      cbn [set_final_price dict_update ProductDict.price
           ProductDict.discount_percentage ProductDict.final_price].
      repeat split; assumption.
    + destruct H as (Hnull & old & Hold & ->).
      rewrite Hp in Hold. injection Hold as <-.
      exists p, seller. split; [reflexivity|]. split; [exact Hnull|].
      split; [apply (updated_keys_dict_update p product_update now 0)|].
      split; [|reflexivity].
      unfold to_product.
      cbn [dict_update ProductDict.name ProductDict.description
           ProductDict.category_id ProductDict.price
           ProductDict.discount_percentage].
      destruct Hnull as [-> | ->]; cbn [assigned];
        repeat match goal with
               | |- context [match ?x with Some _ => _ | None => _ end] =>
                   destruct x
               end; reflexivity.
  - pose proof (update_product_handler_without_none product_id
                  (values product_update) x_api_key now s) as H.
    rewrite (to_update_values _ Hn) in H. rewrite H. clear H.
    pose proof (@change_product_handler_spec s product_id
                  (values product_update) x_api_key now) as H.
    destruct (ProductsRouter.change_product product_id
                (values product_update) x_api_key now s)
      as [[updated|code detail] s']; cbn [fst snd].
    + destruct H as (p & seller & Hv & Hnf & Hcat & Hu & Hget & Hv' & Hk
                     & Hr).
      exists p, seller. split; [exact Hv|].
      split.
      { rewrite <- (to_update_values _ Hn). now rewrite no_key_to_update. }
      split; [reflexivity|]. split.
      { intros c Hc. apply Hcat. unfold values.
        cbn [ProductChanges.category_id]. now rewrite Hc. }
      split; [exact Hu|].
      split; [now apply updated_keys_updated_product|].
      repeat split; assumption.
    + destruct H as [-> H]. split; [reflexivity|].
      destruct H as [H|[-> H]]; [now left|right].
      split; [reflexivity|].
      destruct H as [H|(c & Hc & Hx)].
      * left. rewrite <- (to_update_values _ Hn).
        now rewrite no_key_to_update.
      * right. right. exists c. split; [|exact Hx].
        unfold values in Hc. cbn [ProductChanges.category_id] in Hc.
        now destruct (ProductUpdate.category_id product_update)
          as [| |c']; [discriminate|discriminate|injection Hc as ->].
Qed.

(** X26. [DELETE /products/{product_id}].  The store changes only when
    [verify_product_owner] passes; every other request is answered with
    401, 403 or 404 and the store is as before.  After a deletion the
    product and its reviews are gone and the other products and their
    reviews are as before; the same request once more is answered 404
    and changes nothing, and so is a request for the statistics of the
    product's reviews. *)
Theorem delete_product_handler_spec (s : in_memory_database)
  (product_id : Z) (x_api_key : option string) :
  match ProductsRouter.delete_product product_id x_api_key s with
  | (Ok message, s') =>
      (exists p seller,
         Auth.verify_product_owner product_id x_api_key s = Ok (p, seller))
      /\ MessageResponse.success message = true
      /\ get_product (tables s') product_id = None
      /\ get_reviews_by_product (tables s') product_id = []
      /\ (forall k, k <> product_id ->
            get_product (tables s') k = get_product (tables s) k
            /\ get_reviews_by_product (tables s') k
               = get_reviews_by_product (tables s) k)
      /\ status_of (fst (ProductsRouter.delete_product product_id x_api_key
                           s')) = HTTP_404_NOT_FOUND
      /\ snd (ProductsRouter.delete_product product_id x_api_key s') = s'
      /\ status_of (ReviewsRouter.get_review_stats product_id s')
         = HTTP_404_NOT_FOUND
  | (HTTPException code _, s') =>
      s' = s
      /\ code = status_of (Auth.verify_product_owner product_id x_api_key s)
      /\ In code [HTTP_401_UNAUTHORIZED; HTTP_403_FORBIDDEN;
                  HTTP_404_NOT_FOUND]
  end.
Proof.
  unfold ProductsRouter.delete_product.
  destruct (Auth.verify_product_owner product_id x_api_key s)
    as [[p seller]|code detail] eqn:Ev.
  2:{ split; [reflexivity|]. split; [reflexivity|]. revert Ev.
      unfold Auth.verify_product_owner, Auth.get_current_seller,
        Auth.verify_api_key.
      destruct x_api_key as [key|]; [|intros [= <- _]; now left].
      destruct (negb (db_verify_api_key s key));
        [intros [= <- _]; right; now left|].
      destruct (get_seller_by_api_key s key) as [x|];
        [|intros [= <- _]; right; now left].
      destruct (get_product (tables s) product_id) as [q|];
        [|intros [= <- _]; right; right; now left].
      destruct (negb (Auth.check_product_ownership q x));
        [intros [= <- _]; right; now left|discriminate]. }
  apply verify_product_owner_inv in Ev. destruct Ev as (Hcur & Hp & Hown).
  unfold get_product in Hp.
  unfold on_tables, delete_product, Dict.contains. rewrite Hp.
  cbn [fst snd MessageResponse.success].
  split; [now exists p, seller|]. split; [reflexivity|].
  unfold get_product, get_reviews_by_product. cbn [tables _products _reviews].
  split; [now rewrite get_del, Z.eqb_refl|].
  split; [now rewrite reviews_without, Z.eqb_refl|].
  split.
  { intros k Hk. rewrite get_del, reviews_without.
    destruct (Z.eqb_spec product_id k); [congruence|].
    destruct (Z.eqb_spec k product_id); [congruence|]. now split. }
  assert (Hgone :
            forall s',
              Auth.get_current_seller x_api_key s' = Ok seller ->
              get_product (tables s') product_id = None ->
              Auth.verify_product_owner product_id x_api_key s'
              = HTTPException HTTP_404_NOT_FOUND
                  (product_not_found product_id)).
  { intros s' H1 H2. unfold Auth.verify_product_owner.
    now rewrite H1, H2. }
  match goal with
  | |- context [Auth.verify_product_owner product_id x_api_key ?s'] =>
      rewrite (Hgone s' Hcur)
        by (unfold get_product; cbn [tables _products];
            now rewrite get_del, Z.eqb_refl)
  end.
  cbn [fst snd status_of]. split; [reflexivity|]. split; [reflexivity|].
  unfold ReviewsRouter.get_review_stats, get_product.
  cbn [tables _products]. now rewrite get_del, Z.eqb_refl.
Qed.

(** ** Reviews *)

(** X27. [POST /products/{product_id}/reviews] in a store reached by
    requests.  When the product or the user is not stored the answer is
    404 and the store is as before.  Otherwise the review is stored
    under the next identifier as the last review of the product, and is
    returned with the name of its user; the product keeps its listing,
    counts one review more, and its rating is the mean of the ratings of
    its reviews, the new one included, as [round(sum / len, 2)] gives it
    in float arithmetic.  (The requests that lead to the store are those
    of [request]: the bodies of [PUT] among them set no field to
    [null].) *)
Theorem create_review_handler_spec (rs : list request) (product_id : Z)
  (review : ReviewCreate.t) (now : string) :
  let s := serve_all rs empty_store in
  match ReviewsRouter.create_review product_id review now s with
  | (Ok (created, user_name), s') =>
      exists p u p',
        get_product (tables s) product_id = Some p
        /\ get_user s (ReviewCreate.user_id review) = Some u
        /\ user_name = User.name u
        /\ Review.id created = (_review_counter (tables s) + 1)%Z
        /\ Review.product_id created = product_id
        /\ Review.user_id created = ReviewCreate.user_id review
        /\ Review.rating created = ReviewCreate.rating review
        /\ Review.helpful_count created = 0%Z
        /\ get_reviews_by_product (tables s') product_id
           = get_reviews_by_product (tables s) product_id ++ [created]
        /\ get_product (tables s') product_id = Some p'
        /\ same_listing p p'
        /\ Product.review_count p' = (Product.review_count p + 1)%Z
        /\ (Product.average_rating p'
            == mean_rating
                 (map Review.rating
                      (get_reviews_by_product (tables s') product_id)))%Q
  | (HTTPException code detail, s') =>
      s' = s /\ code = HTTP_404_NOT_FOUND
      /\ (get_product (tables s) product_id = None
          /\ detail = product_not_found product_id
          \/ get_user s (ReviewCreate.user_id review) = None
             /\ detail = user_not_found (ReviewCreate.user_id review))
  end.
Proof.
  cbv zeta.
  pose proof (serve_all_consistent rs consistent_empty) as Hs.
  set (s := serve_all rs empty_store) in *.
  pose proof (serve_consistent (PostReview product_id review now) Hs)
    as (_ & _ & _ & Hsync' & _).
  destruct Hs as (Hok & _ & _ & Hsync & _).
  cbn [serve] in Hsync'. revert Hsync'.
  unfold ReviewsRouter.create_review.
  destruct (get_product (tables s) product_id) as [p|] eqn:Ep.
  2:{ intros _. split; [reflexivity|]. split; [reflexivity|]. now left. }
  destruct (get_user s (ReviewCreate.user_id review)) as [u|] eqn:Eu.
  2:{ intros _. split; [reflexivity|]. split; [reflexivity|]. now right. }
  unfold on_tables, create_review.
  cbn [fst snd tables Review.id Review.product_id Review.user_id
       Review.rating Review.helpful_count ReviewData.product_id
       ReviewData.user_id ReviewData.rating].
  match goal with
  | |- context [update_product_rating product_id ?db] => set (db1 := db)
  end.
  intro Hsync'.
  assert (Hrev : get_reviews_by_product (update_product_rating product_id db1)
                                        product_id
                 = get_reviews_by_product (tables s) product_id
                   ++ [snd (create_review
                              {| ReviewData.product_id := product_id;
                                 ReviewData.user_id :=
                                   ReviewCreate.user_id review;
                                 ReviewData.rating :=
                                   ReviewCreate.rating review;
                                 ReviewData.title :=
                                   ReviewCreate.title review;
                                 ReviewData.comment :=
                                   ReviewCreate.comment review;
                                 ReviewData.pros := ReviewCreate.pros review;
                                 ReviewData.cons := ReviewCreate.cons review
                              |} now (tables s))]).
  { unfold get_reviews_by_product.
    rewrite (proj1 (update_product_rating_reviews product_id db1)).
    unfold db1. cbn [_reviews]. rewrite set_fresh.
    - rewrite values_app, filter_app. cbn [Dict.values map snd filter].
      unfold create_review. cbn [snd Review.product_id].
      now rewrite Z.eqb_refl.
    - intros k' v' Hin. apply (store_ok_fresh Hok) in Hin. lia. }
  destruct (@update_product_rating_listing product_id db1 product_id p Ep)
    as (p' & Hp' & Hsame).
  exists p, u, p'.
  do 8 (split; [reflexivity|]).
  split; [exact Hrev|]. split; [exact Hp'|]. split; [exact Hsame|].
  destruct (Hsync' _ _ Hp') as [Havg Hcount].
  destruct (Hsync _ _ Ep) as [_ Hcount0].
  unfold ratings_of in *.
  change (filter (fun r => (Review.product_id r =? product_id)%Z)
                 (Dict.values (_reviews (update_product_rating product_id
                                                               db1))))
    with (get_reviews_by_product (update_product_rating product_id db1)
                                 product_id) in *.
  split; [|exact Havg].
  rewrite Hcount, Hcount0, Hrev, !length_map, length_app.
  unfold get_reviews_by_product. cbn [List.length]. lia.
Qed.

(** ** The statistics of the reviews *)

Lemma str_int_inj (a b : Z) : str_int a = str_int b -> a = b.
Proof.
  unfold str_int. intro H. apply DecimalZ.to_int_inj.
  assert (Hi : forall z,
             NilZero.int_of_string (NilZero.string_of_int (Z.to_int z))
             = Some (Z.to_int z)).
  { intro z. apply NilZero.isi; destruct z; cbn; try discriminate;
      intros [= E]; now apply (Unsigned.to_uint_nonnil p). }
  pose proof (Hi a) as Ha. rewrite H, Hi in Ha. now injection Ha.
Qed.

Lemma str_int_eqb (a b : Z) :
  String.eqb (str_int a) (str_int b) = (a =? b)%Z.
Proof.
  destruct (String.eqb_spec (str_int a) (str_int b)) as [E|E];
    destruct (Z.eqb_spec a b) as [H|H]; try reflexivity.
  - now apply str_int_inj in E.
  - now subst.
Qed.

Lemma str_keys_set_present {V : Type} (d : StrDict.t V) (k : string)
  (v v0 : V) :
  StrDict.get d k = Some v0 -> map fst (StrDict.set d k v) = map fst d.
Proof.
  induction d as [|[k1 v1] d IH]; cbn [StrDict.get StrDict.set];
    [discriminate|].
  destruct (String.eqb_spec k1 k) as [->|]; [reflexivity|].
  intro H. cbn [map fst]. now rewrite IH.
Qed.

Lemma sum_cons (x : Z) (l : list Z) : Py.sum (x :: l) = (x + Py.sum l)%Z.
Proof. now rewrite !sum_fold_right. Qed.

Lemma len_filter_cons {A : Type} (f : A -> bool) (x : A) (l : list A) :
  Py.len (filter f (x :: l))
  = ((if f x then 1 else 0) + Py.len (filter f l))%Z.
Proof.
  unfold Py.len. cbn [filter]. destruct (f x); cbn [List.length]; lia.
Qed.

(** The loop of [get_review_stats]: the keys of the distribution stay,
    the value of a key grows by the number of reviews whose rating is
    written as the key. *)
Lemma stats_fold (reviews : list Review.t) (dist : StrDict.t Z)
  (total positive : Z) :
  exists dist',
    fold_left stats_step reviews (dist, total, positive)
    = (dist', (total + Py.sum (map Review.rating reviews))%Z,
       (positive
        + Py.len (filter (fun r => (4 <=? Review.rating r)%Z) reviews))%Z)
    /\ map fst dist' = map fst dist
    /\ forall key,
         StrDict.get dist' key
         = option_map
             (fun n =>
                (n + Py.len (filter (fun r =>
                                       String.eqb (str_int (Review.rating r))
                                                  key) reviews))%Z)
             (StrDict.get dist key).
Proof.
  revert dist total positive.
  induction reviews as [|r reviews IH]; intros dist total positive.
  - exists dist. cbn [fold_left map filter]. unfold Py.sum, Py.len.
    cbn [fold_left List.length]. rewrite !Z.add_0_r.
    split; [reflexivity|]. split; [reflexivity|].
    intro key. destruct (StrDict.get dist key); cbn [option_map];
      [|reflexivity]. now rewrite Z.add_0_r.
  - cbn [fold_left]. unfold stats_step at 2.
    match goal with
    | |- context [fold_left stats_step reviews (?d, ?t, ?p)] =>
        destruct (IH d t p) as (dist' & Hfold & Hkeys & Hget)
    end.
    exists dist'. rewrite Hfold. cbn [map].
    rewrite sum_cons, len_filter_cons. split.
    { f_equal; [f_equal; lia|].
      destruct (4 <=? Review.rating r)%Z; lia. }
    split.
    { rewrite Hkeys.
      destruct (StrDict.get dist (str_int (Review.rating r))) as [n|] eqn:E;
        [|reflexivity].
      now apply str_keys_set_present with (v0 := n). }
    intro key. rewrite Hget, len_filter_cons.
    destruct (StrDict.get dist (str_int (Review.rating r))) as [n|] eqn:E.
    + rewrite str_get_set.
      destruct (String.eqb_spec (str_int (Review.rating r)) key) as [<-|].
      * rewrite E. cbn [option_map]. f_equal. lia.
      * destruct (StrDict.get dist key); cbn [option_map]; [|reflexivity].
        f_equal.
    + destruct (String.eqb_spec (str_int (Review.rating r)) key) as [<-|].
      * now rewrite E.
      * destruct (StrDict.get dist key); cbn [option_map]; [|reflexivity].
        f_equal.
Qed.

Lemma percentage_bounds (positive total : Z) :
  (0 <= positive <= total)%Z -> (0 < total)%Z ->
  (0 <= Py.round (Py.fmul (Py.truediv positive total) 100) 1 <= 100)%Q.
Proof.
  intros Hp Ht.
  assert (Ht' : (0 < inject_Z total)%Q)
    by (change 0%Q with (inject_Z 0); now rewrite <- Zlt_Qlt).
  assert (H0 : (0 <= inject_Z positive / inject_Z total)%Q).
  { apply Qle_shift_div_l; [exact Ht'|]. rewrite Qmult_0_l.
    change 0%Q with (inject_Z 0). rewrite <- Zle_Qle. lia. }
  assert (H1 : (inject_Z positive / inject_Z total <= 1)%Q).
  { apply Qle_shift_div_r; [exact Ht'|]. rewrite Qmult_1_l.
    rewrite <- Zle_Qle. lia. }
  pose proof (float_mono _ _ H0) as H0'.
  pose proof (float_mono _ _ H1) as H1'.
  change (Py.float 0) with 0%Q in H0'. change (Py.float 1) with 1%Q in H1'.
  fold (Py.truediv positive total) in H0', H1'.
  set (q := Py.truediv positive total) in *.
  assert (H0m : (0 <= q * 100)%Q) by lra.
  assert (H1m : (q * 100 <= 100)%Q) by lra.
  pose proof (float_mono _ _ H0m) as Hlo.
  pose proof (float_mono _ _ H1m) as Hhi.
  change (Py.float 0) with 0%Q in Hlo.
  change (Py.float 100) with 100%Q in Hhi.
  fold (Py.fmul q 100) in Hlo, Hhi.
  split.
  - rewrite <- (round_0 1). now apply round_mono.
  - assert (E : Py.round 100 1 = 100%Q) by reflexivity.
    rewrite <- E at 2. now apply round_mono.
Qed.

Lemma empty_distribution_get (k : Z) :
  (1 <= k <= 5)%Z -> StrDict.get empty_distribution (str_int k) = Some 0%Z.
Proof.
  intro Hk.
  assert (H : (k = 1 \/ k = 2 \/ k = 3 \/ k = 4 \/ k = 5)%Z) by lia.
  destruct H as [->|[->|[->|[->| ->]]]]; reflexivity.
Qed.

(** X28. [GET /products/{product_id}/reviews/stats] in a store reached
    by requests answers 404 for a product that is not stored.  For a
    stored product the number of reviews and the average are those kept
    with the product; the distribution has the keys 5 to 1, each with
    the number of reviews of the product with that rating; the share of
    the ratings of 4 and more is [round(positive / total * 100, 1)] in
    float arithmetic, lies between 0 and 100, and is 0 without reviews.
    (The requests that lead to the store are those of [request]: the
    bodies of [PUT] among them set no field to [null].) *)
Theorem get_review_stats_spec (rs : list request) (product_id : Z) :
  let s := serve_all rs empty_store in
  let reviews := get_reviews_by_product (tables s) product_id in
  match get_product (tables s) product_id with
  | None =>
      ReviewsRouter.get_review_stats product_id s
      = HTTPException HTTP_404_NOT_FOUND (product_not_found product_id)
  | Some p =>
      exists stats,
        ReviewsRouter.get_review_stats product_id s = Ok stats
        /\ ReviewStats.product_id stats = product_id
        /\ ReviewStats.total_reviews stats = Py.len reviews
        /\ ReviewStats.total_reviews stats = Product.review_count p
        /\ (ReviewStats.average_rating stats == Product.average_rating p)%Q
        /\ map fst (ReviewStats.rating_distribution stats)
           = ["5"; "4"; "3"; "2"; "1"]
        /\ (forall k, (1 <= k <= 5)%Z ->
              StrDict.get (ReviewStats.rating_distribution stats) (str_int k)
              = Some (count_rating reviews k))
        /\ (0 <= ReviewStats.recommendation_percentage stats <= 100)%Q
        /\ (ReviewStats.recommendation_percentage stats
            == if (Py.len reviews =? 0)%Z then 0
               else Py.round
                      (Py.fmul
                         (Py.truediv
                            (Py.len (filter
                                       (fun r => (4 <=? Review.rating r)%Z)
                                       reviews))
                            (Py.len reviews)) 100) 1)%Q
  end.
Proof.
  cbv zeta.
  destruct (serve_all_consistent rs consistent_empty)
    as (_ & _ & _ & Hsync & _).
  set (s := serve_all rs empty_store) in *.
  unfold ReviewsRouter.get_review_stats.
  destruct (get_product (tables s) product_id) as [p|] eqn:Ep;
    [|reflexivity].
  destruct (Hsync _ _ Ep) as [Havg Hcount]. unfold ratings_of in *.
  change (filter (fun r => (Review.product_id r =? product_id)%Z)
                 (Dict.values (_reviews (tables s))))
    with (get_reviews_by_product (tables s) product_id) in *.
  remember (get_reviews_by_product (tables s) product_id) as reviews
    eqn:Er.
  clear Er. rewrite length_map in Hcount.
  destruct (Z.eqb_spec (Py.len reviews) 0) as [E0|E0].
  - assert (reviews = []) as ->
        by (destruct reviews; [reflexivity|discriminate]).
    eexists. split; [reflexivity|].
    cbn [ReviewStats.product_id ReviewStats.total_reviews
         ReviewStats.average_rating ReviewStats.rating_distribution
         ReviewStats.recommendation_percentage].
    split; [reflexivity|]. split; [reflexivity|].
    split; [now rewrite Hcount|]. split; [now rewrite Havg|].
    split; [reflexivity|]. split; [exact empty_distribution_get|].
    split; [split; discriminate|reflexivity].
  - destruct (stats_fold reviews empty_distribution 0 0)
      as (dist' & Hfold & Hkeys & Hget).
    rewrite Hfold. eexists. split; [reflexivity|].
    cbn [ReviewStats.product_id ReviewStats.total_reviews
         ReviewStats.average_rating ReviewStats.rating_distribution
         ReviewStats.recommendation_percentage].
    rewrite !Z.add_0_l.
    split; [reflexivity|]. split; [reflexivity|].
    split; [now rewrite Hcount|]. split.
    { rewrite Havg. destruct reviews as [|r0 l]; [now destruct E0|].
      unfold mean_rating. cbn [map].
      rewrite <- sum_fold_right. unfold Py.len. cbn [List.length map].
      rewrite length_map. reflexivity. }
    split; [exact Hkeys|]. split.
    { intros k Hk. rewrite Hget, (empty_distribution_get Hk).
      cbn [option_map]. rewrite Z.add_0_l. unfold count_rating.
      f_equal. f_equal. apply filter_ext. intro r. apply str_int_eqb. }
    split; [|reflexivity].
    apply percentage_bounds.
    + unfold Py.len. split; [lia|].
      apply inj_le, filter_length_le.
    + unfold Py.len in *. lia.
Qed.

(** ** Categories *)

Lemma sum_map_add {A : Type} (f g : A -> Z) (l : list A) :
  Py.sum (map (fun c => (f c + g c)%Z) l)
  = (Py.sum (map f l) + Py.sum (map g l))%Z.
Proof.
  rewrite !sum_fold_right.
  induction l as [|x l IH]; cbn [map fold_right]; lia.
Qed.

Lemma sum_indicator (ids : list Z) (a : Z) :
  NoDup ids ->
  Py.sum (map (fun c => if (a =? c)%Z then 1%Z else 0%Z) ids)
  = if in_dec Z.eq_dec a ids then 1%Z else 0%Z.
Proof.
  rewrite sum_fold_right.
  induction 1 as [|x l Hx Hnd IH]; cbn [map fold_right]; [reflexivity|].
  rewrite IH. destruct (Z.eqb_spec a x) as [->|Hne].
  - destruct (in_dec Z.eq_dec x l) as [Hin|_]; [now destruct Hx|].
    destruct (in_dec Z.eq_dec x (x :: l)) as [_|Hn]; [reflexivity|].
    destruct Hn. now left.
  - destruct (in_dec Z.eq_dec a l) as [Hin|Hn];
      destruct (in_dec Z.eq_dec a (x :: l)) as [Hin'|Hn']; try reflexivity.
    + destruct Hn'. now right.
    + destruct Hin' as [->|Hin']; [now destruct Hne|now destruct Hn].
Qed.

(** Products whose category is one of a duplicate-free list of
    categories are counted exactly once by the counts of the list. *)
Lemma counts_partition (ids : list Z) (products : list Product.t) :
  NoDup ids ->
  (forall p, In p products -> In (Product.category_id p) ids) ->
  Py.sum
    (map (fun c =>
            Py.len (filter (fun p => (Product.category_id p =? c)%Z)
                           products)) ids)
  = Py.len products.
Proof.
  intros Hnd. induction products as [|x l IH]; intro Hin.
  - cbn [filter]. unfold Py.len. cbn [List.length].
    rewrite sum_fold_right. clear. induction ids; cbn [map fold_right]; lia.
  - rewrite (map_ext _ (fun c =>
                          ((if (Product.category_id x =? c)%Z then 1 else 0)
                           + Py.len (filter
                                       (fun p =>
                                          (Product.category_id p =? c)%Z)
                                       l))%Z))
      by (intro c;
          apply (@len_filter_cons _
                   (fun p => (Product.category_id p =? c)%Z))).
    rewrite sum_map_add, (sum_indicator _ Hnd), IH
      by (intros p Hp; apply Hin; now right).
    destruct (in_dec Z.eq_dec (Product.category_id x) ids) as [_|Hn].
    + unfold Py.len. cbn [List.length]. lia.
    + destruct Hn. apply Hin. now left.
Qed.

(** X29. In a store reached by requests, the product counts that
    [list_categories] gives with the categories add up to the number of
    products: every product is counted with exactly one listed category.
    [get_category] answers 404 for an identifier that is not stored, and
    so does the listing of the products of the category; for a stored
    one it gives the entry of [list_categories] for that category, and
    its product count is the total that the listing of the products of
    the category reports, whatever the order and the page. *)
Theorem category_counts_spec {L : Py.Lower} (rs : list request) :
  let s := serve_all rs empty_store in
  Py.sum (map CategoryWithCount.product_count
              (CategoriesRouter.list_categories s))
  = Py.len (get_all_products (tables s))
  /\ map CategoryWithCount.category (CategoriesRouter.list_categories s)
     = get_all_categories s
  /\ forall category_id sort_by order page page_size,
       match get_category s category_id with
       | None =>
           CategoriesRouter.get_category category_id s
           = HTTPException HTTP_404_NOT_FOUND
               (category_not_found category_id)
           /\ ProductsRouter.get_products_by_category category_id sort_by
                order page page_size s
              = HTTPException HTTP_404_NOT_FOUND
                  (category_not_found category_id)
       | Some c =>
           exists entry listing,
             CategoriesRouter.get_category category_id s = Ok entry
             /\ In entry (CategoriesRouter.list_categories s)
             /\ CategoryWithCount.category entry = c
             /\ Category.id c = category_id
             /\ ProductsRouter.get_products_by_category category_id sort_by
                  order page page_size s = Ok listing
             /\ Page.total listing = CategoryWithCount.product_count entry
       end.
Proof.
  cbv zeta.
  destruct (serve_all_consistent rs consistent_empty)
    as (_ & (_ & _ & Hcat) & _ & _ & (_ & Hp & _)).
  set (s := serve_all rs empty_store) in *.
  pose proof Hcat as (_ & _ & Hid).
  assert (Hids : map Category.id (get_all_categories s)
                 = map fst (_categories s)).
  { unfold get_all_categories, Dict.values. rewrite map_map.
    apply map_ext_in. intros [k c] Hin. now apply Hid. }
  split.
  { unfold CategoriesRouter.list_categories. rewrite map_map.
    cbn [CategoryWithCount.product_count].
    unfold get_category_product_count.
    rewrite <- (map_map Category.id
                  (fun c => Py.len (filter
                                      (fun p =>
                                         (Product.category_id p =? c)%Z)
                                      (Dict.values
                                         (_products (tables s)))))).
    rewrite Hids. apply counts_partition.
    - exact (table_ok_NoDup Hcat).
    - intros p Hin. unfold Dict.values in Hin. apply in_map_iff in Hin.
      destruct Hin as ([k p'] & <- & Hin). cbn [snd].
      destruct (Hp _ _ Hin) as [_ [c Hc]]. unfold get_category in Hc.
      apply get_In in Hc. now apply (in_map fst) in Hc. }
  split.
  { unfold CategoriesRouter.list_categories. rewrite map_map.
    cbn [CategoryWithCount.category]. apply map_id. }
  intros category_id sort_by order page page_size.
  unfold CategoriesRouter.get_category,
    ProductsRouter.get_products_by_category.
  destruct (get_category s category_id) as [c|] eqn:Ec; [|now split].
  unfold get_category in Ec. apply get_In in Ec.
  pose proof (proj2 (Hid _ _ Ec)) as Hc.
  do 2 eexists. split; [reflexivity|]. split.
  { unfold CategoriesRouter.list_categories. apply in_map_iff.
    exists c. rewrite Hc. split; [reflexivity|].
    unfold get_all_categories, Dict.values.
    now apply (in_map snd) in Ec. }
  split; [reflexivity|]. split; [exact Hc|]. split; [reflexivity|].
  cbn [paginate Page.total CategoryWithCount.product_count].
  unfold paginate. cbn [Page.total].
  unfold get_category_product_count, Py.len. f_equal.
  apply Permutation_length, apply_sorting_perm.
Qed.

(** ** Votes *)

(** X30. [POST /reviews/{review_id}/helpful] answers 404 for a review
    that is not stored and leaves the store as it is.  For a stored
    review the answer carries the count after the vote, one more than
    before, which is also what the store then holds; the review is
    always found again after the vote, and nothing else of it, and no
    other review, changes. *)
Theorem mark_review_helpful_spec (s : in_memory_database) (review_id : Z) :
  match get_review (tables s) review_id with
  | None =>
      ReviewsRouter.mark_review_helpful review_id s
      = (HTTPException HTTP_404_NOT_FOUND (review_not_found review_id), s)
  | Some r =>
      exists answer s',
        ReviewsRouter.mark_review_helpful review_id s = (Ok answer, s')
        /\ HelpfulResponse.helpful_count answer
           = (Review.helpful_count r + 1)%Z
        /\ get_review (tables s') review_id = Some (add_helpful r)
        /\ Review.rating (add_helpful r) = Review.rating r
        /\ Review.product_id (add_helpful r) = Review.product_id r
        /\ (forall k, k <> review_id ->
              get_review (tables s') k = get_review (tables s) k)
        /\ _products (tables s') = _products (tables s)
  end.
Proof.
  unfold ReviewsRouter.mark_review_helpful, on_tables, increment_helpful,
    get_review, Dict.contains.
  destruct (Dict.get (_reviews (tables s)) review_id) as [r|] eqn:E;
    cbn [fst snd negb tables _reviews]; [|now destruct s].
  rewrite get_modify, Z.eqb_refl, E. cbn [option_map].
  do 2 eexists. split; [reflexivity|].
  cbn [HelpfulResponse.helpful_count add_helpful Review.helpful_count
       tables _reviews _products Review.rating Review.product_id].
  split; [reflexivity|].
  split; [now rewrite get_modify, Z.eqb_refl, E|].
  split; [reflexivity|]. split; [reflexivity|]. split; [|reflexivity].
  intros k Hk. rewrite get_modify.
  destruct (Z.eqb_spec review_id k); [congruence|reflexivity].
Qed.

(** ** The running store, by computation *)

Example handlers_example :
  map (fun k => status_of
                  (fst (ProductsRouter.change_product 1 (new_price 90) k t0
                          sample_store)))
      [None; Some "no_such_key"; Some "seller_key_002";
       Some "seller_key_001"]
  = [401; 403; 403; 200]%Z
  /\ status_of (fst (ProductsRouter.change_product 9 (new_price 90)
                       (Some "seller_key_001") t0 sample_store)) = 404%Z
  /\ option_map Product.final_price
       (get_product
          (tables (snd (ProductsRouter.change_product 1 (new_price 90)
                          (Some "seller_key_001") t0 sample_store))) 1)
     = Some 90%Q
  /\ match ReviewsRouter.get_review_stats 1 sample_store with
     | Ok stats =>
         (ReviewStats.total_reviews stats,
          ReviewStats.average_rating stats,
          ReviewStats.rating_distribution stats,
          ReviewStats.recommendation_percentage stats)
         = (2%Z, 9 # 2, [("5", 1); ("4", 1); ("3", 0); ("2", 0); ("1", 0)]%Z,
            100%Q)
     | HTTPException _ _ => False
     end
  /\ map CategoryWithCount.product_count
         (CategoriesRouter.list_categories sample_store) = [1; 1]%Z.
Proof. vm_compute. repeat split. Qed.
